(** * webcamEyeTracker: gaze-ratio arithmetic and calibration fit

    A shallow embedding of [src/eye_tracker.py] and [src/calibration.py].

    Number model.  The program is embedded twice.

    In the first embedding Python floats and NumPy [float64] scalars are
    real numbers ([R]): it says what the formulas of the program compute in
    exact arithmetic, and it is where the statements about those formulas
    are proved.  Rounding, overflow, infinities and not-a-number are outside
    it.

    The second embedding (module [Doubles]) evaluates the same code on IEEE
    754 binary64 numbers, with the operations of [SpecFloat] rounding to
    nearest, ties to even.  It is used where the truth of a statement turns
    on a rounding: a computed spread that should be zero, a number that
    should be equal to itself after a trip through a file, a product that
    should stay below an integer.

    In both, where NumPy would divide by zero (and carry on with [inf] or
    [nan] after a RuntimeWarning) the model raises [ZeroDivision], so that a
    result [Ok _] certifies that no division by zero took place.  Python
    exceptions are values of [exn]; code that can raise lives in the
    [result] monad. *)

From Stdlib Require Import Reals Lra Lia ZArith SpecFloat.
From stdpp Require Import base option list strings gmap.

#[local] Open Scope R_scope.

(** ** Exceptions *)

Inductive exn : Type :=
  | IndexError      (* indexing a 0-d NumPy scalar *)
  | ValueError      (* reduction of a zero-size array, int() of a non-number *)
  | ZeroDivision    (* a float division whose divisor is zero *)
  | OSError         (* the operating system refused a file operation *)
  | OverflowError   (* int() of an infinity, float() of too large an int *)
  | ModuleNotFoundError.  (* an import of a module that is not on the path *)

Inductive result (A : Type) : Type :=
  | Ok (a : A)
  | Raise (e : exn).
Arguments Ok {A} a.
Arguments Raise {A} e.

#[export] Instance result_ret : MRet result := fun A a => Ok a.
#[export] Instance result_bind : MBind result := fun A B f m =>
  match m with
  | Ok a => f a
  | Raise e => Raise e
  end.

#[export] Instance R_eq_dec : EqDecision R := Req_dec_T.
#[export] Instance Rlt_decision (x y : R) : Decision (x < y) := Rlt_dec x y.
#[export] Instance Rle_decision (x y : R) : Decision (x <= y) := Rle_dec x y.

(** Float division.  The divisor is inspected first; a zero divisor is a
    fault of the model. *)
Definition fdiv (a b : R) : result R :=
  if decide (b = 0) then Raise ZeroDivision else Ok (a / b).

Infix "/?" := fdiv (at level 40, left associativity) : R_scope.

(** ** The NumPy operations the program calls *)

Module np.

(** [np.add.reduce] over a one-dimensional array, left to right. *)
Definition sum (a : list R) : R := foldl Rplus 0 a.

(** [np.mean(a)]: the sum divided by the number of items.  On the empty
    array NumPy divides zero by zero. *)
Definition mean (a : list R) : result R := sum a /? INR (length a).

(** [np.std(a)]: the root of the mean squared deviation from the mean
    (population standard deviation, [ddof = 0]). *)
Definition std (a : list R) : result R :=
  m ← mean a;
  var ← mean (map (fun x => (x - m) * (x - m)) a);
  mret (sqrt var).

(** [np.clip(x, lo, hi)] on a scalar: [minimum(maximum(x, lo), hi)]. *)
Definition clip (x lo hi : R) : R := Rmin (Rmax x lo) hi.

(** [np.min(a)] and [np.max(a)] of a one-dimensional array; a zero-size
    array has no minimum and the reduction raises. *)
Definition min (a : list R) : result R :=
  match a with
  | [] => Raise ValueError
  | x :: xs => Ok (foldl Rmin x xs)
  end.

Definition max (a : list R) : result R :=
  match a with
  | [] => Raise ValueError
  | x :: xs => Ok (foldl Rmax x xs)
  end.

(** An [n x 2] array is a list of rows; [a[:, 0]] and [a[:, 1]] are its
    columns. *)
Definition col0 (a : list (R * R)) : list R := map fst a.
Definition col1 (a : list (R * R)) : list R := map snd a.

(** Reductions with [axis=0] work column by column. *)
Definition min_axis0 (a : list (R * R)) : result (R * R) :=
  x ← min (col0 a); y ← min (col1 a); mret (x, y).

Definition max_axis0 (a : list (R * R)) : result (R * R) :=
  x ← max (col0 a); y ← max (col1 a); mret (x, y).

(** [np.mean(a, axis=0)] followed by an index.  [np.array([])] has shape
    [(0,)], its mean along axis 0 is a 0-d scalar, and indexing that scalar
    raises. *)
Definition mean_axis0 (a : list (R * R)) : result (R * R) :=
  match a with
  | [] => Raise IndexError
  | _ => x ← mean (col0 a); y ← mean (col1 a); mret (x, y)
  end.

End np.

(** [int(x)]: truncation towards zero. *)
Definition int (x : R) : Z :=
  if decide (0 <= x) then Int_part x else (- Int_part (- x))%Z.

(** ** Dictionaries and the outside world *)

(** A calibration dictionary: JSON numbers by key. *)
Abbreviation dict := (gmap string R).

(** [d.get(key, default)] *)
Definition get (d : dict) (key : string) (dflt : R) : R := default dflt (d !! key).

(** Truth value of [self.calibration_data]: [None] and the empty dictionary
    are false. *)
Definition truthy (cd : option dict) : bool :=
  match cd with
  | None => false
  | Some d => bool_decide (size d ≠ 0%nat)
  end.

(** A JSON value that is neither an object of numbers nor [null]: the
    other values [json.load] accepts and returns. *)
Inductive foreign : Type :=
  | JsonBool (b : bool)
  | JsonNumber (x : R)
  | JsonString (s : string)
  | JsonArray                 (* a list, whatever its items *)
  | JsonMixedObject.          (* a dict with a value that is not a number *)

(** What a path holds, as [json.load] sees it: an object whose values are
    all numbers, [null], another JSON value, or text that [json.load]
    rejects. *)
Inductive file_content : Type :=
  | JsonObject (d : dict)
  | JsonNull
  | JsonForeign (v : foreign)
  | Malformed.

Inductive line : Type :=
  | LoadedFrom (path : string)        (* "Loaded calibration from {path}" *)
  | ErrorLoading (e : exn)            (* "Error loading calibration: {e}" *)
  | SavedTo (path : string)           (* "Saved calibration to {path}" *)
  | ErrorSaving (e : exn).            (* "Error saving calibration: {e}" *)

(** The part of the operating system the tracker touches.  The three
    refusal fields are the environment's choice, not the program's: they
    concern writing.  A file that exists can be opened for reading. *)
Record World : Type := mkWorld {
  files : gmap string file_content;   (* the files that exist *)
  mkdir_denied : gset string;         (* files whose directory cannot be made *)
  open_denied : gset string;          (* paths [open(.., 'w')] raises on *)
  disk_full : bool;                   (* a write after [open] raises *)
  stdout : list line                  (* what [print] has written *)
}.

Definition print (l : line) (w : World) : World :=
  mkWorld (files w) (mkdir_denied w) (open_denied w) (disk_full w) (stdout w ++ [l]).

Definition set_file (path : string) (c : file_content) (w : World) : World :=
  mkWorld (<[path := c]> (files w)) (mkdir_denied w) (open_denied w) (disk_full w) (stdout w).

(** ** eye_tracker.py *)

Module EyeTracker.

Record t : Type := mk {
  camera_id : Z;
  calibration_data : option dict;
  calibration_file : string
}.

Definition set_calibration_data (self : t) (cd : option dict) : t :=
  mk (camera_id self) cd (calibration_file self).

(** [calculate_gaze_ratio(iris_center, eye_coords)] *)
Definition calculate_gaze_ratio (iris_center : R * R) (eye_coords : list (R * R))
  : result (R * R) :=
  (* Calculate eye bounding box *)
  eye_min ← np.min_axis0 eye_coords;
  eye_max ← np.max_axis0 eye_coords;
  let eye_width := fst eye_max - fst eye_min in
  let eye_height := snd eye_max - snd eye_min in
  (* Avoid division by zero *)
  if decide (eye_width = 0 \/ eye_height = 0) then mret (0.5, 0.5)
  else
    (* Calculate relative position (0 to 1) *)
    h_ratio ← (fst iris_center - fst eye_min) /? eye_width;
    v_ratio ← (snd iris_center - snd eye_min) /? eye_height;
    (* Clamp values *)
    mret (np.clip h_ratio 0 1, np.clip v_ratio 0 1).

(** [apply_calibration(h_ratio, v_ratio)] *)
Definition apply_calibration (self : t) (h_ratio v_ratio : R) : R * R :=
  if negb (truthy (calibration_data self)) then (h_ratio, v_ratio)
  else
    let d := default ∅ (calibration_data self) in
    (* Apply affine transformation from calibration *)
    let h_offset := get d "h_offset" 0 in
    let v_offset := get d "v_offset" 0 in
    let h_scale := get d "h_scale" 1 in
    let v_scale := get d "v_scale" 1 in
    let calibrated_h := (h_ratio - h_offset) * h_scale in
    let calibrated_v := (v_ratio - v_offset) * v_scale in
    (np.clip calibrated_h 0 1, np.clip calibrated_v 0 1).

(** [estimate_screen_position(left_gaze, right_gaze, screen_width, screen_height)] *)
Definition estimate_screen_position (self : t) (left_gaze right_gaze : R * R)
    (screen_width screen_height : Z) : Z * Z :=
  (* Average both eyes *)
  let avg_h := (fst left_gaze + fst right_gaze) / 2 in
  let avg_v := (snd left_gaze + snd right_gaze) / 2 in
  (* Apply calibration if available *)
  let '(avg_h, avg_v) :=
    if truthy (calibration_data self) then apply_calibration self avg_h avg_v
    else (avg_h, avg_v) in
  (* Map to screen coordinates; horizontal is inverted *)
  let screen_x := int ((1 - avg_h) * IZR screen_width) in
  let screen_y := int (avg_v * IZR screen_height) in
  (screen_x, screen_y).

(** The tracker object with whatever [json.load] put into
    [self.calibration_data].  [Typed self]: [None] or a dictionary of
    numbers, the type [save_calibration] declares and the trackers the rest
    of the model follows.  [Untyped]: another JSON value, stored all the
    same; what the other methods do with it is not modelled. *)
Inductive object : Type :=
  | Typed (self : t)
  | Untyped (camera_id : Z) (calibration_data : foreign) (calibration_file : string).

Definition object_camera_id (o : object) : Z :=
  match o with Typed self => camera_id self | Untyped c _ _ => c end.

Definition object_calibration_file (o : object) : string :=
  match o with Typed self => calibration_file self | Untyped _ _ f => f end.

(** [load_calibration()]: returns the flag, the tracker and the world.
    Whatever [json.load] returns is assigned, reported as loaded and
    answered with True; only a missing file and an exception give False. *)
Definition load_calibration (self : t) (w : World) : bool * object * World :=
  match files w !! calibration_file self with
  | Some (JsonObject d) =>
      (true, Typed (set_calibration_data self (Some d)),
       print (LoadedFrom (calibration_file self)) w)
  | Some JsonNull =>
      (true, Typed (set_calibration_data self None),
       print (LoadedFrom (calibration_file self)) w)
  | Some (JsonForeign v) =>
      (true, Untyped (camera_id self) v (calibration_file self),
       print (LoadedFrom (calibration_file self)) w)
  | Some Malformed => (false, Typed self, print (ErrorLoading ValueError) w)
  | None => (false, Typed self, w)
  end.

(** [save_calibration(calibration_data)].  [os.makedirs] runs before the
    [try]; [open], [json.dump], the assignment to [self.calibration_data]
    and the success message run inside it, in that order. *)
Definition save_calibration (self : t) (calibration_data : dict) (w : World)
  : result t * World :=
  if decide (calibration_file self ∈ mkdir_denied w) then (Raise OSError, w)
  else if decide (calibration_file self ∈ open_denied w) then
    (* [open] raised: the file is untouched *)
    (Ok self, print (ErrorSaving OSError) w)
  else if disk_full w then
    (* [open(.., 'w')] truncated the file, then the write raised *)
    (Ok self, print (ErrorSaving OSError) (set_file (calibration_file self) Malformed w))
  else
    let w := set_file (calibration_file self) (JsonObject calibration_data) w in
    let self := set_calibration_data self (Some calibration_data) in
    (Ok self, print (SavedTo (calibration_file self)) w).

End EyeTracker.

(** ** calibration.py *)

Module calibration.

Record CalibrationPoint : Type := mkPoint {
  screen_pos : R * R;
  gaze_samples : list (R * R)
}.

(** [add_sample(h_ratio, v_ratio)] *)
Definition add_sample (self : CalibrationPoint) (h_ratio v_ratio : R) : CalibrationPoint :=
  mkPoint (screen_pos self) (gaze_samples self ++ [(h_ratio, v_ratio)]).

(** [get_average_gaze()] *)
Definition get_average_gaze (self : CalibrationPoint) : result (R * R) :=
  match gaze_samples self with
  | [] => mret (0.5, 0.5)
  | _ =>
      avg_h ← np.mean (map fst (gaze_samples self));
      avg_v ← np.mean (map snd (gaze_samples self));
      mret (avg_h, avg_v)
  end.

(** The [for point in calibration_points] loop, appending to both lists. *)
Fixpoint collect (calibration_points : list CalibrationPoint)
    (screen_positions gaze_positions : list (R * R))
  : result (list (R * R) * list (R * R)) :=
  match calibration_points with
  | [] => mret (screen_positions, gaze_positions)
  | point :: rest =>
      avg ← get_average_gaze point;
      collect rest (screen_positions ++ [screen_pos point]) (gaze_positions ++ [avg])
  end.

(** [calculate_calibration_transform(calibration_points)]; [now] is the
    value of [time.time()]. *)
Definition calculate_calibration_transform
    (calibration_points : list CalibrationPoint) (now : R) : result dict :=
  (* Collect all screen positions and corresponding gaze measurements *)
  '(screen_positions, gaze_positions) ← collect calibration_points [] [];
  (* Calculate offset (difference from center) *)
  gaze_center ← np.mean_axis0 gaze_positions;
  screen_center ← np.mean_axis0 screen_positions;
  let h_offset := fst gaze_center - fst screen_center in
  let v_offset := snd gaze_center - snd screen_center in
  (* Calculate scale (spread ratio) *)
  gaze_spread_h ← np.std (np.col0 gaze_positions);
  gaze_spread_v ← np.std (np.col1 gaze_positions);
  screen_spread_h ← np.std (np.col0 screen_positions);
  screen_spread_v ← np.std (np.col1 screen_positions);
  h_scale ← (if decide (0 < gaze_spread_h) then screen_spread_h /? gaze_spread_h else mret 1);
  v_scale ← (if decide (0 < gaze_spread_v) then screen_spread_v /? gaze_spread_v else mret 1);
  mret (<["h_offset" := h_offset]>
       (<["v_offset" := v_offset]>
       (<["h_scale" := h_scale]>
       (<["v_scale" := v_scale]>
       (<["num_points" := INR (length calibration_points)]>
       (<["timestamp" := now]> ∅)))))).

End calibration.

(** ** Vocabulary of the specification

    These definitions follow the words of the specification, not the code;
    the theorems below compare the code with them. *)

Module Spec.

(** Clamping to the unit interval. *)
Definition clamp01 (x : R) : R :=
  if decide (x < 0) then 0 else if decide (1 < x) then 1 else x.

(** [z] is [x] truncated to an integer: the integer next to [x] on the side
    of zero. *)
Definition truncation (x : R) (z : Z) : Prop :=
  (0 <= x -> IZR z <= x < IZR z + 1) /\ (x <= 0 -> IZR z - 1 < x <= IZR z).

(** The arithmetic mean of a sequence. *)
Definition mean (l : list R) : R := fold_right Rplus 0 l / INR (length l).

(** The (population) standard deviation of a sequence. *)
Definition stddev (l : list R) : R :=
  sqrt (mean (map (fun x => (x - mean l) ^ 2) l)).

(** The average of a point's samples, (0.5, 0.5) when it has none. *)
Definition average_gaze (p : calibration.CalibrationPoint) : R * R :=
  match calibration.gaze_samples p with
  | [] => (0.5, 0.5)
  | samples => (mean (map fst samples), mean (map snd samples))
  end.

(** The two axes of a ratio pair, and the dictionary keys of each. *)
Inductive axis : Type := Horizontal | Vertical.

Definition coord (ax : axis) (p : R * R) : R :=
  match ax with Horizontal => fst p | Vertical => snd p end.

Definition offset_key (ax : axis) : string :=
  match ax with Horizontal => "h_offset" | Vertical => "v_offset" end.

Definition scale_key (ax : axis) : string :=
  match ax with Horizontal => "h_scale" | Vertical => "v_scale" end.

(** The columns the fit works on: averaged gaze ratios and target
    positions, per axis. *)
Definition gaze (ax : axis) (pts : list calibration.CalibrationPoint) : list R :=
  map (fun p => coord ax (average_gaze p)) pts.

Definition target (ax : axis) (pts : list calibration.CalibrationPoint) : list R :=
  map (fun p => coord ax (calibration.screen_pos p)) pts.

(** The ratio pair [estimate_screen_position] maps to pixels: the two eyes
    averaged, then calibrated when calibration data is present. *)
Definition averaged_ratio (self : EyeTracker.t) (left_gaze right_gaze : R * R) : R * R :=
  let avg_h := (fst left_gaze + fst right_gaze) / 2 in
  let avg_v := (snd left_gaze + snd right_gaze) / 2 in
  match EyeTracker.calibration_data self with
  | Some _ => EyeTracker.apply_calibration self avg_h avg_v
  | None => (avg_h, avg_v)
  end.

(** Offset and scale of the fit, in the words of section 4.3: the offset is
    gaze centroid minus target centroid; the scale is target spread over
    gaze spread, or 1 when the gaze spread is zero. *)
Definition fitted_offset (ax : axis) (pts : list calibration.CalibrationPoint) : R :=
  mean (gaze ax pts) - mean (target ax pts).

Definition fitted_scale (ax : axis) (pts : list calibration.CalibrationPoint) : R :=
  if decide (stddev (gaze ax pts) = 0) then 1
  else stddev (target ax pts) / stddev (gaze ax pts).

(** Two ratios are near each other when they differ by at most a tenth of
    the unit interval. *)
Definition tolerance : R := 0.1.
Definition near (a b : R) : Prop := Rabs (a - b) <= tolerance.

(** The write of [save_calibration] raises: the directory could be made,
    and then [open] or the write itself was refused. *)
Definition write_raises (self : EyeTracker.t) (w : World) : Prop :=
  (EyeTracker.calibration_file self ∉ mkdir_denied w)
  /\ ((EyeTracker.calibration_file self ∈ open_denied w) \/ disk_full w = true).

End Spec.

(** ** Three sentences of the specification, as they are written *)

Module Claimed.

(** Offsets and scales of the fit, with the scale a plain quotient. *)
Definition fit_is_quotient (pts : list calibration.CalibrationPoint) (now : R) : Prop :=
  exists d : dict,
    calibration.calculate_calibration_transform pts now = Ok d
    /\ forall ax : Spec.axis,
         d !! Spec.offset_key ax = Some (Spec.fitted_offset ax pts)
         /\ d !! Spec.scale_key ax
            = Some (Spec.stddev (Spec.target ax pts) / Spec.stddev (Spec.gaze ax pts)).

(** The fitted parameters send the gaze centroid near the target centroid. *)
Definition centroid_round_trip (pts : list calibration.CalibrationPoint) (now : R) : Prop :=
  exists d : dict,
    calibration.calculate_calibration_transform pts now = Ok d
    /\ let self := EyeTracker.mk 0 (Some d) "calibration_data/calibration.json" in
       let image :=
         EyeTracker.apply_calibration self
           (Spec.mean (Spec.gaze Spec.Horizontal pts))
           (Spec.mean (Spec.gaze Spec.Vertical pts)) in
       forall ax : Spec.axis,
         Spec.near (Spec.coord ax image) (Spec.mean (Spec.target ax pts)).

(** A failed write is logged and the tracker holds the new dictionary all
    the same. *)
Definition failed_write_updates_memory
    (self : EyeTracker.t) (calibration_data : dict) (w : World) : Prop :=
  Spec.write_raises self w ->
  exists (self' : EyeTracker.t) (e : exn),
    fst (EyeTracker.save_calibration self calibration_data w) = Ok self'
    /\ stdout (snd (EyeTracker.save_calibration self calibration_data w))
       = stdout w ++ [ErrorSaving e]
    /\ EyeTracker.calibration_data self' = Some calibration_data.

End Claimed.

(** ** Sample data *)

Module Sample.

Definition path : string := "calibration_data/calibration.json".

(** A tracker calibrated with offset (0.25, 0) and scale (2, 1). *)
Definition params : dict :=
  <["h_offset" := 0.25]> (<["v_offset" := 0]> (<["h_scale" := 2]> (<["v_scale" := 1]> ∅))).

Definition calibrated_tracker : EyeTracker.t := EyeTracker.mk 0 (Some params) path.

(** A tracker that found no calibration file. *)
Definition fresh_tracker : EyeTracker.t := EyeTracker.mk 0 None path.

(** Two targets on which no sample was recorded (no face was detected). *)
Definition unsampled_points : list calibration.CalibrationPoint :=
  [calibration.mkPoint (0.25, 0.25) []; calibration.mkPoint (0.75, 0.75) []].

(** Two targets around (0.25, 0.25), one sample each, the gaze ratios half
    as spread as the targets and centred on (0.5, 0.5). *)
Definition narrow_gaze_points : list calibration.CalibrationPoint :=
  [calibration.mkPoint (0.125, 0.125) [(0.4375, 0.4375)];
   calibration.mkPoint (0.375, 0.375) [(0.5625, 0.5625)]].

(** What the fit returns on them at time 0. *)
Definition narrow_gaze_fit : dict :=
  <["h_offset" := 0.25]> (<["v_offset" := 0.25]> (<["h_scale" := 2]> (<["v_scale" := 2]>
  (<["num_points" := 2]> (<["timestamp" := 0]> ∅))))).

(** A world in which the calibration file cannot be opened for writing. *)
Definition read_only_world : World := mkWorld ∅ ∅ {[path]} false [].

End Sample.


(** ** eye_tracker.py: construction *)

Module Construct.

Definition default_calibration_file : string := "calibration_data/calibration.json".

(** [__init__(camera_id, calibration_file)].  [calibration_file or default]
    takes the default for [None] and for the empty string.  The face-mesh
    object the constructor also creates is the library's and is not part of
    the tracker record. *)
Definition init (camera_id : Z) (calibration_file : option string) (w : World)
  : EyeTracker.object * World :=
  let calibration_file :=
    match calibration_file with
    | None => default_calibration_file
    | Some f => if decide (f = "") then default_calibration_file else f
    end in
  let self := EyeTracker.mk camera_id None calibration_file in
  (* Load calibration if available *)
  let '(_, self, w) := EyeTracker.load_calibration self w in
  (self, w).

End Construct.

(** ** eye_tracker.py: from a frame to a gaze position *)

Module Frames.

(** MediaPipe Face Mesh landmark indices for eyes *)
Definition LEFT_EYE_INDICES : list nat := [33; 133; 160; 159; 158; 144; 145; 153]%nat.
Definition RIGHT_EYE_INDICES : list nat := [362; 263; 387; 386; 385; 373; 374; 380]%nat.
Definition LEFT_IRIS_INDICES : list nat := [468; 469; 470; 471; 472]%nat.
Definition RIGHT_IRIS_INDICES : list nat := [473; 474; 475; 476; 477]%nat.

(** What the face-mesh model reports for a frame: the frame's shape
    (height, width), and [results.multi_face_landmarks], each face a
    sequence of landmarks with normalised [x] and [y].  The model itself is
    the library's; the tracker only reads its result. *)
Record Frame : Type := mkFrame {
  shape : Z * Z;
  multi_face_landmarks : option (list (list (R * R)))
}.

(** The inner function of [get_eye_landmarks]: one landmark per index,
    scaled to pixels, appended in order; indexing past the end raises. *)
Fixpoint get_landmarks_coords (face_landmarks : list (R * R)) (w h : Z)
    (indices : list nat) (coords : list (R * R)) : result (list (R * R)) :=
  match indices with
  | [] => mret coords
  | idx :: rest =>
      match face_landmarks !! idx with
      | None => Raise IndexError
      | Some landmark =>
          get_landmarks_coords face_landmarks w h rest
            (coords ++ [(fst landmark * IZR w, snd landmark * IZR h)])
      end
  end.

(** [get_eye_landmarks(face_landmarks, frame_shape)]: for each eye, the
    iris centre and the boundary points. *)
Definition get_eye_landmarks (face_landmarks : list (R * R)) (frame_shape : Z * Z)
  : result ((R * R * list (R * R)) * (R * R * list (R * R))) :=
  let '(h, w) := frame_shape in
  (* Get iris centers *)
  left_iris ← get_landmarks_coords face_landmarks w h LEFT_IRIS_INDICES [];
  right_iris ← get_landmarks_coords face_landmarks w h RIGHT_IRIS_INDICES [];
  left_iris_center ← np.mean_axis0 left_iris;
  right_iris_center ← np.mean_axis0 right_iris;
  (* Get eye boundaries *)
  left_eye_coords ← get_landmarks_coords face_landmarks w h LEFT_EYE_INDICES [];
  right_eye_coords ← get_landmarks_coords face_landmarks w h RIGHT_EYE_INDICES [];
  mret ((left_iris_center, left_eye_coords), (right_iris_center, right_eye_coords)).

(** [process_frame(frame)], the gaze position it returns.  The eye data are
    non-empty tuples, so the test on them always passes; the position is
    estimated for the default 1920 x 1080 screen.  The drawing on the frame
    is left out. *)
Definition process_frame (self : EyeTracker.t) (frame : Frame) : result (option (Z * Z)) :=
  match multi_face_landmarks frame with
  | Some (face_landmarks :: _) =>
      (* Get eye landmarks *)
      '(left_eye_data, right_eye_data) ← get_eye_landmarks face_landmarks (shape frame);
      let '(left_iris_center, left_eye_coords) := left_eye_data in
      let '(right_iris_center, right_eye_coords) := right_eye_data in
      (* Calculate gaze ratios *)
      left_gaze ← EyeTracker.calculate_gaze_ratio left_iris_center left_eye_coords;
      right_gaze ← EyeTracker.calculate_gaze_ratio right_iris_center right_eye_coords;
      (* Estimate screen position *)
      mret (Some (EyeTracker.estimate_screen_position self left_gaze right_gaze 1920 1080))
  | Some [] | None => mret None
  end.

End Frames.

(** ** eye_tracker.py: the camera *)

Module Camera.

(** A [cv2.VideoCapture] object: opened, not opened (the device could not
    be had), or released. *)
Inductive capture : Type := Opened | NotOpened | Released.

(** The tracker together with [self.cap].  Only the capture that
    [self.cap] refers to is followed: one that [start_camera] replaces is no
    longer reachable from the tracker, released or not. *)
Record Session : Type := mkSession {
  tracker : EyeTracker.t;
  cap : option capture
}.

(** Camera and keyboard, as scripts the environment has written: whether
    the successive [VideoCapture] objects open, the frames [cap.read()] will
    deliver ([ret] is false once they are used up), and the codes
    [cv2.waitKey] will return (-1, no key, once they are used up).  Windows
    and console messages of the functions below are not recorded. *)
Record Studio : Type := mkStudio {
  opens : list bool;
  frames : list Frames.Frame;
  keys : list Z
}.

(** [start_camera()]: a new capture replaces [self.cap]. *)
Definition start_camera (self : Session) (st : Studio) : bool * Session * Studio :=
  let opened := hd false (opens st) in
  let st := mkStudio (tl (opens st)) (frames st) (keys st) in
  if opened then (true, mkSession (tracker self) (Some Opened), st)
  else (false, mkSession (tracker self) (Some NotOpened), st).

(** [stop_camera()] *)
Definition stop_camera (self : Session) : Session :=
  match cap self with
  | Some _ => mkSession (tracker self) (Some Released)
  | None => self
  end.

(** [cv2.waitKey(delay) & 0xFF] *)
Definition wait_key (keys : list Z) : Z * list Z :=
  (Z.land (hd (-1)%Z keys) 255, tl keys).

End Camera.

(** ** calibration.py: the calibration walk *)

Module Walk.

(** The targets of [run_calibration]: the 3 x 3 grid for nine points, the
    centre and the four corners for five and for any other number. *)
Definition positions (num_points : Z) : list (R * R) :=
  if (num_points =? 9)%Z then
    [(0.1, 0.1); (0.5, 0.1); (0.9, 0.1);
     (0.1, 0.5); (0.5, 0.5); (0.9, 0.5);
     (0.1, 0.9); (0.5, 0.9); (0.9, 0.9)]
  else if (num_points =? 5)%Z then
    [(0.5, 0.5); (0.1, 0.1); (0.9, 0.1); (0.1, 0.9); (0.9, 0.9)]
  else
    [(0.5, 0.5); (0.1, 0.1); (0.9, 0.1); (0.1, 0.9); (0.9, 0.9)].

(** The loop that waits for the user: one frame and one key per round;
    SPACE (32) starts, ESC (27) cancels, and a failed read leaves the loop
    as SPACE does.  Returns whether the user cancelled, and what is left of
    frames and keys. *)
Fixpoint waiting (frames : list Frames.Frame) (keys : list Z)
  : bool * list Frames.Frame * list Z :=
  match frames with
  | [] => (false, [], keys)
  | _ :: frames =>
      let '(key, keys) := Camera.wait_key keys in
      if (key =? 32)%Z then (false, frames, keys)
      else if (key =? 27)%Z then (true, frames, keys)
      else waiting frames keys
  end.

(** What the sampling loop computes from a detected face: the gaze ratios
    of the two eyes, averaged per axis (without calibration). *)
Definition gaze_sample (face_landmarks : list (R * R)) (frame_shape : Z * Z)
  : result (R * R) :=
  '(left_eye_data, right_eye_data) ← Frames.get_eye_landmarks face_landmarks frame_shape;
  (* Calculate gaze ratios *)
  left_gaze ← EyeTracker.calculate_gaze_ratio (fst left_eye_data) (snd left_eye_data);
  right_gaze ← EyeTracker.calculate_gaze_ratio (fst right_eye_data) (snd right_eye_data);
  (* Average both eyes *)
  let avg_h := (fst left_gaze + fst right_gaze) / 2 in
  let avg_v := (snd left_gaze + snd right_gaze) / 2 in
  mret (avg_h, avg_v).

(** The sampling loop of one point: while fewer than [samples_per_point]
    samples were taken, read a frame (a failed read ends the loop); when a
    face is detected, record the average of the two eyes' gaze ratios; then
    wait 30 ms for a key.  An exception leaves the loop at once. *)
Fixpoint collect_samples (frames : list Frames.Frame) (keys : list Z)
    (cal_point : calibration.CalibrationPoint) (sample_count samples_per_point : Z)
  : result calibration.CalibrationPoint * list Frames.Frame * list Z :=
  if (sample_count <? samples_per_point)%Z then
    match frames with
    | [] => (Ok cal_point, [], keys)
    | frame :: frames =>
        match Frames.multi_face_landmarks frame with
        | Some (face_landmarks :: _) =>
            match gaze_sample face_landmarks (Frames.shape frame) with
            | Raise e => (Raise e, frames, keys)
            | Ok (avg_h, avg_v) =>
                collect_samples frames (snd (Camera.wait_key keys))
                  (calibration.add_sample cal_point avg_h avg_v)
                  (sample_count + 1) samples_per_point
            end
        | Some [] | None =>
            collect_samples frames (snd (Camera.wait_key keys))
              cal_point sample_count samples_per_point
        end
    end
  else (Ok cal_point, frames, keys).

(** The loop over the calibration points: a countdown of three one-second
    waits, then the sampling loop. *)
Fixpoint visit (calibration_points : list calibration.CalibrationPoint)
    (frames : list Frames.Frame) (keys : list Z) (samples_per_point : Z)
  : result (list calibration.CalibrationPoint) * list Frames.Frame * list Z :=
  match calibration_points with
  | [] => (Ok [], frames, keys)
  | cal_point :: rest =>
      let keys := drop 3 keys in
      match collect_samples frames keys cal_point 0 samples_per_point with
      | (Raise e, frames, keys) => (Raise e, frames, keys)
      | (Ok cal_point, frames, keys) =>
          match visit rest frames keys samples_per_point with
          | (Raise e, frames, keys) => (Raise e, frames, keys)
          | (Ok rest, frames, keys) => (Ok (cal_point :: rest), frames, keys)
          end
      end
  end.

(** [run_calibration(eye_tracker, num_points, samples_per_point)]; [now] is
    the value of [time.time()] when the fit is computed. *)
Definition run_calibration (eye_tracker : Camera.Session) (num_points samples_per_point : Z)
    (now : R) (st : Camera.Studio) (w : World)
  : result (option dict) * Camera.Session * Camera.Studio * World :=
  let calibration_points :=
    map (fun xy => calibration.mkPoint xy []) (positions num_points) in
  (* Start camera *)
  let '(started, eye_tracker, st) := Camera.start_camera eye_tracker st in
  if negb started then (Ok None, eye_tracker, st, w)
  else
    (* Wait for user to start *)
    let '(cancelled, frames, keys) := waiting (Camera.frames st) (Camera.keys st) in
    if cancelled then
      (Ok None, Camera.stop_camera eye_tracker, Camera.mkStudio (Camera.opens st) frames keys, w)
    else
      (* Run calibration for each point *)
      let '(visited, frames, keys) := visit calibration_points frames keys samples_per_point in
      match visited with
      | Raise e => (Raise e, eye_tracker, Camera.mkStudio (Camera.opens st) frames keys, w)
      | Ok calibration_points =>
          (* Calculate calibration parameters *)
          match calibration.calculate_calibration_transform calibration_points now with
          | Raise e => (Raise e, eye_tracker, Camera.mkStudio (Camera.opens st) frames keys, w)
          | Ok calibration_data =>
              (* Save calibration *)
              match EyeTracker.save_calibration (Camera.tracker eye_tracker) calibration_data w
              with
              | (Raise e, w) =>
                  (Raise e, eye_tracker, Camera.mkStudio (Camera.opens st) frames keys, w)
              | (Ok tracker, w) =>
                  (Ok (Some calibration_data),
                   Camera.mkSession tracker (Camera.cap eye_tracker),
                   Camera.mkStudio (Camera.opens st) frames (snd (Camera.wait_key keys)), w)
              end
          end
      end.

End Walk.

(** ** eye_tracker.py: live tracking *)

Module Live.

(** How [run_live] can end.  [OutOfFuel] is the model's, not the program's:
    the loop is unfolded a bounded number of times. *)
Inductive ending : Type :=
  | Returned
  | Raised (e : exn)
  | OutOfFuel.

(** The [while True] loop of [run_live].  A read fails when the capture is
    not open or the frames are used up ([self.cap] is never None here:
    [run_live] starts the camera first); 'q' (113) quits; 'c' (99) imports
    [run_calibration], stops the camera, runs the calibration with its
    default arguments and starts the camera again, whatever the calibration
    returned.

    [from calibration import run_calibration] names the module by its bare
    name: [on_path] says whether the directory [src/] is on the module
    search path, as the scripts of [examples/] arrange.  When the tracker
    was imported as part of the package ([src/__init__.py]) it is not, and
    the statement raises before the camera is stopped.

    [clock] holds the successive values of [time.time()]. *)
Fixpoint live_loop (on_path : bool) (fuel : nat) (self : Camera.Session) (clock : list R)
    (st : Camera.Studio) (w : World) : ending * Camera.Session * Camera.Studio * World :=
  match fuel with
  | O => (OutOfFuel, self, st, w)
  | S fuel =>
      match Camera.cap self, Camera.frames st with
      | Some Camera.Opened, frame :: frames =>
          let st := Camera.mkStudio (Camera.opens st) frames (Camera.keys st) in
          match Frames.process_frame (Camera.tracker self) frame with
          | Raise e => (Raised e, self, st, w)
          | Ok _ =>
              let '(key, keys) := Camera.wait_key (Camera.keys st) in
              let st := Camera.mkStudio (Camera.opens st) (Camera.frames st) keys in
              if (key =? 113)%Z then (Returned, self, st, w)
              else if (key =? 99)%Z then
                if negb on_path then (Raised ModuleNotFoundError, self, st, w)
                else
                  let self := Camera.stop_camera self in
                  match Walk.run_calibration self 9 30 (hd 0 clock) st w with
                  | (Raise e, self, st, w) => (Raised e, self, st, w)
                  | (Ok _, self, st, w) =>
                      let '(_, self, st) := Camera.start_camera self st in
                      live_loop on_path fuel self (tl clock) st w
                  end
              else live_loop on_path fuel self clock st w
          end
      | _, _ => (Returned, self, st, w)
      end
  end.

(** [run_live()]: the loop runs inside [try], and [finally] stops the
    camera.  One more round than there are frames is all the loop can
    use. *)
Definition run_live (on_path : bool) (self : Camera.Session) (clock : list R)
    (st : Camera.Studio) (w : World)
  : ending * Camera.Session * Camera.Studio * World :=
  let '(started, self, st) := Camera.start_camera self st in
  if negb started then (Returned, self, st, w)
  else
    let '(e, self, st, w) := live_loop on_path (S (length (Camera.frames st))) self clock st w in
    (e, Camera.stop_camera self, st, w).

End Live.

(** ** Vocabulary for landmarks *)

Module Pixels.

(** A normalised landmark in pixels of a frame [w] wide and [h] high. *)
Definition pixel (w h : Z) (p : R * R) : R * R := (fst p * IZR w, snd p * IZR h).

(** The landmarks at the given indices, in that order. *)
Definition pick (face_landmarks : list (R * R)) (indices : list nat) : list (R * R) :=
  map (fun idx => nth idx face_landmarks (0, 0)) indices.

(** The centroid of a set of points. *)
Definition centre (l : list (R * R)) : R * R := (Spec.mean (map fst l), Spec.mean (map snd l)).

(** The number of landmarks of a face mesh refined with iris landmarks. *)
Definition refined_mesh_size : nat := 478.

End Pixels.

(** ** Conditions the further properties are stated under *)

Module Cond.

(** The scales a tracker works with are not negative (1 when the key or
    the whole dictionary is missing). *)
Definition nonnegative_scales (self : EyeTracker.t) : Prop :=
  forall d : dict,
    EyeTracker.calibration_data self = Some d ->
    0 <= get d "h_scale" 1 /\ 0 <= get d "v_scale" 1.

(** A ratio pair with both components in [0,1]. *)
Definition unit_square (p : R * R) : Prop := 0 <= fst p <= 1 /\ 0 <= snd p <= 1.

(** A frame on which no face was detected. *)
Definition no_face (frame : Frames.Frame) : Prop :=
  match Frames.multi_face_landmarks frame with
  | Some (_ :: _) => False
  | Some [] | None => True
  end.

(** What a sampling loop may do to a point: the target stays, and at most
    [room] samples, all in the unit square, are appended. *)
Definition sampled (room : Z) (before after : calibration.CalibrationPoint) : Prop :=
  calibration.screen_pos after = calibration.screen_pos before
  /\ exists added : list (R * R),
       calibration.gaze_samples after = calibration.gaze_samples before ++ added
       /\ Forall unit_square added
       /\ (Z.of_nat (length added) <= Z.max 0 room)%Z.

End Cond.

(** ** More sample data *)

Module Cases.

(** A calibration file that lost its parameters: only the bookkeeping keys
    are left. *)
Definition bookkeeping_only : dict := <["num_points" := 9]> (<["timestamp" := 0]> ∅).

Definition bookkeeping_tracker : EyeTracker.t :=
  EyeTracker.mk 0 (Some bookkeeping_only) Sample.path.

(** A face of 478 landmarks spread over the frame: landmark [i] lies at
    x = i / 512 and y = (i mod 8) / 8. *)
Definition face : list (R * R) :=
  map (fun i => (INR i / 512, INR (i mod 8) / 8)) (seq 0 478).

End Cases.

(** * The program in double precision *)

(** ** IEEE 754 binary64 *)

Module F64.

Definition prec : Z := 53.
Definition emax : Z := 1024.

(** A double: a signed zero, a signed infinity, not-a-number, or a finite
    number given by sign, mantissa and exponent.  The numbers built below
    come from integers by the operations, which return doubles in canonical
    form. *)
Definition t : Type := spec_float.

Definition zero : t := S754_zero false.
Definition nan : t := S754_nan.

(** The five operations the program uses, each rounded to nearest, ties to
    even. *)
Definition add (x y : t) : t := SFadd prec emax x y.
Definition sub (x y : t) : t := SFsub prec emax x y.
Definition mul (x y : t) : t := SFmul prec emax x y.
Definition div (x y : t) : t := SFdiv prec emax x y.
Definition sqrt (x : t) : t := SFsqrt prec emax x.

(** Python's [==], [<] and [>] on floats: false as soon as an operand is
    not-a-number; the two zeros are equal. *)
Definition eqb (x y : t) : bool := SFeqb x y.
Definition ltb (x y : t) : bool := SFltb x y.
Definition gtb (x y : t) : bool := SFltb y x.

Definition is_nan (x : t) : bool :=
  match x with S754_nan => true | _ => false end.

Definition is_zero (x : t) : bool :=
  match x with S754_zero _ => true | _ => false end.

Definition is_finite (x : t) : bool :=
  match x with S754_zero _ | S754_finite _ _ _ => true | _ => false end.

(** The double nearest to an integer. *)
Definition of_Z (z : Z) : t := binary_normalize prec emax z 0 false.

Definition one : t := of_Z 1.
Definition two : t := of_Z 2.

(** The double a decimal literal denotes, the literal written as the
    quotient of two integers that are doubles themselves ([0.1] is
    [ratio 1 10]): the quotient rounded once is the double nearest to the
    literal. *)
Definition ratio (m n : Z) : t := div (of_Z m) (of_Z n).

Definition half : t := ratio 5 10.

(** [2 ** e] for a small [e], by scaling 1. *)
Definition pow2 (e : Z) : t := SFldexp prec emax one e.

(** [float(z)] for a Python int [z], as the arithmetic operators convert an
    int operand: an int beyond the range of the doubles raises. *)
Definition of_int (z : Z) : result t :=
  if is_finite (of_Z z) then Ok (of_Z z) else Raise OverflowError.

(** [int(x)]: truncation towards zero; not-a-number and the infinities
    raise. *)
Definition to_int (x : t) : result Z :=
  match x with
  | S754_zero _ => Ok 0%Z
  | S754_finite s m e => Ok (cond_Zopp s (Z.shiftl (Zpos m) e))
  | S754_nan => Raise ValueError
  | S754_infinity _ => Raise OverflowError
  end.

End F64.

(** ** The program on doubles

    The same functions as above, line by line, with [F64.t] where the first
    embedding has [R].  NumPy's [float64] scalars and Python's floats are
    the same numbers and are not told apart. *)

Module Doubles.

(** A float division whose divisor is a zero is a fault of the model, as in
    the first embedding. *)
Definition fdiv (a b : F64.t) : result F64.t :=
  if F64.is_zero b then Raise ZeroDivision else Ok (F64.div a b).

(** A Python number: the values of a calibration dictionary are floats,
    and [num_points] is an int. *)
Inductive number : Type :=
  | Int (z : Z)
  | Float (x : F64.t).

Abbreviation dict := (gmap string number).

(** The float an arithmetic operator makes of a number operand. *)
Definition as_float (v : number) : result F64.t :=
  match v with
  | Int z => F64.of_int z
  | Float x => Ok x
  end.

(** [d.get(key, default)] *)
Definition get (d : dict) (key : string) (dflt : number) : number := default dflt (d !! key).

Definition truthy (cd : option dict) : bool :=
  match cd with
  | None => false
  | Some d => bool_decide (size d ≠ 0%nat)
  end.

Module np.

(** Accumulation from 0, item by item: how NumPy adds along an axis that
    is not the fast one in memory, and how it adds fewer than eight
    items. *)
Definition accumulate (a : list F64.t) : F64.t := foldl F64.add F64.zero a.

(** NumPy's pairwise summation, used along the fast axis.  From eight to
    128 items, eight accumulators take the items of the full blocks of
    eight in turn, are added up in pairs, and the items left over are added
    one by one. *)
Fixpoint add_blocks (k : nat) (r a : list F64.t) : list F64.t * list F64.t :=
  match k with
  | O => (r, a)
  | S k => add_blocks k (zip_with F64.add r (take 8 a)) (drop 8 a)
  end.

Definition add_pairs (r : list F64.t) : F64.t :=
  match r with
  | [r0; r1; r2; r3; r4; r5; r6; r7] =>
      F64.add (F64.add (F64.add r0 r1) (F64.add r2 r3))
              (F64.add (F64.add r4 r5) (F64.add r6 r7))
  | _ => F64.zero
  end.

Definition block_sum (a : list F64.t) : F64.t :=
  let '(r, rest) := add_blocks (length a / 8 - 1) (take 8 a) (drop 8 a) in
  foldl F64.add (add_pairs r) rest.

(** Above 128 items the array is cut in two, the first part a multiple of
    eight long, and the sums of the parts are added.  [fuel] bounds the
    depth of the cutting; [None] means it ran out. *)
Fixpoint pairwise_sum (fuel : nat) (a : list F64.t) : option F64.t :=
  if (length a <? 8)%nat then Some (accumulate a)
  else if (length a <=? 128)%nat then Some (block_sum a)
  else
    match fuel with
    | O => None
    | S fuel =>
        let n2 := (length a / 2 - (length a / 2) mod 8)%nat in
        x ← pairwise_sum fuel (take n2 a);
        y ← pairwise_sum fuel (drop n2 a);
        Some (F64.add x y)
    end.

(** [np.add.reduce] over a one-dimensional array: the pairwise sum, added
    to the identity 0.  The length of the array is fuel enough
    ([pairwise_sum_total] below), so that the last case is never taken. *)
Definition sum (a : list F64.t) : F64.t :=
  match pairwise_sum (length a) a with
  | Some s => F64.add F64.zero s
  | None => F64.nan
  end.

(** [np.mean(a)] of a one-dimensional array: the sum divided by the number
    of items, which is zero exactly for the empty array. *)
Definition mean (a : list F64.t) : result F64.t :=
  match a with
  | [] => Raise ZeroDivision
  | _ => Ok (F64.div (sum a) (F64.of_Z (Z.of_nat (length a))))
  end.

(** [np.std(a)]: the deviations from the mean are squared, averaged and
    the root is taken. *)
Definition std (a : list F64.t) : result F64.t :=
  m ← mean a;
  var ← mean (map (fun x => F64.mul (F64.sub x m) (F64.sub x m)) a);
  mret (F64.sqrt var).

(** [np.clip(x, lo, hi)] on a scalar: not-a-number passes through, another
    [x] is raised to [lo] and then lowered to [hi]. *)
Definition maximum (a b : F64.t) : F64.t :=
  if F64.is_nan a then a else if F64.gtb a b then a else b.

Definition minimum (a b : F64.t) : F64.t :=
  if F64.is_nan a then a else if F64.ltb a b then a else b.

Definition clip (x lo hi : F64.t) : F64.t := minimum (maximum x lo) hi.

Definition col0 (a : list (F64.t * F64.t)) : list F64.t := map fst a.
Definition col1 (a : list (F64.t * F64.t)) : list F64.t := map snd a.

(** [np.mean(a, axis=0)] of an [n x 2] array, followed by an index: each
    column is accumulated row by row and divided by the number of rows.
    Indexing the scalar mean of [np.array([])] raises. *)
Definition mean_axis0 (a : list (F64.t * F64.t)) : result (F64.t * F64.t) :=
  match a with
  | [] => Raise IndexError
  | _ =>
      let n := F64.of_Z (Z.of_nat (length a)) in
      mret (F64.div (accumulate (col0 a)) n, F64.div (accumulate (col1 a)) n)
  end.

End np.

(** *** calibration.py *)

Module calibration.

Record CalibrationPoint : Type := mkPoint {
  screen_pos : F64.t * F64.t;
  gaze_samples : list (F64.t * F64.t)
}.

(** [get_average_gaze()] *)
Definition get_average_gaze (self : CalibrationPoint) : result (F64.t * F64.t) :=
  match gaze_samples self with
  | [] => mret (F64.half, F64.half)
  | _ =>
      avg_h ← np.mean (map fst (gaze_samples self));
      avg_v ← np.mean (map snd (gaze_samples self));
      mret (avg_h, avg_v)
  end.

(** The [for point in calibration_points] loop, appending to both lists. *)
Fixpoint collect (calibration_points : list CalibrationPoint)
    (screen_positions gaze_positions : list (F64.t * F64.t))
  : result (list (F64.t * F64.t) * list (F64.t * F64.t)) :=
  match calibration_points with
  | [] => mret (screen_positions, gaze_positions)
  | point :: rest =>
      avg ← get_average_gaze point;
      collect rest (screen_positions ++ [screen_pos point]) (gaze_positions ++ [avg])
  end.

(** [calculate_calibration_transform(calibration_points)]; [now] is the
    value of [time.time()]. *)
Definition calculate_calibration_transform
    (calibration_points : list CalibrationPoint) (now : F64.t) : result dict :=
  (* Collect all screen positions and corresponding gaze measurements *)
  '(screen_positions, gaze_positions) ← collect calibration_points [] [];
  (* Calculate offset (difference from center) *)
  gaze_center ← np.mean_axis0 gaze_positions;
  screen_center ← np.mean_axis0 screen_positions;
  let h_offset := F64.sub (fst gaze_center) (fst screen_center) in
  let v_offset := F64.sub (snd gaze_center) (snd screen_center) in
  (* Calculate scale (spread ratio) *)
  gaze_spread_h ← np.std (np.col0 gaze_positions);
  gaze_spread_v ← np.std (np.col1 gaze_positions);
  screen_spread_h ← np.std (np.col0 screen_positions);
  screen_spread_v ← np.std (np.col1 screen_positions);
  h_scale ← (if F64.gtb gaze_spread_h F64.zero then fdiv screen_spread_h gaze_spread_h
             else mret F64.one);
  v_scale ← (if F64.gtb gaze_spread_v F64.zero then fdiv screen_spread_v gaze_spread_v
             else mret F64.one);
  mret (<["h_offset" := Float h_offset]>
       (<["v_offset" := Float v_offset]>
       (<["h_scale" := Float h_scale]>
       (<["v_scale" := Float v_scale]>
       (<["num_points" := Int (Z.of_nat (length calibration_points))]>
       (<["timestamp" := Float now]> ∅)))))).

End calibration.

(** *** The calibration file *)

(** The text [json.dump] writes for a number and [json.load] reads back:
    the digits of an int; for a finite float its [repr], the shortest
    decimal text that reads back as the same double, named here by that
    double; and one of three words for the other floats. *)
Inductive token : Type :=
  | Integer (z : Z)
  | Decimal (x : F64.t)
  | NaN
  | Infinity
  | MinusInfinity.

Definition dumps (v : number) : token :=
  match v with
  | Int z => Integer z
  | Float S754_nan => NaN
  | Float (S754_infinity false) => Infinity
  | Float (S754_infinity true) => MinusInfinity
  | Float x => Decimal x
  end.

Definition loads (t : token) : number :=
  match t with
  | Integer z => Int z
  | Decimal x => Float x
  | NaN => Float S754_nan
  | Infinity => Float (S754_infinity false)
  | MinusInfinity => Float (S754_infinity true)
  end.

(** What a path holds, as [json.load] sees it: an object whose values are
    all numbers, [null], another JSON value, or text it rejects. *)
Inductive file_content : Type :=
  | JsonObject (members : gmap string token)
  | JsonNull
  | JsonForeign
  | Malformed.

Record World : Type := mkWorld {
  files : gmap string file_content;   (* the files that exist *)
  mkdir_denied : gset string;         (* files whose directory cannot be made *)
  open_denied : gset string;          (* paths [open(.., 'w')] raises on *)
  disk_full : bool;                   (* a write after [open] raises *)
  stdout : list line                  (* what [print] has written *)
}.

Definition print (l : line) (w : World) : World :=
  mkWorld (files w) (mkdir_denied w) (open_denied w) (disk_full w) (stdout w ++ [l]).

Definition set_file (path : string) (c : file_content) (w : World) : World :=
  mkWorld (<[path := c]> (files w)) (mkdir_denied w) (open_denied w) (disk_full w) (stdout w).

(** *** eye_tracker.py *)

Module EyeTracker.

Record t : Type := mk {
  camera_id : Z;
  calibration_data : option dict;
  calibration_file : string
}.

Definition set_calibration_data (self : t) (cd : option dict) : t :=
  mk (camera_id self) cd (calibration_file self).

(** [apply_calibration(h_ratio, v_ratio)] *)
Definition apply_calibration (self : t) (h_ratio v_ratio : F64.t) : result (F64.t * F64.t) :=
  if negb (truthy (calibration_data self)) then mret (h_ratio, v_ratio)
  else
    let d := default ∅ (calibration_data self) in
    (* Apply affine transformation from calibration *)
    let h_offset := get d "h_offset" (Int 0) in
    let v_offset := get d "v_offset" (Int 0) in
    let h_scale := get d "h_scale" (Int 1) in
    let v_scale := get d "v_scale" (Int 1) in
    calibrated_h ← (o ← as_float h_offset; s ← as_float h_scale;
                    mret (F64.mul (F64.sub h_ratio o) s));
    calibrated_v ← (o ← as_float v_offset; s ← as_float v_scale;
                    mret (F64.mul (F64.sub v_ratio o) s));
    mret (np.clip calibrated_h F64.zero F64.one, np.clip calibrated_v F64.zero F64.one).

(** [estimate_screen_position(left_gaze, right_gaze, screen_width, screen_height)] *)
Definition estimate_screen_position (self : t) (left_gaze right_gaze : F64.t * F64.t)
    (screen_width screen_height : Z) : result (Z * Z) :=
  (* Average both eyes *)
  let avg_h := F64.div (F64.add (fst left_gaze) (fst right_gaze)) F64.two in
  let avg_v := F64.div (F64.add (snd left_gaze) (snd right_gaze)) F64.two in
  (* Apply calibration if available *)
  '(avg_h, avg_v) ← (if truthy (calibration_data self) then apply_calibration self avg_h avg_v
                     else mret (avg_h, avg_v));
  (* Map to screen coordinates; horizontal is inverted *)
  screen_x ← (w ← F64.of_int screen_width; F64.to_int (F64.mul (F64.sub F64.one avg_h) w));
  screen_y ← (h ← F64.of_int screen_height; F64.to_int (F64.mul avg_v h));
  mret (screen_x, screen_y).

(** The tracker object with whatever [json.load] put into
    [self.calibration_data]; see the first embedding. *)
Inductive object : Type :=
  | Typed (self : t)
  | Untyped (camera_id : Z) (calibration_file : string).

(** [load_calibration()] *)
Definition load_calibration (self : t) (w : World) : bool * object * World :=
  match files w !! calibration_file self with
  | Some (JsonObject members) =>
      (true, Typed (set_calibration_data self (Some (loads <$> members))),
       print (LoadedFrom (calibration_file self)) w)
  | Some JsonNull =>
      (true, Typed (set_calibration_data self None),
       print (LoadedFrom (calibration_file self)) w)
  | Some JsonForeign =>
      (true, Untyped (camera_id self) (calibration_file self),
       print (LoadedFrom (calibration_file self)) w)
  | Some Malformed => (false, Typed self, print (ErrorLoading ValueError) w)
  | None => (false, Typed self, w)
  end.

(** [save_calibration(calibration_data)] *)
Definition save_calibration (self : t) (calibration_data : dict) (w : World)
  : result t * World :=
  if decide (calibration_file self ∈ mkdir_denied w) then (Raise OSError, w)
  else if decide (calibration_file self ∈ open_denied w) then
    (* [open] raised: the file is untouched *)
    (Ok self, print (ErrorSaving OSError) w)
  else if disk_full w then
    (* [open(.., 'w')] truncated the file, then the write raised *)
    (Ok self, print (ErrorSaving OSError) (set_file (calibration_file self) Malformed w))
  else
    let w := set_file (calibration_file self) (JsonObject (dumps <$> calibration_data)) w in
    let self := set_calibration_data self (Some calibration_data) in
    (Ok self, print (SavedTo (calibration_file self)) w).

End EyeTracker.

(** The standard deviation of the averaged gaze ratios on an axis, as
    [calculate_calibration_transform] computes it. *)
Definition gaze_spread (ax : Spec.axis) (calibration_points : list calibration.CalibrationPoint)
  : result F64.t :=
  '(_, gaze_positions) ← calibration.collect calibration_points [] [];
  np.std (match ax with
          | Spec.Horizontal => np.col0 gaze_positions
          | Spec.Vertical => np.col1 gaze_positions
          end).

(** That computed spread is zero: [+0.0] or [-0.0]. *)
Definition zero_spread (ax : Spec.axis) (calibration_points : list calibration.CalibrationPoint)
  : Prop :=
  exists spread : F64.t,
    gaze_spread ax calibration_points = Ok spread /\ F64.eqb spread F64.zero = true.

(** Every sample recorded is the centre (0.5, 0.5), on at least one and at
    most [max_points] points with at most [max_samples] samples each. *)
Definition centred (max_points max_samples : nat)
    (calibration_points : list calibration.CalibrationPoint) : Prop :=
  calibration_points <> []
  /\ (length calibration_points <= max_points)%nat
  /\ Forall (fun p => (length (calibration.gaze_samples p) <= max_samples)%nat
                      /\ Forall (fun x => x = (F64.half, F64.half)) (calibration.gaze_samples p))
       calibration_points.

(** The four parameters of a calibration. *)
Definition parameter_keys : list string := ["h_offset"; "v_offset"; "h_scale"; "v_scale"].

End Doubles.

(** ** Three more sentences of the specification, as they are written *)

Module Written.

(** The specification names identical samples as a case of zero spread:
    when every sample of every point is the same pair, the fit returns
    without an exception and both scales are exactly 1.0. *)
Definition identical_samples_give_unit_scale
    (pts : list Doubles.calibration.CalibrationPoint) (now : F64.t) : Prop :=
  (exists s : F64.t * F64.t,
     Forall (fun p => Doubles.calibration.gaze_samples p <> []
                      /\ Forall (fun x => x = s) (Doubles.calibration.gaze_samples p)) pts) ->
  forall ax : Spec.axis,
    exists d : Doubles.dict,
      Doubles.calibration.calculate_calibration_transform pts now = Ok d
      /\ d !! Spec.scale_key ax = Some (Doubles.Float F64.one).

(** A dictionary with float parameters that is saved by one tracker and
    loaded by another on the same file comes back with parameters equal
    ([==]) to the saved ones. *)
Definition round_trip_reproduces
    (self other : Doubles.EyeTracker.t) (calibration_data : Doubles.dict) (w : Doubles.World)
  : Prop :=
  Doubles.EyeTracker.calibration_file other = Doubles.EyeTracker.calibration_file self ->
  (forall key : string, key ∈ Doubles.parameter_keys ->
     exists x : F64.t, calibration_data !! key = Some (Doubles.Float x)) ->
  exists (self' other' : Doubles.EyeTracker.t) (w' w'' : Doubles.World) (loaded : Doubles.dict),
    Doubles.EyeTracker.save_calibration self calibration_data w = (Ok self', w')
    /\ Doubles.EyeTracker.load_calibration other w' = (true, Doubles.EyeTracker.Typed other', w'')
    /\ Doubles.EyeTracker.calibration_data other' = Some loaded
    /\ forall (key : string) (x : F64.t),
         key ∈ Doubles.parameter_keys ->
         calibration_data !! key = Some (Doubles.Float x) ->
         exists y : F64.t, loaded !! key = Some (Doubles.Float y) /\ F64.eqb x y = true.


End Written.

(** ** Sample data in double precision *)

Module Examples.

Definition path : string := "calibration_data/calibration.json".

Definition fresh_tracker : Doubles.EyeTracker.t := Doubles.EyeTracker.mk 0 None path.

(** A world without files in which nothing is refused. *)
Definition empty_world : Doubles.World := Doubles.mkWorld ∅ ∅ ∅ false [].

(** A world in which the calibration file cannot be opened for writing. *)
Definition read_only_world : Doubles.World := Doubles.mkWorld ∅ ∅ {[path]} false [].

(** Three targets on the diagonal, the same single sample (0.1, 0.1)
    recorded on each. *)
Definition constant_gaze_points : list Doubles.calibration.CalibrationPoint :=
  [Doubles.calibration.mkPoint (F64.ratio 1 10, F64.ratio 1 10) [(F64.ratio 1 10, F64.ratio 1 10)];
   Doubles.calibration.mkPoint (F64.ratio 5 10, F64.ratio 5 10) [(F64.ratio 1 10, F64.ratio 1 10)];
   Doubles.calibration.mkPoint (F64.ratio 9 10, F64.ratio 9 10) [(F64.ratio 1 10, F64.ratio 1 10)]].

(** The five targets of the short walk, with the sample (0.1, 0.1)
    recorded thirty times on each. *)
Definition constant_gaze_walk : list Doubles.calibration.CalibrationPoint :=
  map (fun xy => Doubles.calibration.mkPoint xy (repeat (F64.ratio 1 10, F64.ratio 1 10) 30))
    [(F64.half, F64.half);
     (F64.ratio 1 10, F64.ratio 1 10); (F64.ratio 9 10, F64.ratio 1 10);
     (F64.ratio 1 10, F64.ratio 9 10); (F64.ratio 9 10, F64.ratio 9 10)].

(** The same targets with the sample (0.5, 0.5) on each. *)
Definition centred_gaze_points : list Doubles.calibration.CalibrationPoint :=
  [Doubles.calibration.mkPoint (F64.ratio 1 10, F64.ratio 1 10) [(F64.half, F64.half)];
   Doubles.calibration.mkPoint (F64.ratio 5 10, F64.ratio 5 10) [(F64.half, F64.half)];
   Doubles.calibration.mkPoint (F64.ratio 9 10, F64.ratio 9 10) [(F64.half, F64.half)]].

(** Calibration parameters: offset (0.25, 0), scale (2, 1). *)
Definition params : Doubles.dict :=
  <["h_offset" := Doubles.Float (F64.ratio 25 100)]>
  (<["v_offset" := Doubles.Float F64.zero]>
  (<["h_scale" := Doubles.Float F64.two]>
  (<["v_scale" := Doubles.Float F64.one]> ∅))).

(** The same with a horizontal offset that is not a number. *)
Definition nan_params : Doubles.dict := <["h_offset" := Doubles.Float F64.nan]> params.


(** Two targets with the gaze measured 0.125 to the right of and 0.125
    above each. *)
Definition shifted_gaze_points : list Doubles.calibration.CalibrationPoint :=
  [Doubles.calibration.mkPoint (F64.ratio 25 100, F64.ratio 25 100)
     [(F64.ratio 375 1000, F64.ratio 125 1000)];
   Doubles.calibration.mkPoint (F64.ratio 75 100, F64.ratio 75 100)
     [(F64.ratio 875 1000, F64.ratio 625 1000)]].

End Examples.

(** Reals such as [Rmin 1 3] do not reduce; this settles them. *)
Ltac Rminmax :=
  unfold np.clip, Rmin, Rmax in *;
  repeat match goal with
         | |- context [Rle_dec ?a ?b] => destruct (Rle_dec a b)
         | H : context [Rle_dec ?a ?b] |- _ => destruct (Rle_dec a b)
         end;
  try lra.

(** * Facts about the embedding *)

(** ** The [result] monad and float division *)

Lemma fdiv_Ok (a b : R) : b <> 0 -> a /? b = Ok (a / b).
Proof. intros Hb. unfold fdiv. destruct (decide (b = 0)); [contradiction | reflexivity]. Qed.

(** ** Clamping *)

Lemma clip_bounds (x : R) : 0 <= np.clip x 0 1 <= 1.
Proof.
  unfold np.clip, Rmin, Rmax.
  destruct (Rle_dec x 0); destruct (Rle_dec _ 1); lra.
Qed.

Lemma clip_id (x : R) : 0 <= x <= 1 -> np.clip x 0 1 = x.
Proof.
  intros Hx. unfold np.clip, Rmin, Rmax.
  destruct (Rle_dec x 0); destruct (Rle_dec _ 1); lra.
Qed.

(** ** Minimum and maximum are the bounding box *)

Lemma foldl_Rmin_le (xs : list R) (x : R) :
  foldl Rmin x xs <= x /\ Forall (fun y => foldl Rmin x xs <= y) xs.
Proof.
  revert x. induction xs as [| y ys IH]; intros x; simpl.
  - split; [lra | constructor].
  - destruct (IH (Rmin x y)) as [H1 H2]. split.
    + pose proof (Rmin_l x y). lra.
    + constructor; [pose proof (Rmin_r x y); lra | assumption].
Qed.

Lemma foldl_Rmax_ge (xs : list R) (x : R) :
  x <= foldl Rmax x xs /\ Forall (fun y => y <= foldl Rmax x xs) xs.
Proof.
  revert x. induction xs as [| y ys IH]; intros x; simpl.
  - split; [lra | constructor].
  - destruct (IH (Rmax x y)) as [H1 H2]. split.
    + pose proof (Rmax_l x y). lra.
    + constructor; [pose proof (Rmax_r x y); lra | assumption].
Qed.

Lemma foldl_Rmin_In (xs : list R) (x : R) : In (foldl Rmin x xs) (x :: xs).
Proof.
  revert x. induction xs as [| y ys IH]; intros x; simpl.
  - left; reflexivity.
  - destruct (IH (Rmin x y)) as [H | H].
    + unfold Rmin in H at 1. destruct (Rle_dec x y); [left | right; left]; exact H.
    + right; right; exact H.
Qed.

Lemma foldl_Rmax_In (xs : list R) (x : R) : In (foldl Rmax x xs) (x :: xs).
Proof.
  revert x. induction xs as [| y ys IH]; intros x; simpl.
  - left; reflexivity.
  - destruct (IH (Rmax x y)) as [H | H].
    + unfold Rmax in H at 1. destruct (Rle_dec x y); [right; left | left]; exact H.
    + right; right; exact H.
Qed.

(** [np.min] returns a member of the array below every member. *)
Lemma np_min_spec (a : list R) (m : R) :
  np.min a = Ok m -> In m a /\ Forall (fun y => m <= y) a.
Proof.
  destruct a as [| x xs]; simpl; intros H; [discriminate | ].
  injection H as <-. split; [apply foldl_Rmin_In | ].
  destruct (foldl_Rmin_le xs x). constructor; assumption.
Qed.

Lemma np_max_spec (a : list R) (m : R) :
  np.max a = Ok m -> In m a /\ Forall (fun y => y <= m) a.
Proof.
  destruct a as [| x xs]; simpl; intros H; [discriminate | ].
  injection H as <-. split; [apply foldl_Rmax_In | ].
  destruct (foldl_Rmax_ge xs x). constructor; assumption.
Qed.

Lemma np_min_le_max (a : list R) (lo hi : R) :
  np.min a = Ok lo -> np.max a = Ok hi -> lo <= hi.
Proof.
  intros Hlo Hhi. apply np_min_spec in Hlo as [_ Hlo]. apply np_max_spec in Hhi as [Hin _].
  rewrite Forall_forall in Hlo. apply Hlo. apply list_elem_of_In. exact Hin.
Qed.

(** The two [axis=0] reductions of [calculate_gaze_ratio], inverted. *)
Lemma min_axis0_Ok (a : list (R * R)) (p : R * R) :
  np.min_axis0 a = Ok p -> np.min (np.col0 a) = Ok (fst p) /\ np.min (np.col1 a) = Ok (snd p).
Proof.
  unfold np.min_axis0. destruct (np.min (np.col0 a)) as [x |]; [| discriminate].
  destruct (np.min (np.col1 a)) as [y |]; [| discriminate].
  intros H. injection H as <-. split; reflexivity.
Qed.

Lemma max_axis0_Ok (a : list (R * R)) (p : R * R) :
  np.max_axis0 a = Ok p -> np.max (np.col0 a) = Ok (fst p) /\ np.max (np.col1 a) = Ok (snd p).
Proof.
  unfold np.max_axis0. destruct (np.max (np.col0 a)) as [x |]; [| discriminate].
  destruct (np.max (np.col1 a)) as [y |]; [| discriminate].
  intros H. injection H as <-. split; reflexivity.
Qed.

(** * Gaze ratio (section 4.2) *)

(** C9.  When the bounding box of the eye-boundary points has zero width or
    zero height, [calculate_gaze_ratio] returns exactly (0.5, 0.5) for every
    iris centre; the result is [Ok], so no division by zero took place. *)
Theorem C9_degenerate_box_is_centred
    (iris_center : R * R) (eye_coords : list (R * R)) (eye_min eye_max : R * R) :
  np.min_axis0 eye_coords = Ok eye_min ->
  np.max_axis0 eye_coords = Ok eye_max ->
  fst eye_max - fst eye_min = 0 \/ snd eye_max - snd eye_min = 0 ->
  EyeTracker.calculate_gaze_ratio iris_center eye_coords = Ok (0.5, 0.5).
Proof.
  intros Hmin Hmax Hdeg. unfold EyeTracker.calculate_gaze_ratio.
  rewrite Hmin, Hmax. simpl.
  destruct (decide _) as [_ | Hn]; [reflexivity | contradiction].
Qed.

Lemma C9_degenerate_box_witness :
  EyeTracker.calculate_gaze_ratio (7, 2) [(1, 1); (1, 3)] = Ok (0.5, 0.5).
Proof.
  apply (C9_degenerate_box_is_centred (7, 2) [(1, 1); (1, 3)]
           (Rmin 1 1, Rmin 1 3) (Rmax 1 1, Rmax 1 3)).
  - reflexivity.
  - reflexivity.
  - left. simpl. Rminmax.
Defined.

(** C2.  When the bounding box has nonzero width and height and the iris
    centre lies inside it, [calculate_gaze_ratio] returns
    ((iris_x - min_x) / width, (iris_y - min_y) / height), both components
    lie in [0,1], and the exact centre of the box is mapped to (0.5, 0.5). *)
Theorem C2_gaze_ratio_inside_box
    (iris_center : R * R) (eye_coords : list (R * R)) (eye_min eye_max : R * R) :
  np.min_axis0 eye_coords = Ok eye_min ->
  np.max_axis0 eye_coords = Ok eye_max ->
  fst eye_max - fst eye_min <> 0 ->
  snd eye_max - snd eye_min <> 0 ->
  fst eye_min <= fst iris_center <= fst eye_max ->
  snd eye_min <= snd iris_center <= snd eye_max ->
  let h := (fst iris_center - fst eye_min) / (fst eye_max - fst eye_min) in
  let v := (snd iris_center - snd eye_min) / (snd eye_max - snd eye_min) in
  EyeTracker.calculate_gaze_ratio iris_center eye_coords = Ok (h, v)
  /\ 0 <= h <= 1 /\ 0 <= v <= 1
  /\ (fst iris_center = (fst eye_min + fst eye_max) / 2 ->
      snd iris_center = (snd eye_min + snd eye_max) / 2 ->
      EyeTracker.calculate_gaze_ratio iris_center eye_coords = Ok (0.5, 0.5)).
Proof.
  intros Hmin Hmax Hw Hh Hx Hy h v.
  assert (Hbh : 0 <= h <= 1).
  { subst h. split.
    - apply Rmult_le_reg_r with (fst eye_max - fst eye_min); [lra | ].
      unfold Rdiv. rewrite Rmult_assoc, Rinv_l by lra. lra.
    - apply Rmult_le_reg_r with (fst eye_max - fst eye_min); [lra | ].
      unfold Rdiv. rewrite Rmult_assoc, Rinv_l by lra. lra. }
  assert (Hbv : 0 <= v <= 1).
  { subst v. split.
    - apply Rmult_le_reg_r with (snd eye_max - snd eye_min); [lra | ].
      unfold Rdiv. rewrite Rmult_assoc, Rinv_l by lra. lra.
    - apply Rmult_le_reg_r with (snd eye_max - snd eye_min); [lra | ].
      unfold Rdiv. rewrite Rmult_assoc, Rinv_l by lra. lra. }
  assert (Hrun : EyeTracker.calculate_gaze_ratio iris_center eye_coords = Ok (h, v)).
  { unfold EyeTracker.calculate_gaze_ratio. rewrite Hmin, Hmax. simpl.
    destruct (decide _) as [[Hz | Hz] | _]; [contradiction | contradiction | ].
    rewrite !fdiv_Ok by assumption. simpl.
    fold h v. rewrite !clip_id by assumption. reflexivity. }
  split; [exact Hrun | ]. split; [exact Hbh | ]. split; [exact Hbv | ].
  intros Hcx Hcy. rewrite Hrun. f_equal. f_equal.
  - subst h. rewrite Hcx. replace 0.5 with (1 / 2) by lra. field. lra.
  - subst v. rewrite Hcy. replace 0.5 with (1 / 2) by lra. field. lra.
Qed.

Lemma C2_gaze_ratio_witness :
  EyeTracker.calculate_gaze_ratio (2, 1) [(0, 0); (4, 2)] = Ok (0.5, 0.5).
Proof.
  refine (proj2 (proj2 (proj2
    (C2_gaze_ratio_inside_box (2, 1) [(0, 0); (4, 2)]
       (Rmin 0 4, Rmin 0 2) (Rmax 0 4, Rmax 0 2) _ _ _ _ _ _))) _ _);
    try reflexivity; simpl; Rminmax.
Defined.

(** * Calibration application and screen mapping (sections 4.4, 4.5) *)

Lemma clip_clamp01 (x : R) : np.clip x 0 1 = Spec.clamp01 x.
Proof.
  unfold Spec.clamp01, np.clip, Rmin, Rmax.
  destruct (decide (x < 0)); [| destruct (decide (1 < x))];
    destruct (Rle_dec x 0); destruct (Rle_dec _ 1); lra.
Qed.

Lemma truthy_lookup (d : dict) (k : string) (x : R) :
  d !! k = Some x -> truthy (Some d) = true.
Proof.
  intros Hk. unfold truthy. apply bool_decide_eq_true.
  apply (map_size_ne_0_lookup_2 d k). rewrite Hk. eexists; reflexivity.
Qed.

Lemma apply_calibration_falsy (self : EyeTracker.t) (h v : R) :
  truthy (EyeTracker.calibration_data self) = false ->
  EyeTracker.apply_calibration self h v = (h, v).
Proof. intros Hf. unfold EyeTracker.apply_calibration. rewrite Hf. reflexivity. Qed.

Lemma apply_calibration_bounds (self : EyeTracker.t) (h v : R) :
  truthy (EyeTracker.calibration_data self) = true ->
  0 <= fst (EyeTracker.apply_calibration self h v) <= 1
  /\ 0 <= snd (EyeTracker.apply_calibration self h v) <= 1.
Proof.
  intros Ht. unfold EyeTracker.apply_calibration. rewrite Ht. simpl.
  split; apply clip_bounds.
Qed.

(** With the four parameters in the dictionary, the affine map and the
    clamp. *)
Lemma apply_calibration_params
    (self : EyeTracker.t) (d : dict)
    (h_ratio v_ratio h_offset v_offset h_scale v_scale : R) :
  EyeTracker.calibration_data self = Some d ->
  d !! "h_offset" = Some h_offset ->
  d !! "v_offset" = Some v_offset ->
  d !! "h_scale" = Some h_scale ->
  d !! "v_scale" = Some v_scale ->
  EyeTracker.apply_calibration self h_ratio v_ratio
    = (Spec.clamp01 ((h_ratio - h_offset) * h_scale),
       Spec.clamp01 ((v_ratio - v_offset) * v_scale)).
Proof.
  intros Hd Hho Hvo Hhs Hvs.
  assert (Ht : truthy (EyeTracker.calibration_data self) = true).
  { rewrite Hd. exact (truthy_lookup d _ _ Hho). }
  unfold EyeTracker.apply_calibration. rewrite Ht, Hd. simpl.
  unfold get. rewrite Hho, Hvo, Hhs, Hvs. simpl.
  rewrite !clip_clamp01. reflexivity.
Qed.

(** C3.  With calibration parameters loaded, [apply_calibration] returns
    ((h - h_offset) * h_scale, (v - v_offset) * v_scale), each component
    clamped to [0,1]. *)
Theorem C3_apply_calibration_formula
    (self : EyeTracker.t) (d : dict)
    (h_ratio v_ratio h_offset v_offset h_scale v_scale : R) :
  EyeTracker.calibration_data self = Some d ->
  d !! "h_offset" = Some h_offset ->
  d !! "v_offset" = Some v_offset ->
  d !! "h_scale" = Some h_scale ->
  d !! "v_scale" = Some v_scale ->
  EyeTracker.apply_calibration self h_ratio v_ratio
    = (Spec.clamp01 ((h_ratio - h_offset) * h_scale),
       Spec.clamp01 ((v_ratio - v_offset) * v_scale))
  /\ 0 <= fst (EyeTracker.apply_calibration self h_ratio v_ratio) <= 1
  /\ 0 <= snd (EyeTracker.apply_calibration self h_ratio v_ratio) <= 1.
Proof.
  intros Hd Hho Hvo Hhs Hvs. split.
  - exact (apply_calibration_params self d _ _ _ _ _ _ Hd Hho Hvo Hhs Hvs).
  - apply apply_calibration_bounds. rewrite Hd. exact (truthy_lookup d _ _ Hho).
Qed.

Lemma C3_apply_calibration_witness :
  EyeTracker.apply_calibration Sample.calibrated_tracker 0.5 0.75
    = (Spec.clamp01 ((0.5 - 0.25) * 2), Spec.clamp01 ((0.75 - 0) * 1))
  /\ 0 <= fst (EyeTracker.apply_calibration Sample.calibrated_tracker 0.5 0.75) <= 1
  /\ 0 <= snd (EyeTracker.apply_calibration Sample.calibrated_tracker 0.5 0.75) <= 1.
Proof.
  apply (C3_apply_calibration_formula Sample.calibrated_tracker Sample.params); reflexivity.
Defined.

(** ** [int] truncates towards zero *)

Lemma int_truncation (x : R) : Spec.truncation x (int x).
Proof.
  unfold Spec.truncation, int. destruct (decide (0 <= x)) as [Hx | Hx].
  - destruct (base_Int_part x) as [H1 H2]. split; intros H; [lra | ].
    assert (x = 0) as -> by lra.
    replace (Int_part 0) with 0%Z; [lra | ].
    apply Int_part_spec. simpl. lra.
  - destruct (base_Int_part (- x)) as [H1 H2].
    rewrite opp_IZR. split; intros H; lra.
Qed.

Lemma truncation_unique (x : R) (z z' : Z) :
  Spec.truncation x z -> Spec.truncation x z' -> z = z'.
Proof.
  intros [Hp Hn] [Hp' Hn'].
  destruct (Rle_dec 0 x) as [Hx | Hx].
  - specialize (Hp Hx). specialize (Hp' Hx).
    apply Z.le_antisymm; apply Z.lt_succ_r; apply lt_IZR; rewrite succ_IZR; lra.
  - assert (Hx' : x <= 0) by lra. specialize (Hn Hx'). specialize (Hn' Hx').
    apply Z.le_antisymm; apply Z.lt_succ_r; apply lt_IZR; rewrite succ_IZR; lra.
Qed.

Lemma int_IZR (z : Z) : int (IZR z) = z.
Proof.
  apply (truncation_unique (IZR z)); [apply int_truncation | ].
  split; intros _; lra.
Qed.

(** [estimate_screen_position] in terms of [Spec.averaged_ratio]. *)
Lemma estimate_screen_position_eq
    (self : EyeTracker.t) (left_gaze right_gaze : R * R) (screen_width screen_height : Z) :
  EyeTracker.estimate_screen_position self left_gaze right_gaze screen_width screen_height
  = (int ((1 - fst (Spec.averaged_ratio self left_gaze right_gaze)) * IZR screen_width),
     int (snd (Spec.averaged_ratio self left_gaze right_gaze) * IZR screen_height)).
Proof.
  unfold EyeTracker.estimate_screen_position, Spec.averaged_ratio.
  destruct (truthy (EyeTracker.calibration_data self)) eqn:Ht.
  - destruct (EyeTracker.calibration_data self); [| discriminate].
    destruct (EyeTracker.apply_calibration _ _ _); reflexivity.
  - destruct (EyeTracker.calibration_data self) as [d |] eqn:Hd; [| reflexivity].
    rewrite apply_calibration_falsy by (rewrite Hd; exact Ht). reflexivity.
Qed.

(** C4.  [estimate_screen_position] averages the two eyes per axis, applies
    the calibration when calibration data is present, and returns
    x = (1 - h) * screen_width and y = v * screen_height, each truncated to an
    integer. *)
Theorem C4_estimate_screen_position_formula
    (self : EyeTracker.t) (left_gaze right_gaze : R * R) (screen_width screen_height : Z) :
  let avg_h := (fst left_gaze + fst right_gaze) / 2 in
  let avg_v := (snd left_gaze + snd right_gaze) / 2 in
  let ratio :=
    match EyeTracker.calibration_data self with
    | Some _ => EyeTracker.apply_calibration self avg_h avg_v
    | None => (avg_h, avg_v)
    end in
  let xy :=
    EyeTracker.estimate_screen_position self left_gaze right_gaze screen_width screen_height in
  Spec.truncation ((1 - fst ratio) * IZR screen_width) (fst xy)
  /\ Spec.truncation (snd ratio * IZR screen_height) (snd xy).
Proof.
  intros avg_h avg_v ratio xy. subst xy.
  rewrite estimate_screen_position_eq. simpl.
  change (Spec.averaged_ratio self left_gaze right_gaze) with ratio.
  split; apply int_truncation.
Qed.




(** * Calibration fit (section 4.3) *)

Lemma foldl_Rplus (l : list R) (a : R) : foldl Rplus a l = a + fold_right Rplus 0 l.
Proof.
  revert a. induction l as [| x l IH]; intros a; simpl; [lra | ].
  rewrite IH. lra.
Qed.

Lemma INR_length_neq_0 {A : Type} (l : list A) : l <> [] -> INR (length l) <> 0.
Proof.
  intros Hl. destruct l as [| x l]; [contradiction | ].
  apply not_0_INR. simpl. lia.
Qed.

(** [np.mean] is the arithmetic mean; it faults exactly on the empty array. *)
Lemma np_mean_Ok (l : list R) : l <> [] -> np.mean l = Ok (Spec.mean l).
Proof.
  intros Hl. unfold np.mean, Spec.mean, np.sum.
  rewrite fdiv_Ok by (apply INR_length_neq_0; exact Hl).
  rewrite foldl_Rplus. f_equal. lra.
Qed.

Lemma np_mean_nil : np.mean [] = Raise ZeroDivision.
Proof.
  unfold np.mean, fdiv. simpl. destruct (decide (0 = 0)); [reflexivity | lra].
Qed.

(** [np.std] is the population standard deviation. *)
Lemma np_std_Ok (l : list R) : l <> [] -> np.std l = Ok (Spec.stddev l).
Proof.
  intros Hl. unfold np.std, Spec.stddev.
  rewrite np_mean_Ok by exact Hl. simpl.
  rewrite np_mean_Ok by (destruct l; [contradiction | discriminate]). simpl.
  do 3 f_equal. apply map_ext. intros x. ring.
Qed.

Lemma np_std_nil : np.std [] = Raise ZeroDivision.
Proof. unfold np.std. rewrite np_mean_nil. reflexivity. Qed.

Lemma np_std_Ok_inv (l : list R) (s : R) :
  np.std l = Ok s -> l <> [] /\ s = Spec.stddev l.
Proof.
  destruct l as [| x l]; [rewrite np_std_nil; discriminate | ].
  rewrite np_std_Ok by discriminate. intros H. injection H as <-.
  split; [discriminate | reflexivity].
Qed.

Lemma get_average_gaze_Ok (p : calibration.CalibrationPoint) :
  calibration.get_average_gaze p = Ok (Spec.average_gaze p).
Proof.
  unfold calibration.get_average_gaze, Spec.average_gaze.
  destruct (calibration.gaze_samples p) as [| s ss]; [reflexivity | ].
  rewrite !np_mean_Ok by discriminate. reflexivity.
Qed.

(** The loop never raises and leaves the two arrays in the order of the
    points. *)
Lemma collect_Ok (pts : list calibration.CalibrationPoint) (sp gp : list (R * R)) :
  calibration.collect pts sp gp
  = Ok (sp ++ map calibration.screen_pos pts, gp ++ map Spec.average_gaze pts).
Proof.
  revert sp gp. induction pts as [| p pts IH]; intros sp gp; simpl.
  - rewrite !app_nil_r. reflexivity.
  - rewrite get_average_gaze_Ok. simpl. rewrite IH, <- !app_assoc. reflexivity.
Qed.

Lemma mean_axis0_Ok (a : list (R * R)) :
  a <> [] -> np.mean_axis0 a = Ok (Spec.mean (np.col0 a), Spec.mean (np.col1 a)).
Proof.
  intros Ha. destruct a as [| x a]; [contradiction | ].
  unfold np.mean_axis0. rewrite !np_mean_Ok by discriminate. reflexivity.
Qed.

Lemma col0_gaze (pts : list calibration.CalibrationPoint) :
  np.col0 (map Spec.average_gaze pts) = Spec.gaze Spec.Horizontal pts.
Proof. unfold np.col0, Spec.gaze. rewrite map_map. reflexivity. Qed.

Lemma col1_gaze (pts : list calibration.CalibrationPoint) :
  np.col1 (map Spec.average_gaze pts) = Spec.gaze Spec.Vertical pts.
Proof. unfold np.col1, Spec.gaze. rewrite map_map. reflexivity. Qed.

Lemma col0_target (pts : list calibration.CalibrationPoint) :
  np.col0 (map calibration.screen_pos pts) = Spec.target Spec.Horizontal pts.
Proof. unfold np.col0, Spec.target. rewrite map_map. reflexivity. Qed.

Lemma col1_target (pts : list calibration.CalibrationPoint) :
  np.col1 (map calibration.screen_pos pts) = Spec.target Spec.Vertical pts.
Proof. unfold np.col1, Spec.target. rewrite map_map. reflexivity. Qed.

Lemma stddev_nonneg (l : list R) : 0 <= Spec.stddev l.
Proof. apply sqrt_pos. Qed.

(** The code tests [gaze_spread > 0], the specification "gaze-spread is
    zero"; a standard deviation is never negative, so the two agree. *)
Lemma fitted_scale_code (ax : Spec.axis) (pts : list calibration.CalibrationPoint) :
  Spec.fitted_scale ax pts
  = if decide (0 < Spec.stddev (Spec.gaze ax pts))
    then Spec.stddev (Spec.target ax pts) / Spec.stddev (Spec.gaze ax pts)
    else 1.
Proof.
  unfold Spec.fitted_scale. pose proof (stddev_nonneg (Spec.gaze ax pts)).
  destruct (decide (_ = 0)); destruct (decide (0 < _)); try reflexivity; lra.
Qed.

(** The whole function on a non-empty sequence. *)
Lemma calculate_calibration_transform_Ok
    (pts : list calibration.CalibrationPoint) (now : R) :
  pts <> [] ->
  calibration.calculate_calibration_transform pts now
  = Ok (<["h_offset" := Spec.fitted_offset Spec.Horizontal pts]>
       (<["v_offset" := Spec.fitted_offset Spec.Vertical pts]>
       (<["h_scale" := Spec.fitted_scale Spec.Horizontal pts]>
       (<["v_scale" := Spec.fitted_scale Spec.Vertical pts]>
       (<["num_points" := INR (length pts)]>
       (<["timestamp" := now]> ∅)))))).
Proof.
  intros Hpts. unfold calibration.calculate_calibration_transform.
  rewrite collect_Ok. simpl.
  assert (Hg : map Spec.average_gaze pts <> []) by (destruct pts; [contradiction | discriminate]).
  assert (Hs : map calibration.screen_pos pts <> []) by (destruct pts; [contradiction | discriminate]).
  rewrite !mean_axis0_Ok by assumption. simpl.
  rewrite col0_gaze, col1_gaze, col0_target, col1_target.
  assert (Hne : forall ax, Spec.gaze ax pts <> [] /\ Spec.target ax pts <> []).
  { intros ax. unfold Spec.gaze, Spec.target. destruct pts; [contradiction | split; discriminate]. }
  rewrite !np_std_Ok by apply Hne. simpl.
  rewrite !fitted_scale_code. unfold Spec.fitted_offset.
  destruct (decide (0 < Spec.stddev (Spec.gaze Spec.Horizontal pts))) as [Hh | Hh];
    destruct (decide (0 < Spec.stddev (Spec.gaze Spec.Vertical pts))) as [Hv | Hv];
    rewrite ?fdiv_Ok by lra; reflexivity.
Qed.

(** The empty sequence: the mean of the empty array cannot be indexed. *)
Lemma calculate_calibration_transform_nil (now : R) :
  calibration.calculate_calibration_transform [] now = Raise IndexError.
Proof. reflexivity. Qed.

(** ** Means and spreads of short and of constant columns *)

Lemma mean_singleton (a : R) : Spec.mean [a] = a.
Proof. unfold Spec.mean. simpl. field. Qed.

Lemma mean_pair (a b : R) : Spec.mean [a; b] = (a + b) / 2.
Proof. unfold Spec.mean. simpl. field. Qed.

Lemma stddev_pair (a b : R) : Spec.stddev [a; b] = Rabs (a - b) / 2.
Proof.
  unfold Spec.stddev. rewrite (mean_pair a b). simpl map. rewrite mean_pair.
  match goal with
  | |- sqrt ?t = _ => replace t with (Rsqr ((a - b) / 2)) by (unfold Rsqr; field)
  end.
  rewrite sqrt_Rsqr_abs. unfold Rdiv. rewrite Rabs_mult.
  rewrite (Rabs_pos_eq (/ 2)) by lra. reflexivity.
Qed.

Lemma sum_constant (c : R) (l : list R) :
  Forall (fun x => x = c) l -> fold_right Rplus 0 l = INR (length l) * c.
Proof.
  induction 1 as [| x l Hx _ IH].
  - simpl. lra.
  - change (fold_right Rplus 0 (x :: l)) with (x + fold_right Rplus 0 l).
    change (length (x :: l)) with (S (length l)). rewrite S_INR, IH, Hx. lra.
Qed.

Lemma mean_constant (c : R) (l : list R) :
  l <> [] -> Forall (fun x => x = c) l -> Spec.mean l = c.
Proof.
  intros Hl Hc. unfold Spec.mean. rewrite (sum_constant c l Hc).
  field. apply INR_length_neq_0. exact Hl.
Qed.

(** A constant column has no spread. *)
Lemma stddev_constant (c : R) (l : list R) :
  l <> [] -> Forall (fun x => x = c) l -> Spec.stddev l = 0.
Proof.
  intros Hl Hc. unfold Spec.stddev. rewrite (mean_constant c l Hl Hc).
  rewrite (mean_constant 0).
  - apply sqrt_0.
  - destruct l; [contradiction | discriminate].
  - apply Forall_map. eapply Forall_impl; [exact Hc | ]. intros x ->. simpl. ring.
Qed.

(** What a successful fit stores, read back by key. *)
Lemma fit_lookup (pts : list calibration.CalibrationPoint) (now : R) (d : dict) :
  calibration.calculate_calibration_transform pts now = Ok d ->
  pts <> []
  /\ forall ax : Spec.axis,
       d !! Spec.offset_key ax = Some (Spec.fitted_offset ax pts)
       /\ d !! Spec.scale_key ax = Some (Spec.fitted_scale ax pts).
Proof.
  intros Hd. destruct pts as [| p pts].
  - rewrite calculate_calibration_transform_nil in Hd. discriminate.
  - rewrite calculate_calibration_transform_Ok in Hd by discriminate.
    injection Hd as <-. split; [discriminate | ].
    intros [|]; split; reflexivity.
Qed.

(** ** The fit on a non-empty sequence (claim C1, amended) *)

(** C1, amended.  For every non-empty sequence of calibration points,
    [calculate_calibration_transform] returns, per axis, the offset
    mean(averaged gaze) - mean(targets) and the scale
    stddev(targets) / stddev(averaged gaze) when the gaze spread is not zero,
    1 when it is; a point without samples counts as (0.5, 0.5). *)
Theorem C1_fit_on_nonempty_sequence
    (pts : list calibration.CalibrationPoint) (now : R) :
  pts <> [] ->
  exists d : dict,
    calibration.calculate_calibration_transform pts now = Ok d
    /\ forall ax : Spec.axis,
         d !! Spec.offset_key ax = Some (Spec.fitted_offset ax pts)
         /\ d !! Spec.scale_key ax = Some (Spec.fitted_scale ax pts).
Proof.
  intros Hpts. eexists. split.
  - apply calculate_calibration_transform_Ok. exact Hpts.
  - intros [|]; split; reflexivity.
Qed.

Lemma C1_fit_witness :
  exists d : dict,
    calibration.calculate_calibration_transform Sample.narrow_gaze_points 0 = Ok d
    /\ forall ax : Spec.axis,
         d !! Spec.offset_key ax = Some (Spec.fitted_offset ax Sample.narrow_gaze_points)
         /\ d !! Spec.scale_key ax = Some (Spec.fitted_scale ax Sample.narrow_gaze_points).
Proof.
  apply (C1_fit_on_nonempty_sequence Sample.narrow_gaze_points 0). discriminate.
Defined.

Lemma unsampled_gaze (ax : Spec.axis) : Spec.gaze ax Sample.unsampled_points = [0.5; 0.5].
Proof. destruct ax; reflexivity. Qed.

Lemma unsampled_target (ax : Spec.axis) : Spec.target ax Sample.unsampled_points = [0.25; 0.75].
Proof. destruct ax; reflexivity. Qed.

Lemma unsampled_spreads (ax : Spec.axis) :
  Spec.stddev (Spec.gaze ax Sample.unsampled_points) = 0
  /\ Spec.stddev (Spec.target ax Sample.unsampled_points) = 0.25.
Proof.
  rewrite unsampled_gaze, unsampled_target, !stddev_pair. split.
  - replace (0.5 - 0.5) with 0 by lra. rewrite Rabs_R0. lra.
  - replace (0.25 - 0.75) with (- (1 / 2)) by lra.
    rewrite Rabs_Ropp, Rabs_pos_eq by lra. lra.
Qed.

Lemma unsampled_scale (ax : Spec.axis) : Spec.fitted_scale ax Sample.unsampled_points = 1.
Proof.
  unfold Spec.fitted_scale. destruct (unsampled_spreads ax) as [-> _].
  destruct (decide (0 = 0)) as [_ | Hn]; [reflexivity | lra].
Qed.

(** C1 as written fails: on two targets without samples the gaze spread is
    0 and the target spread 0.25, and the code stores the scale 1; no
    quotient of 0.25 by 0 is 1. *)
Lemma C1_counterexample_zero_gaze_spread :
  (exists d : dict,
     calibration.calculate_calibration_transform Sample.unsampled_points 0 = Ok d
     /\ d !! "h_scale" = Some 1)
  /\ Spec.stddev (Spec.gaze Spec.Horizontal Sample.unsampled_points) = 0
  /\ Spec.stddev (Spec.target Spec.Horizontal Sample.unsampled_points) = 0.25
  /\ ~ Claimed.fit_is_quotient Sample.unsampled_points 0.
Proof.
  split; [| split; [| split]].
  { eexists. split; [apply calculate_calibration_transform_Ok; discriminate | ].
    rewrite (unsampled_scale Spec.Horizontal). reflexivity. }
  { apply unsampled_spreads. }
  { apply unsampled_spreads. }
  intros (d & Hd & Hall).
  destruct (fit_lookup _ _ _ Hd) as [_ Hfit].
  destruct (Hall Spec.Horizontal) as [_ Hs].
  destruct (Hfit Spec.Horizontal) as [_ Hk].
  destruct (unsampled_spreads Spec.Horizontal) as [Hg Ht].
  rewrite Hk, Hg, Ht in Hs.
  rewrite (unsampled_scale Spec.Horizontal) in Hs. assert (Hq : 1 = 0.25 / 0) by congruence.
  clear - Hq. rename Hq into Hs.
  unfold Rdiv in Hs. rewrite Rinv_0 in Hs. lra.
Qed.

(** ** Zero gaze spread, in double precision (claim C6) *)

(** *** Comparisons of doubles *)

(** A number that is not not-a-number is equal to itself. *)
Lemma F64_eqb_refl (x : F64.t) : F64.is_nan x = false -> F64.eqb x x = true.
Proof.
  destruct x as [s | s | | s m e]; cbn; try reflexivity; try discriminate.
  - destruct s; reflexivity.
  - intros _. unfold F64.eqb, SFeqb, SFcompare.
    rewrite Z.compare_refl. fold (Pos.compare m m). rewrite Pos.compare_refl.
    destruct s; reflexivity.
Qed.

Lemma F64_eqb_nan (x : F64.t) : F64.eqb F64.nan x = false.
Proof. reflexivity. Qed.

(** A number above zero is not a zero, and one equal to zero is not above
    it. *)
Lemma F64_gtb_zero_not_zero (x : F64.t) : F64.gtb x F64.zero = true -> F64.is_zero x = false.
Proof. destruct x; [discriminate | reflexivity ..]. Qed.

Lemma F64_eqb_zero_not_gtb (x : F64.t) : F64.eqb x F64.zero = true -> F64.gtb x F64.zero = false.
Proof. destruct x as [s | s | | s m e]; try destruct s; (reflexivity || discriminate). Qed.

(** *** Summation *)

(** The cutting of [pairwise_sum] ends: with fuel for the length of the
    array it returns a sum. *)
Lemma pairwise_sum_total (fuel : nat) :
  forall a : list F64.t, (length a <= fuel)%nat -> is_Some (Doubles.np.pairwise_sum fuel a).
Proof.
  induction fuel as [| fuel IH]; intros a Hlen.
  - destruct a; [eexists; reflexivity | simpl in Hlen; lia].
  - cbn [Doubles.np.pairwise_sum].
    destruct (length a <? 8)%nat; [eexists; reflexivity | ].
    destruct (Nat.leb_spec (length a) 128) as [_ | Hbig]; [eexists; reflexivity | ].
    pose proof (Nat.div_mod_eq (length a) 2) as Hdiv.
    pose proof (Nat.mod_upper_bound (length a) 2 ltac:(lia)) as Hrem.
    pose proof (Nat.mod_upper_bound (length a / 2) 8 ltac:(lia)) as Hrem8.
    destruct (IH (take (length a / 2 - (length a / 2) mod 8) a)) as [x ->];
      [rewrite length_take; lia | ].
    destruct (IH (drop (length a / 2 - (length a / 2) mod 8) a)) as [y ->];
      [rewrite length_drop; lia | ].
    eexists. reflexivity.
Qed.

(** So [np.add.reduce] is the pairwise sum added to 0. *)
Lemma dsum_pairwise (a : list F64.t) :
  exists s : F64.t,
    Doubles.np.pairwise_sum (length a) a = Some s /\ Doubles.np.sum a = F64.add F64.zero s.
Proof.
  destruct (pairwise_sum_total (length a) a (le_n _)) as [s Hs].
  exists s. split; [exact Hs | ]. unfold Doubles.np.sum. rewrite Hs. reflexivity.
Qed.

(** *** The fit on doubles *)

Lemma dmean_Ok (l : list F64.t) :
  l <> [] ->
  Doubles.np.mean l = Ok (F64.div (Doubles.np.sum l) (F64.of_Z (Z.of_nat (length l)))).
Proof. destruct l; [contradiction | reflexivity]. Qed.

Lemma dstd_Ok (l : list F64.t) : l <> [] -> exists s : F64.t, Doubles.np.std l = Ok s.
Proof.
  intros Hl. unfold Doubles.np.std. rewrite (dmean_Ok l Hl). cbn [mbind result_bind].
  rewrite dmean_Ok by (destruct l; [contradiction | discriminate]).
  eexists. reflexivity.
Qed.

Lemma dstd_Ok_inv (l : list F64.t) (s : F64.t) : Doubles.np.std l = Ok s -> l <> [].
Proof. intros H ->. discriminate H. Qed.

Lemma dget_average_gaze_Ok (p : Doubles.calibration.CalibrationPoint) :
  exists g : F64.t * F64.t, Doubles.calibration.get_average_gaze p = Ok g.
Proof.
  unfold Doubles.calibration.get_average_gaze.
  destruct (Doubles.calibration.gaze_samples p) as [| x xs]; eexists; reflexivity.
Qed.

(** The loop over the points never raises and appends one position and one
    average per point. *)
Lemma dcollect_Ok (pts : list Doubles.calibration.CalibrationPoint)
    (sp gp : list (F64.t * F64.t)) :
  exists sp' gp' : list (F64.t * F64.t),
    Doubles.calibration.collect pts sp gp = Ok (sp ++ sp', gp ++ gp')
    /\ length sp' = length pts /\ length gp' = length pts.
Proof.
  revert sp gp. induction pts as [| p pts IH]; intros sp gp.
  - exists [], []. rewrite !app_nil_r. repeat split; reflexivity.
  - cbn [Doubles.calibration.collect].
    destruct (dget_average_gaze_Ok p) as [g ->]. cbn [mbind result_bind].
    destruct (IH (sp ++ [Doubles.calibration.screen_pos p]) (gp ++ [g]))
      as (sp' & gp' & -> & Hs & Hg).
    exists (Doubles.calibration.screen_pos p :: sp'), (g :: gp').
    rewrite <- !app_assoc. cbn [app length]. repeat split; congruence.
Qed.

Lemma dmean_axis0_Ok (a : list (F64.t * F64.t)) :
  a <> [] -> exists c : F64.t * F64.t, Doubles.np.mean_axis0 a = Ok c.
Proof.
  intros Ha. destruct a as [| x xs]; [contradiction | ]. eexists. reflexivity.
Qed.

Lemma dscale_Ok (screen_spread gaze_spread : F64.t) :
  exists scale : F64.t,
    (if F64.gtb gaze_spread F64.zero then Doubles.fdiv screen_spread gaze_spread
     else mret F64.one) = Ok scale
    /\ (F64.gtb gaze_spread F64.zero = false -> scale = F64.one).
Proof.
  destruct (F64.gtb gaze_spread F64.zero) eqn:Hgt.
  - unfold Doubles.fdiv. rewrite (F64_gtb_zero_not_zero _ Hgt).
    eexists. split; [reflexivity | discriminate].
  - eexists. split; [reflexivity | reflexivity].
Qed.

(** What the fit returns on a non-empty sequence, with the two scales left
    as the guarded quotients of the code. *)
Lemma dfit_Ok (pts : list Doubles.calibration.CalibrationPoint) (now : F64.t)
    (sp gp : list (F64.t * F64.t)) (gh gv : F64.t) :
  Doubles.calibration.collect pts [] [] = Ok (sp, gp) ->
  Doubles.np.std (Doubles.np.col0 gp) = Ok gh ->
  Doubles.np.std (Doubles.np.col1 gp) = Ok gv ->
  exists (d : Doubles.dict) (h_scale v_scale : F64.t),
    Doubles.calibration.calculate_calibration_transform pts now = Ok d
    /\ d !! "h_scale" = Some (Doubles.Float h_scale)
    /\ d !! "v_scale" = Some (Doubles.Float v_scale)
    /\ (F64.gtb gh F64.zero = false -> h_scale = F64.one)
    /\ (F64.gtb gv F64.zero = false -> v_scale = F64.one).
Proof.
  intros Hc Hgh Hgv.
  assert (Hgp : gp <> []).
  { apply dstd_Ok_inv in Hgh. intros ->. apply Hgh. reflexivity. }
  assert (Hsp : sp <> []).
  { destruct (dcollect_Ok pts [] []) as (sp' & gp' & Hc' & Hs & Hg).
    rewrite Hc in Hc'. cbn [app] in Hc'. injection Hc' as -> ->.
    destruct gp'; [contradiction | ]. destruct sp'; [simpl in Hs, Hg; congruence | discriminate]. }
  unfold Doubles.calibration.calculate_calibration_transform.
  rewrite Hc. cbn [mbind result_bind].
  destruct (dmean_axis0_Ok gp Hgp) as [gc ->].
  destruct (dmean_axis0_Ok sp Hsp) as [sc ->]. cbn [mbind result_bind].
  rewrite Hgh, Hgv. cbn [mbind result_bind].
  destruct (dstd_Ok (Doubles.np.col0 sp)) as [sh ->];
    [destruct sp; [contradiction | discriminate] | ].
  destruct (dstd_Ok (Doubles.np.col1 sp)) as [sv ->];
    [destruct sp; [contradiction | discriminate] | ].
  cbn [mbind result_bind].
  destruct (dscale_Ok sh gh) as (h_scale & -> & Hh).
  destruct (dscale_Ok sv gv) as (v_scale & -> & Hv).
  cbn [mbind result_bind mret result_ret].
  eexists _, h_scale, v_scale. split; [reflexivity | ].
  split; [reflexivity | ]. split; [reflexivity | ]. split; assumption.
Qed.

(** A computed spread of zero gives the scale 1.0, and no exception. *)
Lemma zero_spread_gives_unit_scale
    (pts : list Doubles.calibration.CalibrationPoint) (now : F64.t) (ax : Spec.axis) :
  Doubles.zero_spread ax pts ->
  exists d : Doubles.dict,
    Doubles.calibration.calculate_calibration_transform pts now = Ok d
    /\ d !! Spec.scale_key ax = Some (Doubles.Float F64.one).
Proof.
  intros (spread & Hspread & Hzero). unfold Doubles.gaze_spread in Hspread.
  destruct (Doubles.calibration.collect pts [] []) as [[sp gp] | e] eqn:Hc;
    [| discriminate Hspread].
  cbn [mbind result_bind] in Hspread.
  assert (Hgp : gp <> []).
  { apply dstd_Ok_inv in Hspread. intros ->. apply Hspread. destruct ax; reflexivity. }
  destruct (dstd_Ok (Doubles.np.col0 gp)) as [gh Hgh];
    [destruct gp; [contradiction | discriminate] | ].
  destruct (dstd_Ok (Doubles.np.col1 gp)) as [gv Hgv];
    [destruct gp; [contradiction | discriminate] | ].
  destruct (dfit_Ok pts now sp gp gh gv Hc Hgh Hgv) as (d & hs & vs & Hd & Hhs & Hvs & Hh & Hv).
  exists d. split; [exact Hd | ].
  apply F64_eqb_zero_not_gtb in Hzero.
  destruct ax; cbn [Spec.scale_key].
  - rewrite Hgh in Hspread. injection Hspread as ->. rewrite Hhs, (Hh Hzero). reflexivity.
  - rewrite Hgv in Hspread. injection Hspread as ->. rewrite Hvs, (Hv Hzero). reflexivity.
Qed.

(** *** All-centred samples *)

Lemma map_constant {A B : Type} (f : A -> B) (c : A) (l : list A) :
  Forall (fun x => x = c) l -> map f l = repeat (f c) (length l).
Proof. induction 1 as [| x l -> _ IH]; [reflexivity | simpl; f_equal; exact IH]. Qed.

(** The mean of up to thirty halves is a half: every partial sum is a
    multiple of 0.5 below 16 and the division is exact. *)
Lemma dmean_of_halves (k : nat) :
  (1 <= k <= 30)%nat -> Doubles.np.mean (repeat F64.half k) = Ok F64.half.
Proof.
  intros Hk.
  do 31 (destruct k as [| k]; [first [lia | vm_compute; reflexivity] | ]).
  lia.
Qed.

(** Up to nine halves have no spread. *)
Lemma dstd_of_halves (n : nat) :
  (1 <= n <= 9)%nat -> Doubles.np.std (repeat F64.half n) = Ok F64.zero.
Proof.
  intros Hn.
  do 10 (destruct n as [| n]; [first [lia | vm_compute; reflexivity] | ]).
  lia.
Qed.

Lemma dget_average_gaze_centred (p : Doubles.calibration.CalibrationPoint) :
  (length (Doubles.calibration.gaze_samples p) <= 30)%nat ->
  Forall (fun x => x = (F64.half, F64.half)) (Doubles.calibration.gaze_samples p) ->
  Doubles.calibration.get_average_gaze p = Ok (F64.half, F64.half).
Proof.
  intros Hlen Hall. unfold Doubles.calibration.get_average_gaze.
  rewrite (map_constant fst _ _ Hall), (map_constant snd _ _ Hall). cbn [fst snd].
  destruct (Doubles.calibration.gaze_samples p) as [| x xs]; [reflexivity | ].
  rewrite dmean_of_halves by (simpl in *; lia). reflexivity.
Qed.

Lemma dcollect_centred (pts : list Doubles.calibration.CalibrationPoint)
    (sp gp : list (F64.t * F64.t)) :
  Forall (fun p => (length (Doubles.calibration.gaze_samples p) <= 30)%nat
                   /\ Forall (fun x => x = (F64.half, F64.half))
                        (Doubles.calibration.gaze_samples p)) pts ->
  Doubles.calibration.collect pts sp gp
  = Ok (sp ++ map Doubles.calibration.screen_pos pts,
        gp ++ repeat (F64.half, F64.half) (length pts)).
Proof.
  intros Hall. revert sp gp. induction Hall as [| p pts [Hlen Hp] _ IH]; intros sp gp.
  - cbn. rewrite !app_nil_r. reflexivity.
  - cbn [Doubles.calibration.collect]. rewrite (dget_average_gaze_centred p Hlen Hp).
    cbn [mbind result_bind]. rewrite IH, <- !app_assoc. reflexivity.
Qed.

(** The case the specification names: when every sample is the centre, on
    up to nine points of up to thirty samples each (what [run_calibration]
    collects by default), the computed spread of the averaged gaze ratios
    is zero on both axes. *)
Lemma centred_samples_have_zero_spread
    (pts : list Doubles.calibration.CalibrationPoint) (ax : Spec.axis) :
  Doubles.centred 9 30 pts -> Doubles.gaze_spread ax pts = Ok F64.zero.
Proof.
  intros (Hne & Hlen & Hall). unfold Doubles.gaze_spread.
  rewrite (dcollect_centred pts [] [] Hall). cbn [mbind result_bind app].
  assert (Hcol : match ax with
                 | Spec.Horizontal => Doubles.np.col0 (repeat (F64.half, F64.half) (length pts))
                 | Spec.Vertical => Doubles.np.col1 (repeat (F64.half, F64.half) (length pts))
                 end = repeat F64.half (length pts)).
  { assert (Hrep : Forall (fun x => x = (F64.half, F64.half))
                     (repeat (F64.half, F64.half) (length pts))).
    { generalize (length pts). intros n. induction n; constructor; [reflexivity | assumption]. }
    destruct ax; unfold Doubles.np.col0, Doubles.np.col1;
      rewrite (map_constant _ _ _ Hrep), repeat_length; reflexivity. }
  rewrite Hcol. apply dstd_of_halves.
  destruct pts; [contradiction | simpl in *; lia].
Qed.

(** C6, amended.  When the standard deviation of the averaged gaze ratios
    that the code computes on an axis is zero, as it is in particular when
    every sample is the centre (0.5, 0.5) on up to nine points of up to
    thirty samples, the fit returns normally (no exception, no division by
    zero) and the scale on that axis is exactly 1.0. *)
Theorem C6_zero_computed_spread_gives_unit_scale
    (pts : list Doubles.calibration.CalibrationPoint) (now : F64.t) (ax : Spec.axis) :
  Doubles.zero_spread ax pts \/ Doubles.centred 9 30 pts ->
  Doubles.zero_spread ax pts
  /\ exists d : Doubles.dict,
       Doubles.calibration.calculate_calibration_transform pts now = Ok d
       /\ d !! Spec.scale_key ax = Some (Doubles.Float F64.one).
Proof.
  intros Hcase.
  assert (Hzero : Doubles.zero_spread ax pts).
  { destruct Hcase as [Hzero | Hcentred]; [exact Hzero | ].
    exists F64.zero. split; [apply centred_samples_have_zero_spread; exact Hcentred | ].
    reflexivity. }
  split; [exact Hzero | apply zero_spread_gives_unit_scale; exact Hzero].
Qed.

Lemma centred_gaze_points_are_centred : Doubles.centred 9 30 Examples.centred_gaze_points.
Proof.
  split; [discriminate | ]. split; [simpl; lia | ].
  repeat constructor; simpl; lia.
Defined.

Lemma C6_zero_computed_spread_witness :
  Doubles.zero_spread Spec.Horizontal Examples.centred_gaze_points
  /\ exists d : Doubles.dict,
       Doubles.calibration.calculate_calibration_transform Examples.centred_gaze_points F64.zero
       = Ok d
       /\ d !! Spec.scale_key Spec.Horizontal = Some (Doubles.Float F64.one).
Proof.
  apply (C6_zero_computed_spread_gives_unit_scale
           Examples.centred_gaze_points F64.zero Spec.Horizontal).
  right. exact centred_gaze_points_are_centred.
Defined.

(** C6 as written fails.  Three points with the one sample (0.1, 0.1) each
    have identical samples, yet the mean of 0.1, 0.1 and 0.1 is not 0.1 in
    doubles: the computed spread is [2 ** -56], above zero, the guard lets
    the division through, and the horizontal scale is about 2.35e16, not
    1.0. *)
Lemma C6_counterexample_identical_samples :
  Doubles.gaze_spread Spec.Horizontal Examples.constant_gaze_points = Ok (F64.pow2 (-56))
  /\ F64.gtb (F64.pow2 (-56)) F64.zero = true
  /\ (d ← Doubles.calibration.calculate_calibration_transform
            Examples.constant_gaze_points F64.zero;
      mret (d !! "h_scale"))
     = Ok (Some (Doubles.Float (S754_finite false 5883477916184626 2)))
  /\ ~ Written.identical_samples_give_unit_scale Examples.constant_gaze_points F64.zero.
Proof.
  assert (Hfit : (d ← Doubles.calibration.calculate_calibration_transform
                        Examples.constant_gaze_points F64.zero;
                  mret (d !! "h_scale"))
                 = Ok (Some (Doubles.Float (S754_finite false 5883477916184626 2))))
    by (vm_compute; reflexivity).
  split; [vm_compute; reflexivity | ]. split; [reflexivity | ]. split; [exact Hfit | ].
  intros Hclaim.
  assert (Hsame : exists s : F64.t * F64.t,
             Forall (fun p => Doubles.calibration.gaze_samples p <> []
                              /\ Forall (fun x => x = s) (Doubles.calibration.gaze_samples p))
               Examples.constant_gaze_points).
  { exists (F64.ratio 1 10, F64.ratio 1 10). repeat constructor; discriminate. }
  destruct (Hclaim Hsame Spec.Horizontal) as (d & Hd & Hs).
  rewrite Hd in Hfit. cbn [mbind result_bind mret result_ret Spec.scale_key] in Hfit, Hs.
  rewrite Hs in Hfit. vm_compute in Hfit. discriminate Hfit.
Qed.

(** The same on the sizes of a real calibration: five points with thirty
    samples (0.1, 0.1) each.  Every point averages to 0.10000000000000003,
    the mean of the five averages is off by one unit in the last place, the
    computed spread is [2 ** -56] and the horizontal scale about 2.58e16. *)
Example identical_samples_on_five_points :
  Doubles.gaze_spread Spec.Horizontal Examples.constant_gaze_walk = Ok (F64.pow2 (-56))
  /\ (d ← Doubles.calibration.calculate_calibration_transform
            Examples.constant_gaze_walk F64.zero;
      mret (d !! "h_scale"))
     = Ok (Some (Doubles.Float (S754_finite false 6445027142555618 2))).
Proof. split; vm_compute; reflexivity. Qed.

(** ** Where the fit sends the gaze centroid (claim C5, amended) *)

Lemma clamp01_id (x : R) : 0 <= x <= 1 -> Spec.clamp01 x = x.
Proof.
  intros Hx. unfold Spec.clamp01.
  destruct (decide (x < 0)); [lra | ]. destruct (decide (1 < x)); [lra | reflexivity].
Qed.

(** The image of the gaze centroid under the fitted parameters. *)
Lemma centroid_image
    (pts : list calibration.CalibrationPoint) (now : R) (d : dict) (self : EyeTracker.t)
    (ax : Spec.axis) :
  calibration.calculate_calibration_transform pts now = Ok d ->
  EyeTracker.calibration_data self = Some d ->
  Spec.coord ax
    (EyeTracker.apply_calibration self
       (Spec.mean (Spec.gaze Spec.Horizontal pts))
       (Spec.mean (Spec.gaze Spec.Vertical pts)))
  = Spec.clamp01 (Spec.mean (Spec.target ax pts) * Spec.fitted_scale ax pts).
Proof.
  intros Hfit Hself.
  destruct (fit_lookup pts now d Hfit) as [_ Hk].
  destruct (Hk Spec.Horizontal) as [Hho Hhs]. destruct (Hk Spec.Vertical) as [Hvo Hvs].
  cbn [Spec.offset_key Spec.scale_key] in Hho, Hhs, Hvo, Hvs.
  rewrite (apply_calibration_params self d _ _ _ _ _ _ Hself Hho Hvo Hhs Hvs).
  destruct ax; cbn [Spec.coord fst snd]; f_equal; unfold Spec.fitted_offset; ring.
Qed.

(** C5, amended.  With the offset and scale of the fit, [apply_calibration]
    sends the centroid of the averaged gaze ratios, on each axis, to the
    target centroid multiplied by the fitted scale, clamped to [0,1]; that is
    the target centroid itself when the fitted scale on the axis is 1 and the
    target centroid lies in [0,1]. *)
Theorem C5_gaze_centroid_image
    (pts : list calibration.CalibrationPoint) (now : R) (d : dict) (self : EyeTracker.t) :
  calibration.calculate_calibration_transform pts now = Ok d ->
  EyeTracker.calibration_data self = Some d ->
  let image :=
    EyeTracker.apply_calibration self
      (Spec.mean (Spec.gaze Spec.Horizontal pts))
      (Spec.mean (Spec.gaze Spec.Vertical pts)) in
  forall ax : Spec.axis,
    Spec.coord ax image
      = Spec.clamp01 (Spec.mean (Spec.target ax pts) * Spec.fitted_scale ax pts)
    /\ (Spec.fitted_scale ax pts = 1 ->
        0 <= Spec.mean (Spec.target ax pts) <= 1 ->
        Spec.coord ax image = Spec.mean (Spec.target ax pts)).
Proof.
  intros Hfit Hself image ax. subst image.
  rewrite (centroid_image pts now d self ax Hfit Hself).
  split; [reflexivity | ].
  intros Hone Hin. rewrite Hone, Rmult_1_r. apply clamp01_id. exact Hin.
Qed.

Lemma narrow_gaze (ax : Spec.axis) :
  Spec.gaze ax Sample.narrow_gaze_points = [Spec.mean [0.4375]; Spec.mean [0.5625]].
Proof. destruct ax; reflexivity. Qed.

Lemma narrow_target (ax : Spec.axis) :
  Spec.target ax Sample.narrow_gaze_points = [0.125; 0.375].
Proof. destruct ax; reflexivity. Qed.

(** Gaze centroid 0.5, target centroid 0.25, scale 2 on both axes. *)
Lemma narrow_gaze_values (ax : Spec.axis) :
  Spec.mean (Spec.gaze ax Sample.narrow_gaze_points) = 0.5
  /\ Spec.mean (Spec.target ax Sample.narrow_gaze_points) = 0.25
  /\ Spec.fitted_scale ax Sample.narrow_gaze_points = 2.
Proof.
  unfold Spec.fitted_scale.
  rewrite narrow_gaze, narrow_target, !mean_singleton, !mean_pair, !stddev_pair.
  replace (0.4375 - 0.5625) with (- (1 / 8)) by lra.
  replace (0.125 - 0.375) with (- (1 / 4)) by lra.
  rewrite !Rabs_Ropp, !Rabs_pos_eq by lra.
  destruct (decide (1 / 8 / 2 = 0)) as [Hz | _]; [lra | ].
  repeat split; lra.
Qed.

Lemma narrow_gaze_fit_eq :
  calibration.calculate_calibration_transform Sample.narrow_gaze_points 0
  = Ok Sample.narrow_gaze_fit.
Proof.
  rewrite calculate_calibration_transform_Ok by discriminate.
  unfold Spec.fitted_offset.
  destruct (narrow_gaze_values Spec.Horizontal) as (-> & -> & ->).
  destruct (narrow_gaze_values Spec.Vertical) as (-> & -> & ->).
  unfold Sample.narrow_gaze_fit.
  replace (0.5 - 0.25) with 0.25 by lra.
  replace (INR (length Sample.narrow_gaze_points)) with 2 by (simpl; lra).
  reflexivity.
Qed.

Lemma C5_gaze_centroid_witness :
  Spec.coord Spec.Horizontal
    (EyeTracker.apply_calibration (EyeTracker.mk 0 (Some Sample.narrow_gaze_fit) Sample.path)
       (Spec.mean (Spec.gaze Spec.Horizontal Sample.narrow_gaze_points))
       (Spec.mean (Spec.gaze Spec.Vertical Sample.narrow_gaze_points)))
  = Spec.clamp01 (Spec.mean (Spec.target Spec.Horizontal Sample.narrow_gaze_points)
                  * Spec.fitted_scale Spec.Horizontal Sample.narrow_gaze_points).
Proof.
  exact (proj1 (C5_gaze_centroid_image Sample.narrow_gaze_points 0 Sample.narrow_gaze_fit
                  (EyeTracker.mk 0 (Some Sample.narrow_gaze_fit) Sample.path)
                  narrow_gaze_fit_eq eq_refl Spec.Horizontal)).
Defined.

Lemma narrow_gaze_image (d : dict) (ax : Spec.axis) :
  calibration.calculate_calibration_transform Sample.narrow_gaze_points 0 = Ok d ->
  Spec.coord ax
    (EyeTracker.apply_calibration (EyeTracker.mk 0 (Some d) Sample.path)
       (Spec.mean (Spec.gaze Spec.Horizontal Sample.narrow_gaze_points))
       (Spec.mean (Spec.gaze Spec.Vertical Sample.narrow_gaze_points)))
  = 0.5.
Proof.
  intros Hd.
  rewrite (centroid_image _ 0 d _ ax Hd) by reflexivity.
  destruct (narrow_gaze_values ax) as (_ & -> & ->).
  rewrite clamp01_id by lra. lra.
Qed.

(** C5 as written fails: with gaze ratios half as spread as the targets the
    fitted scale is 2, and the gaze centroid (0.5, 0.5) is sent to
    (0.5, 0.5) while the target centroid is (0.25, 0.25); nothing is clamped
    on the way. *)
Lemma C5_counterexample_scaled_centroid :
  calibration.calculate_calibration_transform Sample.narrow_gaze_points 0
    = Ok Sample.narrow_gaze_fit
  /\ (forall ax : Spec.axis,
        Spec.coord ax
          (EyeTracker.apply_calibration
             (EyeTracker.mk 0 (Some Sample.narrow_gaze_fit) Sample.path)
             (Spec.mean (Spec.gaze Spec.Horizontal Sample.narrow_gaze_points))
             (Spec.mean (Spec.gaze Spec.Vertical Sample.narrow_gaze_points)))
        = 0.5
        /\ Spec.mean (Spec.gaze ax Sample.narrow_gaze_points) = 0.5
        /\ Spec.mean (Spec.target ax Sample.narrow_gaze_points) = 0.25)
  /\ ~ Claimed.centroid_round_trip Sample.narrow_gaze_points 0.
Proof.
  split; [exact narrow_gaze_fit_eq | split].
  - intros ax. split; [| split].
    + apply narrow_gaze_image. exact narrow_gaze_fit_eq.
    + apply narrow_gaze_values.
    + apply narrow_gaze_values.
  - intros (d & Hd & Hnear). specialize (Hnear Spec.Horizontal).
    change "calibration_data/calibration.json" with Sample.path in Hnear.
    rewrite (narrow_gaze_image d Spec.Horizontal Hd) in Hnear.
    destruct (narrow_gaze_values Spec.Horizontal) as (_ & Ht & _). rewrite Ht in Hnear.
    unfold Spec.near, Spec.tolerance in Hnear.
    replace (0.5 - 0.25) with (1 / 4) in Hnear by lra.
    rewrite Rabs_pos_eq in Hnear by lra. lra.
Qed.

(** * Persistence (section 6, error class (d)) *)

(** A refused write: the tracker is returned as it was, and the failure is
    printed. *)
Lemma save_calibration_failed_write
    (self : EyeTracker.t) (calibration_data : dict) (w : World) :
  Spec.write_raises self w ->
  fst (EyeTracker.save_calibration self calibration_data w) = Ok self
  /\ stdout (snd (EyeTracker.save_calibration self calibration_data w))
     = stdout w ++ [ErrorSaving OSError].
Proof.
  intros [Hdir Hwrite]. unfold EyeTracker.save_calibration.
  destruct (decide (EyeTracker.calibration_file self ∈ mkdir_denied w)) as [Hin | _];
    [contradiction | ].
  destruct (decide (EyeTracker.calibration_file self ∈ open_denied w)) as [_ | Hopen].
  - split; reflexivity.
  - destruct Hwrite as [Hin | Hfull]; [contradiction | ].
    rewrite Hfull. split; reflexivity.
Qed.

(** A write that goes through: the file holds the dictionary, and so does
    the tracker. *)
Lemma save_calibration_written
    (self : EyeTracker.t) (calibration_data : dict) (w : World) :
  EyeTracker.calibration_file self ∉ mkdir_denied w ->
  EyeTracker.calibration_file self ∉ open_denied w ->
  disk_full w = false ->
  exists (self' : EyeTracker.t) (w' : World),
    EyeTracker.save_calibration self calibration_data w = (Ok self', w')
    /\ EyeTracker.calibration_data self' = Some calibration_data
    /\ files w' !! EyeTracker.calibration_file self = Some (JsonObject calibration_data)
    /\ stdout w' = stdout w ++ [SavedTo (EyeTracker.calibration_file self)].
Proof.
  intros Hdir Hopen Hfull. unfold EyeTracker.save_calibration.
  destruct (decide _) as [Hin | _]; [contradiction | ].
  destruct (decide _) as [Hin | _]; [contradiction | ].
  rewrite Hfull. do 2 eexists. split; [reflexivity | ].
  split; [reflexivity | ]. split; [| reflexivity].
  simpl. apply lookup_insert_eq.
Qed.

(** [os.makedirs] is outside the [try]: its exception leaves the method. *)
Lemma save_calibration_makedirs_raises
    (self : EyeTracker.t) (calibration_data : dict) (w : World) :
  EyeTracker.calibration_file self ∈ mkdir_denied w ->
  EyeTracker.save_calibration self calibration_data w = (Raise OSError, w).
Proof.
  intros Hin. unfold EyeTracker.save_calibration.
  destruct (decide _) as [_ | Hn]; [reflexivity | contradiction].
Qed.

(** [load_calibration] fails open: without a file, or with one that
    [json.load] rejects, the tracker is returned as it was and the flag is
    false; only the second case prints. *)
Lemma load_calibration_fails_open (self : EyeTracker.t) (w : World) :
  files w !! EyeTracker.calibration_file self = None
  \/ files w !! EyeTracker.calibration_file self = Some Malformed ->
  exists w' : World,
    EyeTracker.load_calibration self w = (false, EyeTracker.Typed self, w')
    /\ (files w !! EyeTracker.calibration_file self = None -> w' = w).
Proof.
  intros [Hf | Hf]; unfold EyeTracker.load_calibration; rewrite Hf.
  - exists w. split; reflexivity.
  - eexists. split; [reflexivity | discriminate].
Qed.

(** C7, amended.  When the write of [save_calibration] raises, the failure
    is logged and the in-memory calibration state is left as it was: the
    session goes on with the calibration it had before. *)
Theorem C7_failed_write_keeps_old_calibration
    (self : EyeTracker.t) (calibration_data : dict) (w : World) :
  Spec.write_raises self w ->
  exists self' : EyeTracker.t,
    fst (EyeTracker.save_calibration self calibration_data w) = Ok self'
    /\ stdout (snd (EyeTracker.save_calibration self calibration_data w))
       = stdout w ++ [ErrorSaving OSError]
    /\ EyeTracker.calibration_data self' = EyeTracker.calibration_data self.
Proof.
  intros Hw. exists self.
  destruct (save_calibration_failed_write self calibration_data w Hw) as [Hr Hout].
  split; [exact Hr | ]. split; [exact Hout | reflexivity].
Qed.

Lemma read_only_write_raises : Spec.write_raises Sample.fresh_tracker Sample.read_only_world.
Proof.
  split.
  - simpl. apply not_elem_of_empty.
  - left. simpl. apply elem_of_singleton. reflexivity.
Defined.

Lemma C7_failed_write_witness :
  exists self' : EyeTracker.t,
    fst (EyeTracker.save_calibration Sample.fresh_tracker Sample.params Sample.read_only_world)
    = Ok self'
    /\ stdout (snd (EyeTracker.save_calibration
                      Sample.fresh_tracker Sample.params Sample.read_only_world))
       = stdout Sample.read_only_world ++ [ErrorSaving OSError]
    /\ EyeTracker.calibration_data self' = EyeTracker.calibration_data Sample.fresh_tracker.
Proof.
  apply (C7_failed_write_keeps_old_calibration
           Sample.fresh_tracker Sample.params Sample.read_only_world).
  exact read_only_write_raises.
Defined.

(** C7 as written fails: a tracker without calibration whose file cannot be
    opened for writing still has no calibration after [save_calibration]. *)
Lemma C7_counterexample_read_only_file :
  fst (EyeTracker.save_calibration Sample.fresh_tracker Sample.params Sample.read_only_world)
    = Ok Sample.fresh_tracker
  /\ EyeTracker.calibration_data Sample.fresh_tracker = None
  /\ ~ Claimed.failed_write_updates_memory
         Sample.fresh_tracker Sample.params Sample.read_only_world.
Proof.
  destruct (save_calibration_failed_write
              Sample.fresh_tracker Sample.params Sample.read_only_world
              read_only_write_raises) as [Hr _].
  split; [exact Hr | ]. split; [reflexivity | ].
  intros Hclaim. destruct (Hclaim read_only_write_raises) as (self' & e & Hr' & _ & Hmem).
  rewrite Hr in Hr'. injection Hr' as <-. discriminate Hmem.
Qed.

(** ** The calibration file in double precision (claim C8) *)

(** What [json.dump] writes for a number, [json.load] reads back as the
    same number. *)
Lemma loads_dumps (v : Doubles.number) : Doubles.loads (Doubles.dumps v) = v.
Proof. destruct v as [z | [s | [|] | | s m e]]; reflexivity. Qed.

Lemma loads_dumps_dict (d : Doubles.dict) : Doubles.loads <$> (Doubles.dumps <$> d) = d.
Proof.
  apply map_eq. intros key. rewrite !lookup_fmap.
  destruct (d !! key) as [v |]; [cbn; rewrite loads_dumps | ]; reflexivity.
Qed.

(** A write that goes through, in doubles: the file holds the text of the
    dictionary. *)
Lemma dsave_calibration_written
    (self : Doubles.EyeTracker.t) (calibration_data : Doubles.dict) (w : Doubles.World) :
  Doubles.EyeTracker.calibration_file self ∉ Doubles.mkdir_denied w ->
  Doubles.EyeTracker.calibration_file self ∉ Doubles.open_denied w ->
  Doubles.disk_full w = false ->
  exists w' : Doubles.World,
    Doubles.EyeTracker.save_calibration self calibration_data w
    = (Ok (Doubles.EyeTracker.set_calibration_data self (Some calibration_data)), w')
    /\ Doubles.files w' !! Doubles.EyeTracker.calibration_file self
       = Some (Doubles.JsonObject (Doubles.dumps <$> calibration_data)).
Proof.
  intros Hdir Hopen Hfull. unfold Doubles.EyeTracker.save_calibration.
  destruct (decide _) as [Hin | _]; [contradiction | ].
  destruct (decide _) as [Hin | _]; [contradiction | ].
  rewrite Hfull. eexists. split; [reflexivity | ].
  cbn. apply lookup_insert_eq.
Qed.

(** A refused [open], in doubles: nothing is written and the tracker is as
    before. *)
Lemma dsave_calibration_open_refused
    (self : Doubles.EyeTracker.t) (calibration_data : Doubles.dict) (w : Doubles.World) :
  Doubles.EyeTracker.calibration_file self ∉ Doubles.mkdir_denied w ->
  Doubles.EyeTracker.calibration_file self ∈ Doubles.open_denied w ->
  Doubles.EyeTracker.save_calibration self calibration_data w
  = (Ok self, Doubles.print (ErrorSaving OSError) w).
Proof.
  intros Hdir Hopen. unfold Doubles.EyeTracker.save_calibration.
  destruct (decide _) as [Hin | _]; [contradiction | ].
  destruct (decide _) as [_ | Hout]; [reflexivity | contradiction].
Qed.

(** C8, amended.  A calibration dictionary whose offsets and scales are
    floats other than not-a-number, saved by a [save_calibration] whose
    write goes through and loaded by [load_calibration] on the same file,
    comes back with [h_offset], [v_offset], [h_scale] and [v_scale] equal
    ([==]) to the saved ones. *)
Theorem C8_round_trip_of_numbers
    (self other : Doubles.EyeTracker.t) (calibration_data : Doubles.dict) (w : Doubles.World) :
  Doubles.EyeTracker.calibration_file self ∉ Doubles.mkdir_denied w ->
  Doubles.EyeTracker.calibration_file self ∉ Doubles.open_denied w ->
  Doubles.disk_full w = false ->
  Doubles.EyeTracker.calibration_file other = Doubles.EyeTracker.calibration_file self ->
  (forall key : string, key ∈ Doubles.parameter_keys ->
     exists x : F64.t,
       calibration_data !! key = Some (Doubles.Float x) /\ F64.is_nan x = false) ->
  exists (self' other' : Doubles.EyeTracker.t) (w' w'' : Doubles.World) (loaded : Doubles.dict),
    Doubles.EyeTracker.save_calibration self calibration_data w = (Ok self', w')
    /\ Doubles.EyeTracker.load_calibration other w' = (true, Doubles.EyeTracker.Typed other', w'')
    /\ Doubles.EyeTracker.calibration_data other' = Some loaded
    /\ forall (key : string) (x : F64.t),
         key ∈ Doubles.parameter_keys ->
         calibration_data !! key = Some (Doubles.Float x) ->
         exists y : F64.t, loaded !! key = Some (Doubles.Float y) /\ F64.eqb x y = true.
Proof.
  intros Hdir Hopen Hfull Hsame Hnum.
  destruct (dsave_calibration_written self calibration_data w Hdir Hopen Hfull)
    as (w' & Hsave & Hfile).
  eexists _, _, w', _, calibration_data. split; [exact Hsave | ]. split.
  { unfold Doubles.EyeTracker.load_calibration. rewrite Hsame, Hfile.
    rewrite loads_dumps_dict. reflexivity. }
  split; [reflexivity | ].
  intros key x Hkey Hx. exists x. split; [exact Hx | ].
  destruct (Hnum key Hkey) as (x' & Hx' & Hnan).
  rewrite Hx in Hx'. injection Hx' as <-. apply F64_eqb_refl. exact Hnan.
Qed.

Lemma params_are_numbers :
  forall key : string, key ∈ Doubles.parameter_keys ->
    exists x : F64.t,
      Examples.params !! key = Some (Doubles.Float x) /\ F64.is_nan x = false.
Proof.
  intros key Hkey. unfold Doubles.parameter_keys in Hkey.
  repeat (apply elem_of_cons in Hkey as [-> | Hkey];
          [eexists; split; [reflexivity | reflexivity] | ]).
  apply elem_of_nil in Hkey. contradiction.
Defined.

Lemma C8_round_trip_witness :
  exists (self' other' : Doubles.EyeTracker.t) (w' w'' : Doubles.World) (loaded : Doubles.dict),
    Doubles.EyeTracker.save_calibration Examples.fresh_tracker Examples.params
      Examples.empty_world = (Ok self', w')
    /\ Doubles.EyeTracker.load_calibration Examples.fresh_tracker w'
       = (true, Doubles.EyeTracker.Typed other', w'')
    /\ Doubles.EyeTracker.calibration_data other' = Some loaded
    /\ forall (key : string) (x : F64.t),
         key ∈ Doubles.parameter_keys ->
         Examples.params !! key = Some (Doubles.Float x) ->
         exists y : F64.t, loaded !! key = Some (Doubles.Float y) /\ F64.eqb x y = true.
Proof.
  apply (C8_round_trip_of_numbers Examples.fresh_tracker Examples.fresh_tracker
           Examples.params Examples.empty_world).
  - simpl. apply not_elem_of_empty.
  - simpl. apply not_elem_of_empty.
  - reflexivity.
  - reflexivity.
  - exact params_are_numbers.
Defined.

(** C8 as written fails twice.  A parameter that is not-a-number is
    written as [NaN], read back as not-a-number, and is not equal to
    itself; and when [open] refuses the file nothing is written, so there is
    nothing to load. *)
Lemma C8_counterexample_nan_and_refused_write :
  (exists w' : Doubles.World,
     Doubles.EyeTracker.save_calibration Examples.fresh_tracker Examples.nan_params
       Examples.empty_world
     = (Ok (Doubles.EyeTracker.mk 0 (Some Examples.nan_params) Examples.path), w')
     /\ Doubles.EyeTracker.load_calibration Examples.fresh_tracker w'
        = (true,
           Doubles.EyeTracker.Typed
             (Doubles.EyeTracker.mk 0 (Some Examples.nan_params) Examples.path),
           Doubles.print (LoadedFrom Examples.path) w'))
  /\ Examples.nan_params !! "h_offset" = Some (Doubles.Float F64.nan)
  /\ F64.eqb F64.nan F64.nan = false
  /\ ~ Written.round_trip_reproduces Examples.fresh_tracker Examples.fresh_tracker
         Examples.nan_params Examples.empty_world
  /\ ~ Written.round_trip_reproduces Examples.fresh_tracker Examples.fresh_tracker
         Examples.params Examples.read_only_world.
Proof.
  assert (Hempty : forall q : string, q ∉ (∅ : gset string)) by (intros q; apply not_elem_of_empty).
  destruct (dsave_calibration_written Examples.fresh_tracker Examples.nan_params
              Examples.empty_world (Hempty _) (Hempty _) eq_refl) as (w' & Hsave & Hfile).
  assert (Hload : Doubles.EyeTracker.load_calibration Examples.fresh_tracker w'
                  = (true,
                     Doubles.EyeTracker.Typed
                       (Doubles.EyeTracker.mk 0 (Some Examples.nan_params) Examples.path),
                     Doubles.print (LoadedFrom Examples.path) w')).
  { unfold Doubles.EyeTracker.load_calibration. rewrite Hfile, loads_dumps_dict. reflexivity. }
  assert (Hfloats : forall key : string, key ∈ Doubles.parameter_keys ->
            exists x : F64.t, Examples.params !! key = Some (Doubles.Float x)).
  { intros key Hkey. unfold Doubles.parameter_keys in Hkey.
    repeat (apply elem_of_cons in Hkey as [-> | Hkey]; [eexists; reflexivity | ]).
    apply elem_of_nil in Hkey. contradiction. }
  assert (Hfloats' : forall key : string, key ∈ Doubles.parameter_keys ->
            exists x : F64.t, Examples.nan_params !! key = Some (Doubles.Float x)).
  { intros key Hkey. unfold Doubles.parameter_keys in Hkey.
    repeat (apply elem_of_cons in Hkey as [-> | Hkey]; [eexists; reflexivity | ]).
    apply elem_of_nil in Hkey. contradiction. }
  split; [exists w'; split; [exact Hsave | exact Hload] | ].
  split; [reflexivity | ]. split; [reflexivity | ]. split.
  - intros Hclaim.
    destruct (Hclaim eq_refl Hfloats')
      as (self1 & other1 & w1 & w2 & loaded & Hs & Hl & Hd & Hall).
    rewrite Hsave in Hs. injection Hs as <- <-.
    rewrite Hload in Hl. injection Hl as <- <-.
    cbn in Hd. injection Hd as <-.
    destruct (Hall "h_offset" F64.nan) as (y & _ & Heq); [| reflexivity | ].
    + apply elem_of_cons. left. reflexivity.
    + rewrite F64_eqb_nan in Heq. discriminate Heq.
  - intros Hclaim.
    destruct (Hclaim eq_refl Hfloats)
      as (self1 & other1 & w1 & w2 & loaded & Hs & Hl & _).
    rewrite dsave_calibration_open_refused in Hs.
    + injection Hs as <- <-. discriminate Hl.
    + apply Hempty.
    + simpl. apply elem_of_singleton. reflexivity.
Qed.

(** ** Attained upper bounds (claim C10) *)



(** Both upper bounds are reached at once: an uncalibrated tracker with both
    eyes at (0, 1) reports the pixel (1920, 1080) on a 1920 x 1080 screen. *)
Example screen_corner_is_out_of_range :
  EyeTracker.estimate_screen_position Sample.fresh_tracker (0, 1) (0, 1) 1920 1080
  = (1920%Z, 1080%Z).
Proof.
  rewrite estimate_screen_position_eq. simpl.
  replace ((1 - (0 + 0) / 2) * 1920) with (IZR 1920) by lra.
  replace ((1 + 1) / 2 * 1080) with (IZR 1080) by lra.
  rewrite !int_IZR. reflexivity.
Qed.

(** On the default screen the far corner is reached in doubles as well. *)
Example screen_corner_in_doubles :
  Doubles.EyeTracker.estimate_screen_position Examples.fresh_tracker
    (F64.zero, F64.one) (F64.zero, F64.one) 1920 1080
  = Ok (1920%Z, 1080%Z).
Proof. vm_compute. reflexivity. Qed.

(** * Further properties of the gaze ratio *)

Lemma clamp01_bounds (x : R) : 0 <= Spec.clamp01 x <= 1.
Proof. rewrite <- clip_clamp01. apply clip_bounds. Qed.

(** [calculate_gaze_ratio] once the bounding box is known. *)
Lemma gaze_ratio_closed_form
    (iris_center : R * R) (eye_coords : list (R * R)) (eye_min eye_max : R * R) :
  np.min_axis0 eye_coords = Ok eye_min ->
  np.max_axis0 eye_coords = Ok eye_max ->
  EyeTracker.calculate_gaze_ratio iris_center eye_coords
  = Ok (if decide (fst eye_max - fst eye_min = 0 \/ snd eye_max - snd eye_min = 0)
        then (0.5, 0.5)
        else (Spec.clamp01 ((fst iris_center - fst eye_min) / (fst eye_max - fst eye_min)),
              Spec.clamp01 ((snd iris_center - snd eye_min) / (snd eye_max - snd eye_min)))).
Proof.
  intros Hmin Hmax. unfold EyeTracker.calculate_gaze_ratio. rewrite Hmin, Hmax. simpl.
  destruct (decide _) as [Hdeg | Hnd]; [reflexivity | ].
  rewrite !fdiv_Ok by tauto. simpl. rewrite !clip_clamp01. reflexivity.
Qed.

Lemma min_axis0_cons (p : R * R) (ps : list (R * R)) :
  np.min_axis0 (p :: ps) = Ok (foldl Rmin (fst p) (map fst ps), foldl Rmin (snd p) (map snd ps)).
Proof. reflexivity. Qed.

Lemma max_axis0_cons (p : R * R) (ps : list (R * R)) :
  np.max_axis0 (p :: ps) = Ok (foldl Rmax (fst p) (map fst ps), foldl Rmax (snd p) (map snd ps)).
Proof. reflexivity. Qed.

(** X1.  [calculate_gaze_ratio] raises exactly when there is no eye-boundary
    point (then [ValueError], from [np.min]); otherwise it returns a pair of
    ratios in [0,1], wherever the iris centre is and however thin the box:
    it never divides by zero. *)
Theorem gaze_ratio_total (iris_center : R * R) (eye_coords : list (R * R)) :
  (eye_coords = []
   /\ EyeTracker.calculate_gaze_ratio iris_center eye_coords = Raise ValueError)
  \/ (eye_coords <> []
      /\ exists h v : R,
           EyeTracker.calculate_gaze_ratio iris_center eye_coords = Ok (h, v)
           /\ 0 <= h <= 1 /\ 0 <= v <= 1).
Proof.
  destruct eye_coords as [| p ps]; [left; split; reflexivity | right].
  split; [discriminate | ].
  rewrite (gaze_ratio_closed_form _ _ _ _ (min_axis0_cons p ps) (max_axis0_cons p ps)).
  destruct (decide _); do 2 eexists; (split; [reflexivity | ]).
  - split; lra.
  - split; apply clamp01_bounds.
Qed.

(** X2.  On a box of nonzero width and height, an iris centre left of (or
    on) the left edge gives horizontal ratio 0, one right of (or on) the
    right edge gives 1; likewise above and below for the vertical ratio. *)
Theorem gaze_ratio_saturates
    (iris_center : R * R) (eye_coords : list (R * R)) (eye_min eye_max : R * R) :
  np.min_axis0 eye_coords = Ok eye_min ->
  np.max_axis0 eye_coords = Ok eye_max ->
  fst eye_max - fst eye_min <> 0 ->
  snd eye_max - snd eye_min <> 0 ->
  exists h v : R,
    EyeTracker.calculate_gaze_ratio iris_center eye_coords = Ok (h, v)
    /\ (fst iris_center <= fst eye_min -> h = 0)
    /\ (fst eye_max <= fst iris_center -> h = 1)
    /\ (snd iris_center <= snd eye_min -> v = 0)
    /\ (snd eye_max <= snd iris_center -> v = 1).
Proof.
  intros Hmin Hmax Hw Hh.
  rewrite (gaze_ratio_closed_form _ _ _ _ Hmin Hmax).
  destruct (decide _) as [[Hz | Hz] | _]; [contradiction | contradiction | ].
  destruct (min_axis0_Ok _ _ Hmin) as [Hminx Hminy].
  destruct (max_axis0_Ok _ _ Hmax) as [Hmaxx Hmaxy].
  pose proof (np_min_le_max _ _ _ Hminx Hmaxx) as Hx.
  pose proof (np_min_le_max _ _ _ Hminy Hmaxy) as Hy.
  assert (Hlow : forall a w : R, 0 < w -> a <= 0 -> Spec.clamp01 (a / w) = 0).
  { intros a w Hpos Ha. unfold Spec.clamp01.
    assert (a / w <= 0).
    { apply Rmult_le_reg_r with w; [exact Hpos | ].
      unfold Rdiv. rewrite Rmult_assoc, Rinv_l by lra. lra. }
    destruct (decide (a / w < 0)); [reflexivity | ].
    destruct (decide (1 < a / w)); lra. }
  assert (Hhigh : forall a w : R, 0 < w -> w <= a -> Spec.clamp01 (a / w) = 1).
  { intros a w Hpos Ha. unfold Spec.clamp01.
    assert (1 <= a / w).
    { apply Rmult_le_reg_r with w; [exact Hpos | ].
      unfold Rdiv. rewrite Rmult_assoc, Rinv_l by lra. lra. }
    destruct (decide (a / w < 0)); [lra | ].
    destruct (decide (1 < a / w)); lra. }
  do 2 eexists. split; [reflexivity | ].
  repeat split; intros H; first [apply Hlow | apply Hhigh]; lra.
Qed.

Lemma gaze_ratio_saturates_witness :
  exists h v : R,
    EyeTracker.calculate_gaze_ratio (9, -3) [(0, 0); (4, 2)] = Ok (h, v)
    /\ (fst (9, -3) <= fst (Rmin 0 4, Rmin 0 2) -> h = 0)
    /\ (fst (Rmax 0 4, Rmax 0 2) <= fst (9, -3) -> h = 1)
    /\ (snd (9, -3) <= snd (Rmin 0 4, Rmin 0 2) -> v = 0)
    /\ (snd (Rmax 0 4, Rmax 0 2) <= snd (9, -3) -> v = 1).
Proof.
  apply (gaze_ratio_saturates (9, -3) [(0, 0); (4, 2)]
           (Rmin 0 4, Rmin 0 2) (Rmax 0 4, Rmax 0 2));
    try reflexivity; simpl; Rminmax.
Defined.

(** Two arrays with the same members have the same minimum and maximum. *)
Lemma np_min_members (a b : list R) :
  (forall x : R, In x a <-> In x b) -> np.min a = np.min b.
Proof.
  intros Hab. destruct a as [| x xs], b as [| y ys].
  - reflexivity.
  - exfalso. apply (proj2 (Hab y)). left; reflexivity.
  - exfalso. apply (proj1 (Hab x)). left; reflexivity.
  - destruct (np_min_spec (x :: xs) _ eq_refl) as [Hin Hle].
    destruct (np_min_spec (y :: ys) _ eq_refl) as [Hin' Hle'].
    rewrite Forall_forall in Hle, Hle'.
    apply Hab in Hin. apply Hab in Hin'.
    apply list_elem_of_In, Hle' in Hin. apply list_elem_of_In, Hle in Hin'.
    simpl. f_equal. lra.
Qed.

Lemma np_max_members (a b : list R) :
  (forall x : R, In x a <-> In x b) -> np.max a = np.max b.
Proof.
  intros Hab. destruct a as [| x xs], b as [| y ys].
  - reflexivity.
  - exfalso. apply (proj2 (Hab y)). left; reflexivity.
  - exfalso. apply (proj1 (Hab x)). left; reflexivity.
  - destruct (np_max_spec (x :: xs) _ eq_refl) as [Hin Hle].
    destruct (np_max_spec (y :: ys) _ eq_refl) as [Hin' Hle'].
    rewrite Forall_forall in Hle, Hle'.
    apply Hab in Hin. apply Hab in Hin'.
    apply list_elem_of_In, Hle' in Hin. apply list_elem_of_In, Hle in Hin'.
    simpl. f_equal. lra.
Qed.

Lemma map_members {A B : Type} (f : A -> B) (a b : list A) :
  (forall x : A, In x a <-> In x b) -> forall y : B, In y (map f a) <-> In y (map f b).
Proof.
  intros Hab y. rewrite !in_map_iff.
  split; intros (x & Hx & Hin); exists x; (split; [exact Hx | apply Hab; exact Hin]).
Qed.

(** X3.  The gaze ratio depends on the eye-boundary points only through
    their set: reordering or repeating points changes nothing. *)
Theorem gaze_ratio_same_points
    (iris_center : R * R) (eye_coords eye_coords' : list (R * R)) :
  (forall p : R * R, In p eye_coords <-> In p eye_coords') ->
  EyeTracker.calculate_gaze_ratio iris_center eye_coords
  = EyeTracker.calculate_gaze_ratio iris_center eye_coords'.
Proof.
  intros Hsame. unfold EyeTracker.calculate_gaze_ratio, np.min_axis0, np.max_axis0, np.col0, np.col1.
  rewrite (np_min_members _ _ (map_members fst _ _ Hsame)).
  rewrite (np_min_members _ _ (map_members snd _ _ Hsame)).
  rewrite (np_max_members _ _ (map_members fst _ _ Hsame)).
  rewrite (np_max_members _ _ (map_members snd _ _ Hsame)).
  reflexivity.
Qed.

Lemma gaze_ratio_same_points_witness :
  EyeTracker.calculate_gaze_ratio (1, 1) [(0, 0); (4, 2)]
  = EyeTracker.calculate_gaze_ratio (1, 1) [(4, 2); (0, 0); (4, 2)].
Proof.
  apply (gaze_ratio_same_points (1, 1) [(0, 0); (4, 2)] [(4, 2); (0, 0); (4, 2)]).
  intros p. simpl. tauto.
Defined.

(** Minimum and maximum commute with an increasing affine map. *)
Lemma foldl_Rmin_affine (k d x : R) (xs : list R) :
  0 < k ->
  foldl Rmin (k * x + d) (map (fun y => k * y + d) xs) = k * foldl Rmin x xs + d.
Proof.
  intros Hk. revert x. induction xs as [| y ys IH]; intros x; simpl; [reflexivity | ].
  rewrite <- IH. f_equal. unfold Rmin.
  destruct (Rle_dec x y); destruct (Rle_dec (k * x + d) (k * y + d)); try reflexivity; nra.
Qed.

Lemma foldl_Rmax_affine (k d x : R) (xs : list R) :
  0 < k ->
  foldl Rmax (k * x + d) (map (fun y => k * y + d) xs) = k * foldl Rmax x xs + d.
Proof.
  intros Hk. revert x. induction xs as [| y ys IH]; intros x; simpl; [reflexivity | ].
  rewrite <- IH. f_equal. unfold Rmax.
  destruct (Rle_dec x y); destruct (Rle_dec (k * x + d) (k * y + d)); try reflexivity; nra.
Qed.

(** Per-axis increasing affine maps do not change the gaze ratio. *)
Lemma gaze_ratio_affine
    (kx ky dx dy : R) (iris_center : R * R) (eye_coords : list (R * R)) :
  0 < kx -> 0 < ky ->
  let f := fun p : R * R => (kx * fst p + dx, ky * snd p + dy) in
  EyeTracker.calculate_gaze_ratio (f iris_center) (map f eye_coords)
  = EyeTracker.calculate_gaze_ratio iris_center eye_coords.
Proof.
  intros Hkx Hky f. destruct eye_coords as [| p ps]; [reflexivity | ].
  rewrite (gaze_ratio_closed_form _ _ _ _ (min_axis0_cons p ps) (max_axis0_cons p ps)).
  change (map f (p :: ps)) with (f p :: map f ps).
  rewrite (gaze_ratio_closed_form _ _ _ _
             (min_axis0_cons (f p) (map f ps)) (max_axis0_cons (f p) (map f ps))).
  subst f. cbn [fst snd]. rewrite !map_map. cbn [fst snd].
  rewrite <- (map_map fst (fun y => kx * y + dx)), <- (map_map snd (fun y => ky * y + dy)).
  rewrite !foldl_Rmin_affine, !foldl_Rmax_affine by assumption.
  set (x0 := foldl Rmin (fst p) (map fst ps)). set (x1 := foldl Rmax (fst p) (map fst ps)).
  set (y0 := foldl Rmin (snd p) (map snd ps)). set (y1 := foldl Rmax (snd p) (map snd ps)).
  destruct (decide (kx * x1 + dx - (kx * x0 + dx) = 0 \/ ky * y1 + dy - (ky * y0 + dy) = 0))
    as [Hd | Hd];
    destruct (decide (x1 - x0 = 0 \/ y1 - y0 = 0)) as [Hd' | Hd'].
  - reflexivity.
  - exfalso. apply Hd'. destruct Hd as [Hd | Hd]; [left | right]; nra.
  - exfalso. apply Hd. destruct Hd' as [Hd' | Hd']; [left | right]; nra.
  - assert (Hx : x1 - x0 <> 0) by tauto. assert (Hy : y1 - y0 <> 0) by tauto.
    f_equal. f_equal; f_equal; field; repeat split; lra.
Qed.

(** X4.  The gaze ratio does not depend on where the eye sits in the frame
    nor on the resolution of the frame: moving iris centre and boundary
    points by the same vector, and scaling both by positive factors (one per
    axis), leaves it unchanged. *)
Theorem gaze_ratio_affine_invariant
    (kx ky dx dy : R) (iris_center : R * R) (eye_coords : list (R * R)) :
  0 < kx -> 0 < ky ->
  let f := fun p : R * R => (kx * fst p + dx, ky * snd p + dy) in
  EyeTracker.calculate_gaze_ratio (f iris_center) (map f eye_coords)
  = EyeTracker.calculate_gaze_ratio iris_center eye_coords.
Proof. exact (gaze_ratio_affine kx ky dx dy iris_center eye_coords). Qed.

Lemma gaze_ratio_affine_invariant_witness :
  EyeTracker.calculate_gaze_ratio (640 * 0.25 + 10, 480 * 0.5 + 20)
    (map (fun p : R * R => (640 * fst p + 10, 480 * snd p + 20)) [(0.2, 0.4); (0.3, 0.6)])
  = EyeTracker.calculate_gaze_ratio (0.25, 0.5) [(0.2, 0.4); (0.3, 0.6)].
Proof.
  apply (gaze_ratio_affine_invariant 640 480 10 20 (0.25, 0.5) [(0.2, 0.4); (0.3, 0.6)]); lra.
Defined.

(** * Further properties of calibration application and screen mapping *)

(** [apply_calibration] on a non-empty dictionary, keys present or not. *)
Lemma apply_calibration_truthy (self : EyeTracker.t) (d : dict) (h v : R) :
  EyeTracker.calibration_data self = Some d ->
  size d <> 0%nat ->
  EyeTracker.apply_calibration self h v
  = (Spec.clamp01 ((h - get d "h_offset" 0) * get d "h_scale" 1),
     Spec.clamp01 ((v - get d "v_offset" 0) * get d "v_scale" 1)).
Proof.
  intros Hd Hsize. unfold EyeTracker.apply_calibration. rewrite Hd.
  unfold truthy. rewrite bool_decide_eq_true_2 by exact Hsize. simpl.
  rewrite !clip_clamp01. reflexivity.
Qed.

(** X5.  A non-empty calibration dictionary without any of the four
    parameter keys calibrates with offset 0 and scale 1: the ratios are
    clamped to [0,1] and otherwise unchanged. *)
Theorem apply_calibration_missing_keys (self : EyeTracker.t) (d : dict) (h v : R) :
  EyeTracker.calibration_data self = Some d ->
  size d <> 0%nat ->
  d !! "h_offset" = None -> d !! "v_offset" = None ->
  d !! "h_scale" = None -> d !! "v_scale" = None ->
  EyeTracker.apply_calibration self h v = (Spec.clamp01 h, Spec.clamp01 v).
Proof.
  intros Hd Hsize Hho Hvo Hhs Hvs.
  rewrite (apply_calibration_truthy self d h v Hd Hsize).
  unfold get. rewrite Hho, Hvo, Hhs, Hvs. simpl. f_equal; f_equal; ring.
Qed.

Lemma apply_calibration_missing_keys_witness :
  EyeTracker.apply_calibration Cases.bookkeeping_tracker 1.5 0.25
  = (Spec.clamp01 1.5, Spec.clamp01 0.25).
Proof.
  apply (apply_calibration_missing_keys Cases.bookkeeping_tracker Cases.bookkeeping_only).
  - reflexivity.
  - apply (map_size_ne_0_lookup_2 _ "num_points"). exists 9. reflexivity.
  - reflexivity.
  - reflexivity.
  - reflexivity.
  - reflexivity.
Defined.

Lemma clamp01_monotone (x y : R) : x <= y -> Spec.clamp01 x <= Spec.clamp01 y.
Proof.
  intros Hxy. unfold Spec.clamp01.
  destruct (decide (x < 0)); destruct (decide (1 < x));
    destruct (decide (y < 0)); destruct (decide (1 < y)); lra.
Qed.

(** Monotonicity of the calibrated ratios in the raw ones. *)
Lemma apply_calibration_mono (self : EyeTracker.t) (h h' v v' : R) :
  Cond.nonnegative_scales self ->
  h <= h' -> v <= v' ->
  fst (EyeTracker.apply_calibration self h v) <= fst (EyeTracker.apply_calibration self h' v')
  /\ snd (EyeTracker.apply_calibration self h v) <= snd (EyeTracker.apply_calibration self h' v').
Proof.
  intros Hs Hh Hv.
  destruct (truthy (EyeTracker.calibration_data self)) eqn:Ht.
  - destruct (EyeTracker.calibration_data self) as [d |] eqn:Hd; [| discriminate].
    assert (Hsize : size d <> 0%nat) by (apply bool_decide_eq_true in Ht; exact Ht).
    rewrite !(apply_calibration_truthy self d _ _ Hd Hsize). cbn [fst snd].
    destruct (Hs d Hd) as [Hhs Hvs].
    split; apply clamp01_monotone; nra.
  - rewrite !apply_calibration_falsy by exact Ht. simpl. lra.
Qed.

(** X6.  With scales that are not negative, [apply_calibration] is monotone
    on each axis, calibrated or not. *)
Theorem apply_calibration_monotone (self : EyeTracker.t) (h h' v v' : R) :
  Cond.nonnegative_scales self ->
  h <= h' -> v <= v' ->
  fst (EyeTracker.apply_calibration self h v) <= fst (EyeTracker.apply_calibration self h' v')
  /\ snd (EyeTracker.apply_calibration self h v) <= snd (EyeTracker.apply_calibration self h' v').
Proof. exact (apply_calibration_mono self h h' v v'). Qed.

Lemma calibrated_tracker_scales : Cond.nonnegative_scales Sample.calibrated_tracker.
Proof.
  intros d Hd. injection Hd as <-.
  replace (get Sample.params "h_scale" 1) with 2 by reflexivity.
  replace (get Sample.params "v_scale" 1) with 1 by reflexivity.
  lra.
Defined.

Lemma apply_calibration_monotone_witness :
  fst (EyeTracker.apply_calibration Sample.calibrated_tracker 0.25 0.5)
    <= fst (EyeTracker.apply_calibration Sample.calibrated_tracker 0.5 0.75)
  /\ snd (EyeTracker.apply_calibration Sample.calibrated_tracker 0.25 0.5)
       <= snd (EyeTracker.apply_calibration Sample.calibrated_tracker 0.5 0.75).
Proof.
  apply (apply_calibration_monotone Sample.calibrated_tracker 0.25 0.5 0.5 0.75).
  - exact calibrated_tracker_scales.
  - lra.
  - lra.
Defined.

(** X7.  The two eyes are interchangeable: swapping the left and the right
    gaze ratio gives the same screen position. *)
Theorem estimate_screen_position_symmetric
    (self : EyeTracker.t) (left_gaze right_gaze : R * R) (screen_width screen_height : Z) :
  EyeTracker.estimate_screen_position self left_gaze right_gaze screen_width screen_height
  = EyeTracker.estimate_screen_position self right_gaze left_gaze screen_width screen_height.
Proof.
  unfold EyeTracker.estimate_screen_position.
  replace (fst right_gaze + fst left_gaze) with (fst left_gaze + fst right_gaze) by ring.
  replace (snd right_gaze + snd left_gaze) with (snd left_gaze + snd right_gaze) by ring.
  reflexivity.
Qed.

Lemma int_monotone (x y : R) : x <= y -> (int x <= int y)%Z.
Proof.
  intros Hxy. destruct (int_truncation x) as [Hxp Hxn]. destruct (int_truncation y) as [Hyp Hyn].
  destruct (Rle_dec 0 x) as [Hx | Hx].
  - specialize (Hxp Hx). assert (Hy : 0 <= y) by lra. specialize (Hyp Hy).
    apply Z.lt_succ_r. apply lt_IZR. rewrite succ_IZR. lra.
  - assert (Hx' : x <= 0) by lra. specialize (Hxn Hx').
    destruct (Rle_dec 0 y) as [Hy | Hy].
    + specialize (Hyp Hy).
      assert (int x < 1)%Z by (apply lt_IZR; lra).
      assert (-1 < int y)%Z by (apply lt_IZR; lra).
      lia.
    + assert (Hy' : y <= 0) by lra. specialize (Hyn Hy').
      apply Z.lt_succ_r. apply lt_IZR. rewrite succ_IZR. lra.
Qed.

Lemma averaged_ratio_monotone
    (self : EyeTracker.t) (left_gaze right_gaze left_gaze' right_gaze' : R * R) :
  Cond.nonnegative_scales self ->
  fst left_gaze <= fst left_gaze' -> fst right_gaze <= fst right_gaze' ->
  snd left_gaze <= snd left_gaze' -> snd right_gaze <= snd right_gaze' ->
  fst (Spec.averaged_ratio self left_gaze right_gaze)
    <= fst (Spec.averaged_ratio self left_gaze' right_gaze')
  /\ snd (Spec.averaged_ratio self left_gaze right_gaze)
       <= snd (Spec.averaged_ratio self left_gaze' right_gaze').
Proof.
  intros Hs Hlh Hrh Hlv Hrv. unfold Spec.averaged_ratio.
  destruct (EyeTracker.calibration_data self) as [d |] eqn:Hd.
  - apply apply_calibration_mono; [exact Hs | lra | lra].
  - simpl. lra.
Qed.

(** X8.  With scales that are not negative and a screen of non-negative
    size, the mapping to pixels is monotone: when both eyes' horizontal
    ratios grow, x does not grow (the horizontal axis is inverted), and when
    both vertical ratios grow, y does not shrink. *)
Theorem estimate_screen_position_monotone
    (self : EyeTracker.t) (left_gaze right_gaze left_gaze' right_gaze' : R * R)
    (screen_width screen_height : Z) :
  Cond.nonnegative_scales self ->
  (0 <= screen_width)%Z -> (0 <= screen_height)%Z ->
  fst left_gaze <= fst left_gaze' -> fst right_gaze <= fst right_gaze' ->
  snd left_gaze <= snd left_gaze' -> snd right_gaze <= snd right_gaze' ->
  (fst (EyeTracker.estimate_screen_position self left_gaze' right_gaze'
          screen_width screen_height)
   <= fst (EyeTracker.estimate_screen_position self left_gaze right_gaze
             screen_width screen_height))%Z
  /\ (snd (EyeTracker.estimate_screen_position self left_gaze right_gaze
             screen_width screen_height)
      <= snd (EyeTracker.estimate_screen_position self left_gaze' right_gaze'
                screen_width screen_height))%Z.
Proof.
  intros Hs HW HH Hlh Hrh Hlv Hrv.
  rewrite !estimate_screen_position_eq. cbn [fst snd].
  destruct (averaged_ratio_monotone self _ _ _ _ Hs Hlh Hrh Hlv Hrv) as [Hh Hv].
  apply IZR_le in HW, HH.
  split; apply int_monotone; nra.
Qed.

Lemma estimate_screen_position_monotone_witness :
  Z.le
    (fst (EyeTracker.estimate_screen_position Sample.calibrated_tracker (0.5, 0.5) (0.5, 0.5)
            1920 1080))
    (fst (EyeTracker.estimate_screen_position Sample.calibrated_tracker (0.25, 0.25) (0.5, 0.5)
            1920 1080))
  /\ Z.le
       (snd (EyeTracker.estimate_screen_position Sample.calibrated_tracker (0.25, 0.25) (0.5, 0.5)
               1920 1080))
       (snd (EyeTracker.estimate_screen_position Sample.calibrated_tracker (0.5, 0.5) (0.5, 0.5)
               1920 1080)).
Proof.
  apply (estimate_screen_position_monotone Sample.calibrated_tracker
           (0.25, 0.25) (0.5, 0.5) (0.5, 0.5) (0.5, 0.5) 1920 1080);
    first [exact calibrated_tracker_scales | lia | simpl; lra].
Defined.

(** * Further properties of calibration points *)

Lemma sum_bounds (lo hi : R) (l : list R) :
  Forall (fun x => lo <= x <= hi) l ->
  INR (length l) * lo <= fold_right Rplus 0 l <= INR (length l) * hi.
Proof.
  induction 1 as [| x l Hx _ IH].
  - simpl. lra.
  - change (fold_right Rplus 0 (x :: l)) with (x + fold_right Rplus 0 l).
    change (length (x :: l)) with (S (length l)). rewrite S_INR. lra.
Qed.

(** A mean lies between any bounds of the items. *)
Lemma mean_bounds (lo hi : R) (l : list R) :
  l <> [] -> Forall (fun x => lo <= x <= hi) l -> lo <= Spec.mean l <= hi.
Proof.
  intros Hl Hall. unfold Spec.mean.
  assert (Hn : 0 < INR (length l)).
  { destruct l; [contradiction | ]. apply lt_0_INR. simpl. lia. }
  pose proof (sum_bounds lo hi l Hall) as [H1 H2].
  split.
  - apply Rmult_le_reg_r with (INR (length l)); [exact Hn | ].
    unfold Rdiv. rewrite Rmult_assoc, Rinv_l by lra. lra.
  - apply Rmult_le_reg_r with (INR (length l)); [exact Hn | ].
    unfold Rdiv. rewrite Rmult_assoc, Rinv_l by lra. lra.
Qed.

(** X9.  [get_average_gaze] never raises, and when every recorded sample
    lies in the unit square so does the average (the default (0.5, 0.5) of a
    point without samples included). *)
Theorem get_average_gaze_in_unit_square (p : calibration.CalibrationPoint) :
  Forall Cond.unit_square (calibration.gaze_samples p) ->
  exists g : R * R, calibration.get_average_gaze p = Ok g /\ Cond.unit_square g.
Proof.
  intros Hall. exists (Spec.average_gaze p). split; [apply get_average_gaze_Ok | ].
  unfold Spec.average_gaze, Cond.unit_square.
  destruct (calibration.gaze_samples p) as [| s ss] eqn:Hs; [simpl; lra | ].
  cbn [fst snd]. split; (apply mean_bounds; [discriminate | ]);
    apply Forall_map; (eapply Forall_impl; [exact Hall | ]); intros x [Hx Hy]; assumption.
Qed.

Lemma get_average_gaze_in_unit_square_witness :
  exists g : R * R,
    calibration.get_average_gaze (calibration.mkPoint (0.1, 0.1) [(0, 1); (1, 0.5)]) = Ok g
    /\ Cond.unit_square g.
Proof.
  apply (get_average_gaze_in_unit_square (calibration.mkPoint (0.1, 0.1) [(0, 1); (1, 0.5)])).
  repeat constructor; simpl; lra.
Defined.

Lemma sum_app (l l' : list R) :
  fold_right Rplus 0 (l ++ l') = fold_right Rplus 0 l + fold_right Rplus 0 l'.
Proof. induction l as [| x l IH]; simpl; [lra | rewrite IH; lra]. Qed.

Lemma mean_snoc (l : list R) (x : R) :
  Spec.mean (l ++ [x]) = (fold_right Rplus 0 l + x) / (INR (length l) + 1).
Proof.
  unfold Spec.mean. rewrite sum_app, length_app, plus_INR. simpl. f_equal; ring.
Qed.

Lemma sum_mean (l : list R) : l <> [] -> fold_right Rplus 0 l = INR (length l) * Spec.mean l.
Proof.
  intros Hl. unfold Spec.mean. field. apply INR_length_neq_0. exact Hl.
Qed.

Lemma average_gaze_nonempty (p : calibration.CalibrationPoint) :
  calibration.gaze_samples p <> [] ->
  Spec.average_gaze p
  = (Spec.mean (map fst (calibration.gaze_samples p)),
     Spec.mean (map snd (calibration.gaze_samples p))).
Proof.
  intros Hne. unfold Spec.average_gaze.
  destruct (calibration.gaze_samples p); [contradiction | reflexivity].
Qed.

(** X10.  [add_sample] updates the average as a running mean: with n
    samples averaging a, the average after adding x is (n * a + x) / (n + 1)
    on each axis.  The default (0.5, 0.5) of an empty point is not a sample:
    the first sample replaces it. *)
Theorem add_sample_running_mean
    (p : calibration.CalibrationPoint) (h_ratio v_ratio : R) (a : R * R) :
  calibration.get_average_gaze p = Ok a ->
  let n := INR (length (calibration.gaze_samples p)) in
  calibration.get_average_gaze (calibration.add_sample p h_ratio v_ratio)
  = Ok ((n * fst a + h_ratio) / (n + 1), (n * snd a + v_ratio) / (n + 1)).
Proof.
  intros Ha n. rewrite get_average_gaze_Ok in Ha. injection Ha as <-.
  rewrite get_average_gaze_Ok. f_equal.
  rewrite (average_gaze_nonempty (calibration.add_sample p h_ratio v_ratio))
    by (simpl; destruct (calibration.gaze_samples p); discriminate).
  cbn [calibration.add_sample calibration.gaze_samples].
  rewrite !map_app. cbn [map fst snd]. rewrite !mean_snoc, !length_map. fold n.
  destruct (calibration.gaze_samples p) as [| s ss] eqn:Hs.
  - subst n. simpl. f_equal; field.
  - rewrite average_gaze_nonempty by (rewrite Hs; discriminate). rewrite Hs. cbn [fst snd].
    rewrite (sum_mean (map fst (s :: ss))), (sum_mean (map snd (s :: ss))) by discriminate.
    rewrite !length_map. subst n. reflexivity.
Qed.

Lemma add_sample_running_mean_witness :
  calibration.get_average_gaze
    (calibration.add_sample (calibration.mkPoint (0.5, 0.5) []) 0.25 0.75)
  = Ok ((INR 0 * fst (0.5, 0.5) + 0.25) / (INR 0 + 1),
        (INR 0 * snd (0.5, 0.5) + 0.75) / (INR 0 + 1)).
Proof.
  apply (add_sample_running_mean (calibration.mkPoint (0.5, 0.5) []) 0.25 0.75 (0.5, 0.5)).
  reflexivity.
Defined.

(** * Further properties of the calibration fit *)

(** X11.  [calculate_calibration_transform] raises exactly on the empty
    sequence (then [IndexError]); on every other sequence, with or without
    samples and however little spread, it returns a dictionary of six
    entries, non-empty so that the tracker will use it, which carries the
    number of points and the time stamp. *)
Theorem fit_total (pts : list calibration.CalibrationPoint) (now : R) :
  (pts = [] /\ calibration.calculate_calibration_transform pts now = Raise IndexError)
  \/ (pts <> []
      /\ exists d : dict,
           calibration.calculate_calibration_transform pts now = Ok d
           /\ size d = 6%nat
           /\ truthy (Some d) = true
           /\ d !! "num_points" = Some (INR (length pts))
           /\ d !! "timestamp" = Some now).
Proof.
  destruct pts as [| p pts]; [left; split; reflexivity | right].
  split; [discriminate | ]. eexists.
  split; [apply calculate_calibration_transform_Ok; discriminate | ].
  assert (Hsize : forall a b c e f g : R,
    size (<["h_offset" := a]> (<["v_offset" := b]> (<["h_scale" := c]> (<["v_scale" := e]>
         (<["num_points" := f]> (<["timestamp" := g]> (∅ : dict))))))) = 6%nat).
  { intros. rewrite !map_size_insert_None by reflexivity. rewrite map_size_empty. reflexivity. }
  split; [apply Hsize | ]. split; [| split; reflexivity].
  unfold truthy. apply bool_decide_eq_true. rewrite Hsize. discriminate.
Qed.

Lemma fitted_scale_nonneg (ax : Spec.axis) (pts : list calibration.CalibrationPoint) :
  0 <= Spec.fitted_scale ax pts.
Proof.
  unfold Spec.fitted_scale. destruct (decide _) as [_ | Hnz]; [lra | ].
  pose proof (stddev_nonneg (Spec.gaze ax pts)). pose proof (stddev_nonneg (Spec.target ax pts)).
  apply Rmult_le_pos; [assumption | ]. apply Rlt_le, Rinv_0_lt_compat. lra.
Qed.

(** X12.  A tracker holding the result of a fit has scales that are not
    negative, and sends every raw ratio pair, in range or not, into the
    unit square. *)
Theorem fitted_calibration_is_well_behaved
    (pts : list calibration.CalibrationPoint) (now : R) (d : dict) (self : EyeTracker.t) :
  calibration.calculate_calibration_transform pts now = Ok d ->
  EyeTracker.calibration_data self = Some d ->
  Cond.nonnegative_scales self
  /\ forall h v : R, Cond.unit_square (EyeTracker.apply_calibration self h v).
Proof.
  intros Hfit Hself. destruct (fit_lookup pts now d Hfit) as [_ Hk].
  destruct (Hk Spec.Horizontal) as [Hho Hhs]. destruct (Hk Spec.Vertical) as [Hvo Hvs].
  cbn [Spec.offset_key Spec.scale_key] in Hho, Hhs, Hvo, Hvs.
  split.
  - intros d' Hd'. rewrite Hself in Hd'. injection Hd' as <-.
    unfold get. rewrite Hhs, Hvs. simpl. split; apply fitted_scale_nonneg.
  - intros h v. apply apply_calibration_bounds. rewrite Hself. exact (truthy_lookup d _ _ Hho).
Qed.

Lemma fitted_calibration_is_well_behaved_witness :
  Cond.nonnegative_scales (EyeTracker.mk 0 (Some Sample.narrow_gaze_fit) Sample.path)
  /\ forall h v : R,
       Cond.unit_square
         (EyeTracker.apply_calibration
            (EyeTracker.mk 0 (Some Sample.narrow_gaze_fit) Sample.path) h v).
Proof.
  apply (fitted_calibration_is_well_behaved Sample.narrow_gaze_points 0 Sample.narrow_gaze_fit
           (EyeTracker.mk 0 (Some Sample.narrow_gaze_fit) Sample.path)).
  - exact narrow_gaze_fit_eq.
  - reflexivity.
Defined.

Lemma sum_shift (c : R) (l : list R) :
  fold_right Rplus 0 (map (fun x => x + c) l) = fold_right Rplus 0 l + INR (length l) * c.
Proof.
  induction l as [| x l IH].
  - simpl. lra.
  - change (length (x :: l)) with (S (length l)). rewrite S_INR. simpl. rewrite IH. lra.
Qed.

Lemma mean_shift (c : R) (l : list R) :
  l <> [] -> Spec.mean (map (fun x => x + c) l) = Spec.mean l + c.
Proof.
  intros Hl. unfold Spec.mean. rewrite sum_shift, length_map.
  field. apply INR_length_neq_0. exact Hl.
Qed.

(** Moving every item by the same amount does not change the spread. *)
Lemma stddev_shift (c : R) (l : list R) :
  l <> [] -> Spec.stddev (map (fun x => x + c) l) = Spec.stddev l.
Proof.
  intros Hl. unfold Spec.stddev. rewrite (mean_shift c l Hl), map_map.
  do 2 f_equal. apply map_ext. intros x. ring.
Qed.

Lemma shifted_gaze (ch cv : R) (pts : list calibration.CalibrationPoint) (ax : Spec.axis) :
  Forall (fun p => calibration.get_average_gaze p
                   = Ok (fst (calibration.screen_pos p) + ch,
                         snd (calibration.screen_pos p) + cv)) pts ->
  Spec.gaze ax pts = map (fun x => x + Spec.coord ax (ch, cv)) (Spec.target ax pts).
Proof.
  intros Hall. unfold Spec.gaze, Spec.target. rewrite map_map.
  induction Hall as [| p pts Hp _ IH]; [reflexivity | ].
  simpl. rewrite IH. f_equal.
  rewrite get_average_gaze_Ok in Hp. injection Hp as Hp. rewrite Hp.
  destruct ax; reflexivity.
Qed.

(** X13.  In exact arithmetic a constant offset is corrected exactly.  If
    at every point the averaged gaze is the target moved by the same vector
    (ch, cv), and the targets are not all the same on either axis, the fit
    returns offsets ch and cv and scale 1 on both axes, and a tracker using
    it maps every ratio pair moved by that vector back to where it was,
    clamped to the unit square. *)
Theorem fit_corrects_constant_offset
    (ch cv : R) (pts : list calibration.CalibrationPoint) (now : R) :
  Forall (fun p => calibration.get_average_gaze p
                   = Ok (fst (calibration.screen_pos p) + ch,
                         snd (calibration.screen_pos p) + cv)) pts ->
  Spec.stddev (Spec.target Spec.Horizontal pts) <> 0 ->
  Spec.stddev (Spec.target Spec.Vertical pts) <> 0 ->
  exists d : dict,
    calibration.calculate_calibration_transform pts now = Ok d
    /\ d !! "h_offset" = Some ch /\ d !! "v_offset" = Some cv
    /\ d !! "h_scale" = Some 1 /\ d !! "v_scale" = Some 1
    /\ forall (self : EyeTracker.t) (t : R * R),
         EyeTracker.calibration_data self = Some d ->
         EyeTracker.apply_calibration self (fst t + ch) (snd t + cv)
         = (Spec.clamp01 (fst t), Spec.clamp01 (snd t)).
Proof.
  intros Hall Hsh Hsv.
  assert (Hpts : pts <> []).
  { intros ->. apply Hsh. unfold Spec.stddev, Spec.mean. cbn.
    replace (0 / 0) with 0 by (unfold Rdiv; ring). apply sqrt_0. }
  assert (Hne : forall ax, Spec.target ax pts <> []).
  { intros ax. unfold Spec.target. destruct pts; [contradiction | discriminate]. }
  assert (Hoff : forall ax, Spec.fitted_offset ax pts = Spec.coord ax (ch, cv)).
  { intros ax. unfold Spec.fitted_offset.
    rewrite (shifted_gaze ch cv pts ax Hall), mean_shift by apply Hne. ring. }
  assert (Hscale : forall ax, Spec.fitted_scale ax pts = 1).
  { intros ax. unfold Spec.fitted_scale.
    rewrite (shifted_gaze ch cv pts ax Hall), stddev_shift by apply Hne.
    destruct (decide _) as [Hz | Hnz]; [destruct ax; contradiction | ]. field. exact Hnz. }
  eexists. split; [apply calculate_calibration_transform_Ok; exact Hpts | ].
  rewrite (Hoff Spec.Horizontal), (Hoff Spec.Vertical),
    (Hscale Spec.Horizontal), (Hscale Spec.Vertical). cbn [Spec.coord fst snd].
  split; [reflexivity | ]. split; [reflexivity | ]. split; [reflexivity | ].
  split; [reflexivity | ].
  intros self t Hself.
  rewrite (apply_calibration_params self _ _ _ ch cv 1 1 Hself) by reflexivity.
  f_equal; f_equal; ring.
Qed.

Lemma fit_corrects_constant_offset_witness :
  exists d : dict,
    calibration.calculate_calibration_transform
      [calibration.mkPoint (0.25, 0.25) [(0.375, 0.125)];
       calibration.mkPoint (0.75, 0.75) [(0.875, 0.625)]] 0
    = Ok d
    /\ d !! "h_offset" = Some 0.125 /\ d !! "v_offset" = Some (- 0.125)
    /\ d !! "h_scale" = Some 1 /\ d !! "v_scale" = Some 1
    /\ forall (self : EyeTracker.t) (t : R * R),
         EyeTracker.calibration_data self = Some d ->
         EyeTracker.apply_calibration self (fst t + 0.125) (snd t + - 0.125)
         = (Spec.clamp01 (fst t), Spec.clamp01 (snd t)).
Proof.
  assert (Hspread : forall ax,
            Spec.stddev (Spec.target ax [calibration.mkPoint (0.25, 0.25) [(0.375, 0.125)];
                                         calibration.mkPoint (0.75, 0.75) [(0.875, 0.625)]])
            <> 0).
  { intros ax. replace (Spec.target ax _) with [0.25; 0.75] by (destruct ax; reflexivity).
    rewrite stddev_pair. replace (0.25 - 0.75) with (- (1 / 2)) by lra.
    rewrite Rabs_Ropp, Rabs_pos_eq by lra. lra. }
  apply (fit_corrects_constant_offset 0.125 (- 0.125)
           [calibration.mkPoint (0.25, 0.25) [(0.375, 0.125)];
            calibration.mkPoint (0.75, 0.75) [(0.875, 0.625)]] 0).
  - repeat constructor; rewrite get_average_gaze_Ok;
      unfold Spec.average_gaze; simpl; rewrite !mean_singleton; f_equal; f_equal; lra.
  - apply Hspread.
  - apply Hspread.
Defined.

(** The same two points in doubles: every number involved is a multiple
    of 1/8 and nothing is rounded, so that the code returns the offsets
    0.125 and -0.125 and the scales 1.0 exactly. *)
Example constant_offset_in_doubles :
  (d ← Doubles.calibration.calculate_calibration_transform Examples.shifted_gaze_points F64.zero;
   mret (d !! "h_offset", d !! "v_offset", d !! "h_scale", d !! "v_scale"))
  = Ok (Some (Doubles.Float (F64.ratio 125 1000)),
        Some (Doubles.Float (F64.ratio (-125) 1000)),
        Some (Doubles.Float F64.one), Some (Doubles.Float F64.one)).
Proof. vm_compute. reflexivity. Qed.

Lemma sum_permutation (l l' : list R) :
  Permutation l l' -> fold_right Rplus 0 l = fold_right Rplus 0 l'.
Proof.
  induction 1 as [| x l l' _ IH | x y l | l l' l'' _ IH1 _ IH2]; simpl.
  - reflexivity.
  - rewrite IH. reflexivity.
  - lra.
  - rewrite IH1. exact IH2.
Qed.

Lemma mean_permutation (l l' : list R) : Permutation l l' -> Spec.mean l = Spec.mean l'.
Proof.
  intros Hp. unfold Spec.mean.
  rewrite (sum_permutation l l' Hp), (Permutation_length Hp). reflexivity.
Qed.

Lemma stddev_permutation (l l' : list R) : Permutation l l' -> Spec.stddev l = Spec.stddev l'.
Proof.
  intros Hp. unfold Spec.stddev. rewrite (mean_permutation l l' Hp).
  f_equal. apply mean_permutation. apply Permutation_map. exact Hp.
Qed.

(** X14.  The fit does not depend on the order in which the calibration
    points were visited. *)
Theorem fit_order_independent (pts pts' : list calibration.CalibrationPoint) (now : R) :
  Permutation pts pts' ->
  calibration.calculate_calibration_transform pts now
  = calibration.calculate_calibration_transform pts' now.
Proof.
  intros Hp. destruct pts as [| p pts].
  - apply Permutation_nil in Hp. subst pts'. reflexivity.
  - assert (Hne : pts' <> []).
    { intros ->. apply Permutation_sym, Permutation_nil in Hp. discriminate. }
    rewrite !calculate_calibration_transform_Ok by (exact Hne || discriminate).
    assert (Hg : forall ax, Permutation (Spec.gaze ax (p :: pts)) (Spec.gaze ax pts')).
    { intros ax. apply Permutation_map. exact Hp. }
    assert (Ht : forall ax, Permutation (Spec.target ax (p :: pts)) (Spec.target ax pts')).
    { intros ax. apply Permutation_map. exact Hp. }
    unfold Spec.fitted_offset, Spec.fitted_scale.
    rewrite !(mean_permutation _ _ (Hg _)), !(mean_permutation _ _ (Ht _)).
    rewrite !(stddev_permutation _ _ (Hg _)), !(stddev_permutation _ _ (Ht _)).
    rewrite (Permutation_length Hp). reflexivity.
Qed.

Lemma fit_order_independent_witness :
  calibration.calculate_calibration_transform
    [calibration.mkPoint (0.125, 0.125) [(0.4375, 0.4375)];
     calibration.mkPoint (0.375, 0.375) [(0.5625, 0.5625)]] 0
  = calibration.calculate_calibration_transform
      [calibration.mkPoint (0.375, 0.375) [(0.5625, 0.5625)];
       calibration.mkPoint (0.125, 0.125) [(0.4375, 0.4375)]] 0.
Proof.
  apply (fit_order_independent
           [calibration.mkPoint (0.125, 0.125) [(0.4375, 0.4375)];
            calibration.mkPoint (0.375, 0.375) [(0.5625, 0.5625)]]
           [calibration.mkPoint (0.375, 0.375) [(0.5625, 0.5625)];
            calibration.mkPoint (0.125, 0.125) [(0.4375, 0.4375)]] 0).
  apply perm_swap.
Defined.

(** * Further properties of persistence *)

(** X15.  [save_calibration] changes the in-memory calibration only
    together with the file: after it returns, either the tracker is exactly
    as before, or it holds the new dictionary and so does the calibration
    file.  It never touches another file, never changes [camera_id] or
    [calibration_file], and when it raises nothing at all has changed. *)
Theorem save_calibration_memory_follows_disk
    (self : EyeTracker.t) (calibration_data : dict) (w : World) :
  let r := EyeTracker.save_calibration self calibration_data w in
  (forall q : string,
     q <> EyeTracker.calibration_file self -> files (snd r) !! q = files w !! q)
  /\ match fst r with
     | Ok self' =>
         self' = self
         \/ (self' = EyeTracker.set_calibration_data self (Some calibration_data)
             /\ files (snd r) !! EyeTracker.calibration_file self
                = Some (JsonObject calibration_data))
     | Raise _ => snd r = w
     end.
Proof.
  unfold EyeTracker.save_calibration.
  destruct (decide _) as [_ | _]; [simpl; split; [reflexivity | reflexivity] | ].
  destruct (decide _) as [_ | _]; [simpl; split; [reflexivity | left; reflexivity] | ].
  destruct (disk_full w); simpl.
  - split; [| left; reflexivity].
    intros q Hq. apply lookup_insert_ne. congruence.
  - split; [| right; split; [reflexivity | apply lookup_insert_eq]].
    intros q Hq. apply lookup_insert_ne. congruence.
Qed.

(** X16.  What [save_calibration] has written, [load_calibration] reads
    back: after a write that went through, any tracker on the same file
    loads the saved dictionary and reports success. *)
Theorem load_after_save
    (self other : EyeTracker.t) (calibration_data : dict) (w : World) :
  EyeTracker.calibration_file self ∉ mkdir_denied w ->
  EyeTracker.calibration_file self ∉ open_denied w ->
  disk_full w = false ->
  EyeTracker.calibration_file other = EyeTracker.calibration_file self ->
  exists (self' : EyeTracker.t) (w' : World),
    EyeTracker.save_calibration self calibration_data w = (Ok self', w')
    /\ EyeTracker.load_calibration other w'
       = (true, EyeTracker.Typed (EyeTracker.set_calibration_data other (Some calibration_data)),
          print (LoadedFrom (EyeTracker.calibration_file self)) w').
Proof.
  intros Hdir Hopen Hfull Hsame.
  destruct (save_calibration_written self calibration_data w Hdir Hopen Hfull)
    as (self' & w' & Hsave & _ & Hfile & _).
  exists self', w'. split; [exact Hsave | ].
  unfold EyeTracker.load_calibration. rewrite Hsame, Hfile. reflexivity.
Qed.

Lemma load_after_save_witness :
  exists (self' : EyeTracker.t) (w' : World),
    EyeTracker.save_calibration Sample.fresh_tracker Sample.params (mkWorld ∅ ∅ ∅ false [])
    = (Ok self', w')
    /\ EyeTracker.load_calibration Sample.fresh_tracker w'
       = (true,
          EyeTracker.Typed (EyeTracker.set_calibration_data Sample.fresh_tracker (Some Sample.params)),
          print (LoadedFrom (EyeTracker.calibration_file Sample.fresh_tracker)) w').
Proof.
  apply (load_after_save Sample.fresh_tracker Sample.fresh_tracker Sample.params
           (mkWorld ∅ ∅ ∅ false [])).
  - simpl. apply not_elem_of_empty.
  - simpl. apply not_elem_of_empty.
  - reflexivity.
  - reflexivity.
Defined.

(** X17.  A write that fails after [open] destroys the calibration on
    disk: whatever the file held, it is left unreadable, the tracker keeps
    its old calibration, and the next [load_calibration] on that file
    returns False with an error message. *)
Theorem failed_write_destroys_file
    (self other : EyeTracker.t) (calibration_data : dict) (w : World) :
  EyeTracker.calibration_file self ∉ mkdir_denied w ->
  EyeTracker.calibration_file self ∉ open_denied w ->
  disk_full w = true ->
  EyeTracker.calibration_file other = EyeTracker.calibration_file self ->
  exists w' : World,
    EyeTracker.save_calibration self calibration_data w = (Ok self, w')
    /\ files w' !! EyeTracker.calibration_file self = Some Malformed
    /\ EyeTracker.load_calibration other w'
       = (false, EyeTracker.Typed other, print (ErrorLoading ValueError) w').
Proof.
  intros Hdir Hopen Hfull Hsame. unfold EyeTracker.save_calibration.
  destruct (decide _) as [Hin | _]; [contradiction | ].
  destruct (decide _) as [Hin | _]; [contradiction | ].
  rewrite Hfull. eexists. split; [reflexivity | ].
  assert (Hfile : files (print (ErrorSaving OSError)
                           (set_file (EyeTracker.calibration_file self) Malformed w))
                  !! EyeTracker.calibration_file self = Some Malformed).
  { simpl. apply lookup_insert_eq. }
  split; [exact Hfile | ].
  unfold EyeTracker.load_calibration. rewrite Hsame, Hfile. reflexivity.
Qed.

Lemma failed_write_destroys_file_witness :
  exists w' : World,
    EyeTracker.save_calibration Sample.calibrated_tracker Sample.narrow_gaze_fit
      (mkWorld {[Sample.path := JsonObject Sample.params]} ∅ ∅ true [])
    = (Ok Sample.calibrated_tracker, w')
    /\ files w' !! EyeTracker.calibration_file Sample.calibrated_tracker = Some Malformed
    /\ EyeTracker.load_calibration Sample.fresh_tracker w'
       = (false, EyeTracker.Typed Sample.fresh_tracker, print (ErrorLoading ValueError) w').
Proof.
  apply (failed_write_destroys_file Sample.calibrated_tracker Sample.fresh_tracker
           Sample.narrow_gaze_fit
           (mkWorld {[Sample.path := JsonObject Sample.params]} ∅ ∅ true [])).
  - simpl. apply not_elem_of_empty.
  - simpl. apply not_elem_of_empty.
  - reflexivity.
  - reflexivity.
Defined.

(** X18.  [load_calibration] only reads: the files are as before, and so
    are [camera_id] and [calibration_file].  It returns True whenever
    [json.load] accepts what the file holds, whatever JSON value that is,
    and the tracker then holds that value: a dictionary of numbers, [None]
    for [null], or a value of another type.  It returns False exactly when
    the file is missing or rejected, and then the tracker is unchanged. *)
Theorem load_calibration_only_reads (self : EyeTracker.t) (w : World) :
  let r := EyeTracker.load_calibration self w in
  let ok := fst (fst r) in
  let self' := snd (fst r) in
  let held := files w !! EyeTracker.calibration_file self in
  files (snd r) = files w
  /\ EyeTracker.object_camera_id self' = EyeTracker.camera_id self
  /\ EyeTracker.object_calibration_file self' = EyeTracker.calibration_file self
  /\ (ok = false <-> held = None \/ held = Some Malformed)
  /\ (ok = false -> self' = EyeTracker.Typed self)
  /\ (forall d : dict,
        held = Some (JsonObject d) ->
        self' = EyeTracker.Typed (EyeTracker.set_calibration_data self (Some d)))
  /\ (held = Some JsonNull ->
      self' = EyeTracker.Typed (EyeTracker.set_calibration_data self None))
  /\ (forall v : foreign,
        held = Some (JsonForeign v) ->
        self' = EyeTracker.Untyped (EyeTracker.camera_id self) v
                  (EyeTracker.calibration_file self)).
Proof.
  unfold EyeTracker.load_calibration.
  destruct (files w !! EyeTracker.calibration_file self) as [[d | | v | ] | ];
    cbn [fst snd files print EyeTracker.object_camera_id EyeTracker.object_calibration_file
         EyeTracker.set_calibration_data EyeTracker.camera_id EyeTracker.calibration_file];
    (split; [reflexivity | ]); (split; [reflexivity | ]); (split; [reflexivity | ]).
  - split; [split; [discriminate | intros [H | H]; discriminate H] | ].
    split; [discriminate | ]. split; [intros d' Hd'; congruence | ].
    split; [discriminate | intros v Hv; discriminate Hv].
  - split; [split; [discriminate | intros [H | H]; discriminate H] | ].
    split; [discriminate | ]. split; [intros d' Hd'; discriminate Hd' | ].
    split; [reflexivity | intros v Hv; discriminate Hv].
  - split; [split; [discriminate | intros [H | H]; discriminate H] | ].
    split; [discriminate | ]. split; [intros d' Hd'; discriminate Hd' | ].
    split; [discriminate | intros v' Hv'; congruence].
  - split; [split; [intros _; right; reflexivity | reflexivity] | ].
    split; [reflexivity | ]. split; [intros d' Hd'; discriminate Hd' | ].
    split; [discriminate | intros v Hv; discriminate Hv].
  - split; [split; [intros _; left; reflexivity | reflexivity] | ].
    split; [reflexivity | ]. split; [intros d' Hd'; discriminate Hd' | ].
    split; [discriminate | intros v Hv; discriminate Hv].
Qed.

(** X19.  A calibration file holding the empty object loads with success,
    yet calibrates nothing: the tracker passes every ratio through
    unchanged, out-of-range values included. *)
Theorem empty_object_loads_but_does_not_calibrate (self : EyeTracker.t) (w : World) :
  files w !! EyeTracker.calibration_file self = Some (JsonObject ∅) ->
  exists (self' : EyeTracker.t) (w' : World),
    EyeTracker.load_calibration self w = (true, EyeTracker.Typed self', w')
    /\ EyeTracker.calibration_data self' = Some ∅
    /\ forall h v : R, EyeTracker.apply_calibration self' h v = (h, v).
Proof.
  intros Hfile. unfold EyeTracker.load_calibration. rewrite Hfile.
  do 2 eexists. split; [reflexivity | ]. split; [reflexivity | ].
  intros h v. apply apply_calibration_falsy. simpl.
  apply bool_decide_eq_false. rewrite map_size_empty. intros Hn. apply Hn. reflexivity.
Qed.

Lemma empty_object_witness :
  exists (self' : EyeTracker.t) (w' : World),
    EyeTracker.load_calibration Sample.fresh_tracker
      (mkWorld {[Sample.path := JsonObject ∅]} ∅ ∅ false [])
    = (true, EyeTracker.Typed self', w')
    /\ EyeTracker.calibration_data self' = Some ∅
    /\ forall h v : R, EyeTracker.apply_calibration self' h v = (h, v).
Proof.
  apply (empty_object_loads_but_does_not_calibrate Sample.fresh_tracker
           (mkWorld {[Sample.path := JsonObject ∅]} ∅ ∅ false [])).
  reflexivity.
Defined.

(** X20.  A tracker built by [__init__] never has an empty
    [calibration_file]: [None] and the empty string both select
    "calibration_data/calibration.json".  It keeps the [camera_id] it was
    given, and its [calibration_data] is whatever [json.load] made of that
    file: the dictionary of an object of numbers, a value of another type,
    and [None] when the file holds [null], is rejected or is missing. *)
Theorem init_defaults (camera_id : Z) (calibration_file : option string) (w : World) :
  let self := fst (Construct.init camera_id calibration_file w) in
  let path :=
    match calibration_file with
    | None | Some "" => Construct.default_calibration_file
    | Some f => f
    end in
  path <> ""
  /\ EyeTracker.object_camera_id self = camera_id
  /\ EyeTracker.object_calibration_file self = path
  /\ self = match files w !! path with
            | Some (JsonObject d) => EyeTracker.Typed (EyeTracker.mk camera_id (Some d) path)
            | Some (JsonForeign v) => EyeTracker.Untyped camera_id v path
            | Some JsonNull | Some Malformed | None =>
                EyeTracker.Typed (EyeTracker.mk camera_id None path)
            end.
Proof.
  intros self path. subst self. unfold Construct.init.
  assert (Hpath : match calibration_file with
                  | None => Construct.default_calibration_file
                  | Some f => if decide (f = "") then Construct.default_calibration_file else f
                  end = path /\ path <> "").
  { subst path. destruct calibration_file as [f |]; [| split; [reflexivity | discriminate]].
    destruct (decide (f = "")) as [-> | Hf]; [split; [reflexivity | discriminate] | ].
    destruct f; [contradiction | split; [reflexivity | exact Hf]]. }
  destruct Hpath as [-> Hne]. clearbody path.
  unfold EyeTracker.load_calibration. cbn [EyeTracker.calibration_file EyeTracker.camera_id].
  split; [exact Hne | ].
  destruct (files w !! path) as [[d | | v | ] | ];
    cbn [fst snd EyeTracker.object_camera_id EyeTracker.object_calibration_file
         EyeTracker.set_calibration_data EyeTracker.camera_id EyeTracker.calibration_file
         EyeTracker.calibration_data];
    (split; [reflexivity | split; reflexivity]).
Qed.

(** * From a frame to a gaze position *)

Lemma get_landmarks_coords_Ok
    (face_landmarks : list (R * R)) (w h : Z) (indices : list nat) (coords : list (R * R)) :
  Forall (fun idx => (idx < length face_landmarks)%nat) indices ->
  Frames.get_landmarks_coords face_landmarks w h indices coords
  = Ok (coords ++ map (Pixels.pixel w h) (Pixels.pick face_landmarks indices)).
Proof.
  intros Hall. revert coords. induction Hall as [| idx rest Hidx _ IH]; intros coords.
  - simpl. rewrite app_nil_r. reflexivity.
  - simpl. destruct (face_landmarks !! idx) as [landmark |] eqn:Hl.
    + rewrite IH, <- app_assoc. rewrite (nth_lookup_Some _ _ _ _ Hl). reflexivity.
    + apply lookup_ge_None in Hl. lia.
Qed.

Lemma get_landmarks_coords_out_of_range
    (face_landmarks : list (R * R)) (w h : Z) (indices : list nat) (coords : list (R * R)) :
  Exists (fun idx => (length face_landmarks <= idx)%nat) indices ->
  Frames.get_landmarks_coords face_landmarks w h indices coords = Raise IndexError.
Proof.
  intros Hex. revert coords. induction indices as [| idx rest IH]; intros coords.
  - inversion Hex.
  - simpl. destruct (face_landmarks !! idx) as [landmark |] eqn:Hl; [| reflexivity].
    apply IH. inversion Hex as [? ? Hge | ? ? Hrest]; subst; [| exact Hrest].
    apply lookup_ge_None in Hge. congruence.
Qed.

(** The only exception the landmark loop can raise is [IndexError]. *)
Lemma get_landmarks_coords_cases
    (face_landmarks : list (R * R)) (w h : Z) (indices : list nat) (coords : list (R * R)) :
  (exists l, Frames.get_landmarks_coords face_landmarks w h indices coords = Ok l)
  \/ Frames.get_landmarks_coords face_landmarks w h indices coords = Raise IndexError.
Proof.
  revert coords. induction indices as [| idx rest IH]; intros coords; simpl.
  - left. eexists. reflexivity.
  - destruct (face_landmarks !! idx); [apply IH | right; reflexivity].
Qed.

Lemma indices_in_range (face_landmarks : list (R * R)) :
  (Pixels.refined_mesh_size <= length face_landmarks)%nat ->
  forall indices,
    In indices [Frames.LEFT_IRIS_INDICES; Frames.RIGHT_IRIS_INDICES;
                Frames.LEFT_EYE_INDICES; Frames.RIGHT_EYE_INDICES] ->
    Forall (fun idx => (idx < length face_landmarks)%nat) indices.
Proof.
  unfold Pixels.refined_mesh_size. intros Hlen indices Hin.
  simpl in Hin. destruct Hin as [<- | [<- | [<- | [<- | []]]]];
    repeat constructor; lia.
Qed.

Lemma mean_axis0_centre (l : list (R * R)) :
  l <> [] -> np.mean_axis0 l = Ok (Pixels.centre l).
Proof. intros Hl. rewrite mean_axis0_Ok by exact Hl. reflexivity. Qed.

Lemma get_eye_landmarks_Ok (face_landmarks : list (R * R)) (h w : Z) :
  (Pixels.refined_mesh_size <= length face_landmarks)%nat ->
  Frames.get_eye_landmarks face_landmarks (h, w)
  = Ok ((Pixels.centre (map (Pixels.pixel w h)
                          (Pixels.pick face_landmarks Frames.LEFT_IRIS_INDICES)),
         map (Pixels.pixel w h) (Pixels.pick face_landmarks Frames.LEFT_EYE_INDICES)),
        (Pixels.centre (map (Pixels.pixel w h)
                          (Pixels.pick face_landmarks Frames.RIGHT_IRIS_INDICES)),
         map (Pixels.pixel w h) (Pixels.pick face_landmarks Frames.RIGHT_EYE_INDICES))).
Proof.
  intros Hlen. pose proof (indices_in_range face_landmarks Hlen) as Hin.
  unfold Frames.get_eye_landmarks.
  rewrite !get_landmarks_coords_Ok by (apply Hin; simpl; tauto).
  cbn [app mbind result_bind].
  rewrite !mean_axis0_centre by discriminate. reflexivity.
Qed.

Lemma get_eye_landmarks_short (face_landmarks : list (R * R)) (h w : Z) :
  (length face_landmarks < Pixels.refined_mesh_size)%nat ->
  Frames.get_eye_landmarks face_landmarks (h, w) = Raise IndexError.
Proof.
  unfold Pixels.refined_mesh_size. intros Hlen. unfold Frames.get_eye_landmarks.
  destruct (get_landmarks_coords_cases face_landmarks w h Frames.LEFT_IRIS_INDICES [])
    as [[l ->] | ->]; [| reflexivity].
  rewrite (get_landmarks_coords_out_of_range face_landmarks w h Frames.RIGHT_IRIS_INDICES).
  - reflexivity.
  - unfold Frames.RIGHT_IRIS_INDICES. do 4 apply Exists_cons_tl. apply Exists_cons_hd. lia.
Qed.

(** X21.  [get_eye_landmarks] needs the 478 landmarks of a mesh refined
    with iris landmarks: on a shorter face it raises [IndexError]; otherwise
    it returns, for each eye, the eight boundary landmarks in pixels and, as
    iris centre, the centroid of the five iris landmarks in pixels. *)
Theorem get_eye_landmarks_total (face_landmarks : list (R * R)) (h w : Z) :
  ((length face_landmarks < 478)%nat
   /\ Frames.get_eye_landmarks face_landmarks (h, w) = Raise IndexError)
  \/ ((478 <= length face_landmarks)%nat
      /\ Frames.get_eye_landmarks face_landmarks (h, w)
         = Ok ((Pixels.centre (map (Pixels.pixel w h)
                                 (Pixels.pick face_landmarks [468; 469; 470; 471; 472]%nat)),
                map (Pixels.pixel w h)
                  (Pixels.pick face_landmarks [33; 133; 160; 159; 158; 144; 145; 153]%nat)),
               (Pixels.centre (map (Pixels.pixel w h)
                                 (Pixels.pick face_landmarks [473; 474; 475; 476; 477]%nat)),
                map (Pixels.pixel w h)
                  (Pixels.pick face_landmarks
                     [362; 263; 387; 386; 385; 373; 374; 380]%nat)))).
Proof.
  destruct (Nat.lt_ge_cases (length face_landmarks) 478) as [Hlt | Hge].
  - left. split; [exact Hlt | apply get_eye_landmarks_short; exact Hlt].
  - right. split; [exact Hge | apply get_eye_landmarks_Ok; exact Hge].
Qed.

Lemma gaze_ratio_cons_Ok (iris_center p : R * R) (ps : list (R * R)) :
  exists g : R * R,
    EyeTracker.calculate_gaze_ratio iris_center (p :: ps) = Ok g /\ Cond.unit_square g.
Proof.
  rewrite (gaze_ratio_closed_form _ _ _ _ (min_axis0_cons p ps) (max_axis0_cons p ps)).
  eexists. split; [reflexivity | ]. unfold Cond.unit_square.
  destruct (decide _); cbn [fst snd]; [lra | split; apply clamp01_bounds].
Qed.





Lemma sum_scale (k : R) (l : list R) :
  fold_right Rplus 0 (map (fun x => x * k) l) = fold_right Rplus 0 l * k.
Proof. induction l as [| x l IH]; simpl; [lra | rewrite IH; lra]. Qed.

Lemma mean_scale (k : R) (l : list R) : Spec.mean (map (fun x => x * k) l) = Spec.mean l * k.
Proof. unfold Spec.mean. rewrite sum_scale, length_map. unfold Rdiv. ring. Qed.

Lemma centre_pixel (w h : Z) (l : list (R * R)) :
  Pixels.centre (map (Pixels.pixel w h) l) = Pixels.pixel w h (Pixels.centre l).
Proof.
  unfold Pixels.centre, Pixels.pixel. cbn [fst snd]. rewrite !map_map. cbn [fst snd].
  rewrite <- (map_map fst (fun x => x * IZR w)), <- (map_map snd (fun y => y * IZR h)).
  rewrite !mean_scale. reflexivity.
Qed.

(** The gaze ratio of an eye in pixels is that of the normalised landmarks. *)
Lemma gaze_ratio_pixels (w h : Z) (iris eye : list (R * R)) :
  (0 < w)%Z -> (0 < h)%Z ->
  EyeTracker.calculate_gaze_ratio
    (Pixels.centre (map (Pixels.pixel w h) iris)) (map (Pixels.pixel w h) eye)
  = EyeTracker.calculate_gaze_ratio (Pixels.centre iris) eye.
Proof.
  intros Hw Hh. apply IZR_lt in Hw, Hh. rewrite centre_pixel.
  rewrite <- (gaze_ratio_affine (IZR w) (IZR h) 0 0 (Pixels.centre iris) eye Hw Hh).
  cbn zeta. f_equal.
  - unfold Pixels.pixel. f_equal; ring.
  - apply map_ext. intros p. unfold Pixels.pixel. f_equal; ring.
Qed.

(** X23.  In exact arithmetic the gaze ratios taken from a detected face
    do not depend on the resolution of the camera: the averaged pair of
    ratios that the sampling loop of [run_calibration] records (and
    [process_frame] computes in the same way before it maps them to a
    pixel) is the same for the same landmarks whatever the (positive)
    height and width of the frame. *)
Theorem gaze_sample_resolution_independent
    (face_landmarks : list (R * R)) (h w h' w' : Z) :
  (0 < h)%Z -> (0 < w)%Z -> (0 < h')%Z -> (0 < w')%Z ->
  Walk.gaze_sample face_landmarks (h, w) = Walk.gaze_sample face_landmarks (h', w').
Proof.
  intros Hh Hw Hh' Hw'. unfold Walk.gaze_sample.
  destruct (Nat.lt_ge_cases (length face_landmarks) Pixels.refined_mesh_size) as [Hlt | Hge].
  - rewrite !get_eye_landmarks_short by exact Hlt. reflexivity.
  - rewrite !get_eye_landmarks_Ok by exact Hge. cbn [mbind result_bind fst snd].
    rewrite !gaze_ratio_pixels by assumption. reflexivity.
Qed.

Lemma gaze_sample_resolution_independent_witness :
  Walk.gaze_sample Cases.face (480%Z, 640%Z) = Walk.gaze_sample Cases.face (1080%Z, 1920%Z).
Proof.
  apply (gaze_sample_resolution_independent Cases.face 480 640 1080 1920); lia.
Defined.

(** * The calibration walk *)

Lemma gaze_ratio_nonempty_Ok (iris_center : R * R) (eye_coords : list (R * R)) :
  eye_coords <> [] ->
  exists g : R * R,
    EyeTracker.calculate_gaze_ratio iris_center eye_coords = Ok g /\ Cond.unit_square g.
Proof.
  intros Hne. destruct eye_coords as [| p ps]; [contradiction | apply gaze_ratio_cons_Ok].
Qed.

(** A detected face yields a sample of the unit square, or [IndexError]
    when it lacks the iris landmarks. *)
Lemma gaze_sample_cases (face_landmarks : list (R * R)) (frame_shape : Z * Z) :
  Walk.gaze_sample face_landmarks frame_shape = Raise IndexError
  \/ exists a : R * R,
       Walk.gaze_sample face_landmarks frame_shape = Ok a /\ Cond.unit_square a.
Proof.
  destruct frame_shape as [h w]. unfold Walk.gaze_sample.
  destruct (Nat.lt_ge_cases (length face_landmarks) Pixels.refined_mesh_size) as [Hlt | Hge].
  - left. rewrite (get_eye_landmarks_short face_landmarks h w Hlt). reflexivity.
  - right. rewrite (get_eye_landmarks_Ok face_landmarks h w Hge).
    cbn [mbind result_bind fst snd].
    destruct (gaze_ratio_nonempty_Ok
                (Pixels.centre (map (Pixels.pixel w h)
                                  (Pixels.pick face_landmarks Frames.LEFT_IRIS_INDICES)))
                (map (Pixels.pixel w h) (Pixels.pick face_landmarks Frames.LEFT_EYE_INDICES)))
      as (lg & -> & [Hlh Hlv]); [discriminate | ].
    destruct (gaze_ratio_nonempty_Ok
                (Pixels.centre (map (Pixels.pixel w h)
                                  (Pixels.pick face_landmarks Frames.RIGHT_IRIS_INDICES)))
                (map (Pixels.pixel w h) (Pixels.pick face_landmarks Frames.RIGHT_EYE_INDICES)))
      as (rg & -> & [Hrh Hrv]); [discriminate | ].
    cbn [mbind result_bind]. eexists. split; [reflexivity | ].
    unfold Cond.unit_square. cbn [fst snd]. lra.
Qed.

(** The witness face is a face: it has the 478 landmarks, and a sample is
    taken from it. *)
Example face_is_sampled :
  length Cases.face = 478%nat
  /\ exists a : R * R, Walk.gaze_sample Cases.face (480%Z, 640%Z) = Ok a.
Proof.
  split; [reflexivity | ].
  destruct (gaze_sample_cases Cases.face (480%Z, 640%Z)) as [Hraise | (a & Ha & _)].
  - unfold Walk.gaze_sample in Hraise.
    rewrite get_eye_landmarks_Ok in Hraise by (unfold Pixels.refined_mesh_size; simpl; lia).
    cbn [mbind result_bind fst snd] in Hraise.
    exfalso.
    destruct (gaze_ratio_nonempty_Ok
                (Pixels.centre (map (Pixels.pixel 640 480)
                                  (Pixels.pick Cases.face Frames.LEFT_IRIS_INDICES)))
                (map (Pixels.pixel 640 480) (Pixels.pick Cases.face Frames.LEFT_EYE_INDICES)))
      as (lg & Hlg & _); [discriminate | ].
    rewrite Hlg in Hraise. cbn [mbind result_bind] in Hraise.
    destruct (gaze_ratio_nonempty_Ok
                (Pixels.centre (map (Pixels.pixel 640 480)
                                  (Pixels.pick Cases.face Frames.RIGHT_IRIS_INDICES)))
                (map (Pixels.pixel 640 480) (Pixels.pick Cases.face Frames.RIGHT_EYE_INDICES)))
      as (rg & Hrg & _); [discriminate | ].
    rewrite Hrg in Hraise. discriminate Hraise.
  - exists a. exact Ha.
Qed.

Lemma collect_samples_eq
    (frames : list Frames.Frame) (keys : list Z) (cal_point : calibration.CalibrationPoint)
    (sample_count samples_per_point : Z) :
  Walk.collect_samples frames keys cal_point sample_count samples_per_point
  = if (sample_count <? samples_per_point)%Z then
      match frames with
      | [] => (Ok cal_point, [], keys)
      | frame :: frames =>
          match Frames.multi_face_landmarks frame with
          | Some (face_landmarks :: _) =>
              match Walk.gaze_sample face_landmarks (Frames.shape frame) with
              | Raise e => (Raise e, frames, keys)
              | Ok (avg_h, avg_v) =>
                  Walk.collect_samples frames (snd (Camera.wait_key keys))
                    (calibration.add_sample cal_point avg_h avg_v)
                    (sample_count + 1) samples_per_point
              end
          | Some [] | None =>
              Walk.collect_samples frames (snd (Camera.wait_key keys))
                cal_point sample_count samples_per_point
          end
      end
    else (Ok cal_point, frames, keys).
Proof. destruct frames; reflexivity. Qed.

Lemma sampled_refl (room : Z) (p : calibration.CalibrationPoint) : Cond.sampled room p p.
Proof.
  split; [reflexivity | ]. exists []. rewrite app_nil_r.
  split; [reflexivity | ]. split; [constructor | simpl; lia].
Qed.

(** The sampling loop: it appends at most the missing number of samples,
    each in the unit square, and can only raise [IndexError]. *)
Lemma collect_samples_spec
    (frames : list Frames.Frame) (keys : list Z) (cal_point : calibration.CalibrationPoint)
    (sample_count samples_per_point : Z) :
  match fst (fst (Walk.collect_samples frames keys cal_point sample_count samples_per_point)) with
  | Ok cal_point' => Cond.sampled (samples_per_point - sample_count) cal_point cal_point'
  | Raise e => e = IndexError
  end.
Proof.
  revert keys cal_point sample_count.
  induction frames as [| frame frames IH]; intros keys cal_point sample_count;
    rewrite collect_samples_eq;
    destruct (sample_count <? samples_per_point)%Z eqn:Hlt; cbn [fst];
    try apply sampled_refl.
  destruct (Frames.multi_face_landmarks frame) as [[| face_landmarks others] |].
  - specialize (IH (snd (Camera.wait_key keys)) cal_point sample_count).
    destruct (fst (fst (Walk.collect_samples _ _ _ _ _))); exact IH.
  - destruct (gaze_sample_cases face_landmarks (Frames.shape frame)) as [-> | (a & -> & Ha)];
      [reflexivity | ].
    destruct a as [avg_h avg_v].
    specialize (IH (snd (Camera.wait_key keys))
                  (calibration.add_sample cal_point avg_h avg_v) (sample_count + 1)%Z).
    destruct (fst (fst (Walk.collect_samples _ _ _ _ _))) as [cal_point' | e]; [| exact IH].
    destruct IH as [Hpos (added & Hadd & Hunit & Hlen)].
    split; [exact Hpos | ].
    exists ((avg_h, avg_v) :: added). cbn [calibration.add_sample calibration.gaze_samples] in Hadd.
    rewrite Hadd, <- app_assoc. split; [reflexivity | ].
    split; [constructor; assumption | ].
    apply Z.ltb_lt in Hlt. simpl length. lia.
  - specialize (IH (snd (Camera.wait_key keys)) cal_point sample_count).
    destruct (fst (fst (Walk.collect_samples _ _ _ _ _))); exact IH.
Qed.

Lemma visit_spec
    (calibration_points : list calibration.CalibrationPoint)
    (frames : list Frames.Frame) (keys : list Z) (samples_per_point : Z) :
  match fst (fst (Walk.visit calibration_points frames keys samples_per_point)) with
  | Ok visited => Forall2 (Cond.sampled samples_per_point) calibration_points visited
  | Raise e => e = IndexError
  end.
Proof.
  revert frames keys.
  induction calibration_points as [| cal_point rest IH]; intros frames keys; simpl.
  - constructor.
  - pose proof (collect_samples_spec frames (drop 3 keys) cal_point 0 samples_per_point) as Hc.
    destruct (Walk.collect_samples frames (drop 3 keys) cal_point 0 samples_per_point)
      as [[[cal_point' | e] frames'] keys']; cbn [fst] in Hc |- *; [| exact Hc].
    specialize (IH frames' keys').
    destruct (Walk.visit rest frames' keys' samples_per_point)
      as [[[rest' | e] frames''] keys'']; cbn [fst] in IH |- *; [| exact IH].
    constructor; [| exact IH].
    replace (samples_per_point - 0)%Z with samples_per_point in Hc by lia. exact Hc.
Qed.

(** X24.  The loop of [run_calibration] over the calibration points only
    adds samples: when it finishes, the points are the same targets in the
    same order, each with at most [samples_per_point] new samples (none when
    that number is not positive), every sample in the unit square.  The only
    exception it can raise is [IndexError], from a detected face without
    iris landmarks. *)
Theorem calibration_walk_only_adds_samples
    (calibration_points : list calibration.CalibrationPoint)
    (frames : list Frames.Frame) (keys : list Z) (samples_per_point : Z) :
  match fst (fst (Walk.visit calibration_points frames keys samples_per_point)) with
  | Ok visited =>
      map calibration.screen_pos visited = map calibration.screen_pos calibration_points
      /\ Forall2
           (fun before after =>
              exists added : list (R * R),
                calibration.gaze_samples after = calibration.gaze_samples before ++ added
                /\ Forall Cond.unit_square added
                /\ (Z.of_nat (length added) <= Z.max 0 samples_per_point)%Z)
           calibration_points visited
  | Raise e => e = IndexError
  end.
Proof.
  pose proof (visit_spec calibration_points frames keys samples_per_point) as Hv.
  destruct (fst (fst (Walk.visit calibration_points frames keys samples_per_point)))
    as [visited | e]; [| exact Hv].
  induction Hv as [| before after pts visited [Hpos Hadd] _ [IH1 IH2]].
  - split; constructor.
  - split; [simpl; rewrite Hpos, IH1; reflexivity | ].
    constructor; [exact Hadd | exact IH2].
Qed.

Lemma save_calibration_raise
    (self : EyeTracker.t) (calibration_data : dict) (w w' : World) (e : exn) :
  EyeTracker.save_calibration self calibration_data w = (Raise e, w') -> e = OSError /\ w' = w.
Proof.
  unfold EyeTracker.save_calibration.
  destruct (decide _); [intros H; injection H as <- <-; split; reflexivity | ].
  destruct (decide _); [discriminate | ]. destruct (disk_full w); discriminate.
Qed.

Lemma fit_raise (pts : list calibration.CalibrationPoint) (now : R) (e : exn) :
  calibration.calculate_calibration_transform pts now = Raise e -> pts = [] /\ e = IndexError.
Proof.
  destruct pts as [| p pts].
  - rewrite calculate_calibration_transform_nil. intros H. injection H as <-. split; reflexivity.
  - rewrite calculate_calibration_transform_Ok by discriminate. discriminate.
Qed.

(** Every way [run_calibration] can end. *)
Lemma run_calibration_cases
    (eye_tracker : Camera.Session) (num_points samples_per_point : Z) (now : R)
    (st : Camera.Studio) (w : World) :
  let out := Walk.run_calibration eye_tracker num_points samples_per_point now st w in
  let eye_tracker' := snd (fst (fst out)) in
  let w' := snd out in
  match fst (fst (fst out)) with
  | Ok None =>
      w' = w /\ Camera.tracker eye_tracker' = Camera.tracker eye_tracker
      /\ ((hd false (Camera.opens st) = false /\ Camera.cap eye_tracker' = Some Camera.NotOpened)
          \/ (hd false (Camera.opens st) = true
              /\ fst (fst (Walk.waiting (Camera.frames st) (Camera.keys st))) = true
              /\ Camera.cap eye_tracker' = Some Camera.Released))
  | Ok (Some calibration_data) =>
      hd false (Camera.opens st) = true
      /\ Camera.cap eye_tracker' = Some Camera.Opened
      /\ (exists frames keys visited,
            Walk.waiting (Camera.frames st) (Camera.keys st) = (false, frames, keys)
            /\ fst (fst (Walk.visit
                           (map (fun xy => calibration.mkPoint xy []) (Walk.positions num_points))
                           frames keys samples_per_point)) = Ok visited
            /\ calibration.calculate_calibration_transform visited now = Ok calibration_data)
      /\ EyeTracker.save_calibration (Camera.tracker eye_tracker) calibration_data w
         = (Ok (Camera.tracker eye_tracker'), w')
  | Raise e =>
      hd false (Camera.opens st) = true
      /\ Camera.cap eye_tracker' = Some Camera.Opened
      /\ Camera.tracker eye_tracker' = Camera.tracker eye_tracker
      /\ w' = w
      /\ (e = IndexError \/ e = OSError)
  end.
Proof.
  unfold Walk.run_calibration, Camera.start_camera.
  destruct (hd false (Camera.opens st)) eqn:Hopen;
    cbn [negb fst snd Camera.frames Camera.keys Camera.opens Camera.tracker Camera.cap].
  2: { split; [reflexivity | ]. split; [reflexivity | ]. left. split; reflexivity. }
  destruct (Walk.waiting (Camera.frames st) (Camera.keys st)) as [[cancelled frames] keys] eqn:Hwait.
  destruct cancelled; cbn [fst snd Camera.stop_camera Camera.tracker Camera.cap].
  { split; [reflexivity | ]. split; [reflexivity | ]. right.
    split; [reflexivity | ]. split; reflexivity. }
  pose proof (visit_spec (map (fun xy => calibration.mkPoint xy []) (Walk.positions num_points))
                frames keys samples_per_point) as Hv.
  destruct (Walk.visit _ frames keys samples_per_point) as [[[visited | e] frames'] keys'] eqn:Hvisit;
    cbn [fst snd] in Hv |- *.
  2: { split; [reflexivity | ]. split; [reflexivity | ]. split; [reflexivity | ].
       split; [reflexivity | ]. left. exact Hv. }
  destruct (calibration.calculate_calibration_transform visited now) as [d | e] eqn:Hfit;
    cbn [fst snd].
  2: { split; [reflexivity | ]. split; [reflexivity | ]. split; [reflexivity | ].
       split; [reflexivity | ]. left. apply (fit_raise _ _ _ Hfit). }
  destruct (EyeTracker.save_calibration (Camera.tracker eye_tracker) d w) as [[tracker' | e] w'] eqn:Hsave;
    cbn [fst snd].
  - split; [reflexivity | ]. split; [reflexivity | ]. split; [| exact Hsave].
    exists frames, keys, visited. rewrite Hvisit.
    split; [reflexivity | ]. split; [reflexivity | exact Hfit].
  - destruct (save_calibration_raise _ _ _ _ _ Hsave) as [-> ->].
    split; [reflexivity | ]. split; [reflexivity | ]. split; [reflexivity | ].
    split; [reflexivity | ]. right. reflexivity.
Qed.

Lemma save_calibration_Ok_cases
    (self self' : EyeTracker.t) (calibration_data : dict) (w w' : World) :
  EyeTracker.save_calibration self calibration_data w = (Ok self', w') ->
  (self' = self /\ (Spec.write_raises self w))
  \/ (self' = EyeTracker.set_calibration_data self (Some calibration_data)
      /\ files w' !! EyeTracker.calibration_file self = Some (JsonObject calibration_data)
      /\ ~ Spec.write_raises self w).
Proof.
  unfold EyeTracker.save_calibration, Spec.write_raises.
  destruct (decide _) as [Hdir | Hdir]; [discriminate | ].
  destruct (decide _) as [Hopen | Hopen].
  { intros H. injection H as <- <-. left. split; [reflexivity | ]. split; [exact Hdir | left; exact Hopen]. }
  destruct (disk_full w) eqn:Hfull; intros H; injection H as <- <-.
  - left. split; [reflexivity | ]. split; [exact Hdir | right; reflexivity].
  - right. split; [reflexivity | ]. split; [simpl; apply lookup_insert_eq | ].
    intros [_ [Hin | Hf]]; [contradiction | discriminate].
Qed.

(** X25.  [run_calibration] releases the camera only when the user cancels
    with ESC.  When the camera could not be opened it returns None with the
    capture not opened; after a completed calibration, and when an exception
    leaves it, the capture it opened is still open: [stop_camera] was not
    called. *)
Theorem run_calibration_leaves_camera_open
    (eye_tracker : Camera.Session) (num_points samples_per_point : Z) (now : R)
    (st : Camera.Studio) (w : World) :
  let out := Walk.run_calibration eye_tracker num_points samples_per_point now st w in
  match fst (fst (fst out)) with
  | Ok None =>
      (hd false (Camera.opens st) = false
       /\ Camera.cap (snd (fst (fst out))) = Some Camera.NotOpened)
      \/ (hd false (Camera.opens st) = true
          /\ Camera.cap (snd (fst (fst out))) = Some Camera.Released)
  | Ok (Some _) | Raise _ =>
      hd false (Camera.opens st) = true
      /\ Camera.cap (snd (fst (fst out))) = Some Camera.Opened
  end.
Proof.
  intros out. subst out.
  pose proof (run_calibration_cases eye_tracker num_points samples_per_point now st w) as H.
  cbn zeta in H.
  destruct (fst (fst (fst (Walk.run_calibration _ _ _ _ _ _)))) as [[d |] | e].
  - destruct H as (H1 & H2 & _). split; assumption.
  - destruct H as (_ & _ & [[H1 H2] | (H1 & _ & H2)]); [left | right]; split; assumption.
  - destruct H as (H1 & H2 & _). split; assumption.
Qed.

(** X26.  [run_calibration] changes the stored calibration, in memory and
    on disk, only when it returns a dictionary.  When it returns None, and
    when it raises (only [IndexError] or [OSError] can leave it), tracker
    and files are as before.  When it returns a dictionary, either the
    write went through and tracker and calibration file both hold that
    dictionary, or the write raised and the tracker still has its previous
    calibration although the dictionary was returned. *)
Theorem run_calibration_effect
    (eye_tracker : Camera.Session) (num_points samples_per_point : Z) (now : R)
    (st : Camera.Studio) (w : World) :
  let out := Walk.run_calibration eye_tracker num_points samples_per_point now st w in
  let tracker := Camera.tracker eye_tracker in
  let tracker' := Camera.tracker (snd (fst (fst out))) in
  match fst (fst (fst out)) with
  | Ok None => snd out = w /\ tracker' = tracker
  | Raise e => snd out = w /\ tracker' = tracker /\ (e = IndexError \/ e = OSError)
  | Ok (Some calibration_data) =>
      (Spec.write_raises tracker w /\ tracker' = tracker)
      \/ (~ Spec.write_raises tracker w
          /\ tracker' = EyeTracker.set_calibration_data tracker (Some calibration_data)
          /\ files (snd out) !! EyeTracker.calibration_file tracker
             = Some (JsonObject calibration_data))
  end.
Proof.
  intros out tracker tracker'. subst out tracker tracker'.
  pose proof (run_calibration_cases eye_tracker num_points samples_per_point now st w) as H.
  cbn zeta in H.
  destruct (fst (fst (fst (Walk.run_calibration _ _ _ _ _ _)))) as [[d |] | e].
  - destruct H as (_ & _ & _ & Hsave).
    destruct (save_calibration_Ok_cases _ _ _ _ _ Hsave) as [[-> Hw] | (-> & Hfile & Hw)].
    + left. split; [exact Hw | reflexivity].
    + right. split; [exact Hw | ]. split; [reflexivity | exact Hfile].
  - destruct H as (H1 & H2 & _). split; assumption.
  - destruct H as (_ & _ & H1 & H2 & H3). split; [exact H2 | ]. split; assumption.
Qed.

Lemma fit_bookkeeping (pts : list calibration.CalibrationPoint) (now : R) (d : dict) :
  calibration.calculate_calibration_transform pts now = Ok d ->
  d !! "num_points" = Some (INR (length pts)) /\ d !! "timestamp" = Some now
  /\ truthy (Some d) = true.
Proof.
  intros Hd. destruct (fit_lookup pts now d Hd) as [Hne Hk].
  destruct (Hk Spec.Horizontal) as [Hho _].
  rewrite calculate_calibration_transform_Ok in Hd by exact Hne. injection Hd as <-.
  split; [reflexivity | ]. split; [reflexivity | ].
  exact (truthy_lookup _ _ _ Hho).
Qed.

(** X27.  The dictionary [run_calibration] returns is the fit over nine
    points when [num_points] is 9 and over five points for every other
    value of [num_points]: its num_points entry is 9 or 5 accordingly, its
    timestamp is the time of the fit, and it is non-empty, so that a tracker
    holding it applies it. *)
Theorem run_calibration_point_count
    (eye_tracker : Camera.Session) (num_points samples_per_point : Z) (now : R)
    (st : Camera.Studio) (w : World) :
  match fst (fst (fst (Walk.run_calibration eye_tracker num_points samples_per_point now st w)))
  with
  | Ok (Some calibration_data) =>
      calibration_data !! "num_points" = Some (if (num_points =? 9)%Z then 9 else 5)
      /\ calibration_data !! "timestamp" = Some now
      /\ truthy (Some calibration_data) = true
  | Ok None | Raise _ => True
  end.
Proof.
  pose proof (run_calibration_cases eye_tracker num_points samples_per_point now st w) as H.
  cbn zeta in H.
  destruct (fst (fst (fst (Walk.run_calibration _ _ _ _ _ _)))) as [[d |] | e]; [| exact I | exact I].
  destruct H as (_ & _ & (frames & keys & visited & _ & Hvisit & Hfit) & _).
  destruct (fit_bookkeeping visited now d Hfit) as (Hn & Ht & Htruthy).
  split; [| split; assumption]. rewrite Hn. f_equal.
  pose proof (visit_spec (map (fun xy => calibration.mkPoint xy []) (Walk.positions num_points))
                frames keys samples_per_point) as Hv.
  rewrite Hvisit in Hv. apply Forall2_length in Hv. rewrite <- Hv, length_map.
  unfold Walk.positions.
  destruct (num_points =? 9)%Z; [simpl; lra | ].
  destruct (num_points =? 5)%Z; simpl; lra.
Qed.

Lemma waiting_no_escape (frames : list Frames.Frame) (keys : list Z) :
  Forall (fun key => Z.land key 255 <> 27%Z) keys ->
  fst (fst (Walk.waiting frames keys)) = false.
Proof.
  revert keys. induction frames as [| frame frames IH]; intros keys Hk; [reflexivity | ].
  cbn [Walk.waiting Camera.wait_key].
  assert (Hkey : Z.land (hd (-1)%Z keys) 255 <> 27%Z).
  { destruct Hk; [discriminate | assumption]. }
  destruct (Z.land (hd (-1)%Z keys) 255 =? 32)%Z; [reflexivity | ].
  destruct (Z.eqb_spec (Z.land (hd (-1)%Z keys) 255) 27) as [Heq | _]; [contradiction | ].
  apply IH. destruct Hk; [constructor | assumption].
Qed.

Lemma waiting_Forall (P : Frames.Frame -> Prop) (frames : list Frames.Frame) (keys : list Z) :
  Forall P frames -> Forall P (snd (fst (Walk.waiting frames keys))).
Proof.
  intros HP. revert keys. induction HP as [| frame frames _ HP IH]; intros keys; [constructor | ].
  cbn [Walk.waiting Camera.wait_key].
  destruct (Z.land (hd (-1)%Z keys) 255 =? 32)%Z; [exact HP | ].
  destruct (Z.land (hd (-1)%Z keys) 255 =? 27)%Z; [exact HP | apply IH].
Qed.

(** Without a detected face the sampling loop records nothing. *)
Lemma collect_samples_no_face
    (frames : list Frames.Frame) (keys : list Z) (cal_point : calibration.CalibrationPoint)
    (sample_count samples_per_point : Z) :
  Forall Cond.no_face frames ->
  fst (fst (Walk.collect_samples frames keys cal_point sample_count samples_per_point))
    = Ok cal_point
  /\ Forall Cond.no_face
       (snd (fst (Walk.collect_samples frames keys cal_point sample_count samples_per_point))).
Proof.
  intros Hno. revert keys. induction Hno as [| frame frames Hf Hno IH]; intros keys;
    rewrite collect_samples_eq; destruct (sample_count <? samples_per_point)%Z;
    cbn [fst snd]; try (split; [reflexivity | constructor; assumption]);
    try (split; [reflexivity | constructor]).
  unfold Cond.no_face in Hf.
  destruct (Frames.multi_face_landmarks frame) as [[| face others] |]; [apply IH | contradiction | apply IH].
Qed.

Lemma visit_no_face
    (calibration_points : list calibration.CalibrationPoint)
    (frames : list Frames.Frame) (keys : list Z) (samples_per_point : Z) :
  Forall Cond.no_face frames ->
  fst (fst (Walk.visit calibration_points frames keys samples_per_point)) = Ok calibration_points.
Proof.
  revert frames keys. induction calibration_points as [| cal_point rest IH];
    intros frames keys Hno; [reflexivity | ].
  cbn [Walk.visit].
  destruct (collect_samples_no_face frames (drop 3 keys) cal_point 0 samples_per_point Hno)
    as [Hc Hno'].
  destruct (Walk.collect_samples frames (drop 3 keys) cal_point 0 samples_per_point)
    as [[r frames'] keys']. cbn [fst snd] in Hc, Hno'. subst r.
  specialize (IH frames' keys' Hno').
  destruct (Walk.visit rest frames' keys' samples_per_point) as [[r frames''] keys''].
  cbn [fst] in IH. subst r. reflexivity.
Qed.

Lemma save_calibration_returns (self : EyeTracker.t) (calibration_data : dict) (w : World) :
  EyeTracker.calibration_file self ∉ mkdir_denied w ->
  exists (self' : EyeTracker.t) (w' : World),
    EyeTracker.save_calibration self calibration_data w = (Ok self', w').
Proof.
  intros Hdir. unfold EyeTracker.save_calibration.
  destruct (decide _); [contradiction | ].
  destruct (decide _); [do 2 eexists; reflexivity | ].
  destruct (disk_full w); do 2 eexists; reflexivity.
Qed.

(** The targets of the walk, before any sample: the fit on them is the
    identity. *)
Lemma unsampled_positions_fit (num_points : Z) (ax : Spec.axis) :
  let pts := map (fun xy => calibration.mkPoint xy []) (Walk.positions num_points) in
  Spec.fitted_offset ax pts = 0 /\ Spec.fitted_scale ax pts = 1.
Proof.
  intros pts.
  assert (Hg : Spec.gaze ax pts <> [] /\ Forall (fun x => x = 0.5) (Spec.gaze ax pts)).
  { subst pts. unfold Walk.positions.
    destruct (num_points =? 9)%Z; [| destruct (num_points =? 5)%Z];
      (split; [destruct ax; discriminate | destruct ax; repeat constructor]). }
  assert (Ht : Spec.mean (Spec.target ax pts) = 0.5).
  { subst pts. unfold Walk.positions.
    destruct (num_points =? 9)%Z; [| destruct (num_points =? 5)%Z];
      destruct ax; unfold Spec.mean; simpl; lra. }
  destruct Hg as [Hne Hconst]. split.
  - unfold Spec.fitted_offset. rewrite (mean_constant 0.5 _ Hne Hconst), Ht. lra.
  - unfold Spec.fitted_scale. rewrite (stddev_constant 0.5 _ Hne Hconst).
    destruct (decide (0 = 0)) as [_ | Hn]; [reflexivity | lra].
Qed.

(** X28.  A calibration during which no face is ever detected still
    produces a calibration.  When the camera opens, ESC is never pressed,
    no frame shows a face (or the camera delivers no frame at all) and the
    calibration directory can be made, [run_calibration] returns the
    identity: offsets 0 and scales 1.  Every point then counts as
    (0.5, 0.5). *)
Theorem faceless_calibration_is_identity
    (eye_tracker : Camera.Session) (num_points samples_per_point : Z) (now : R)
    (st : Camera.Studio) (w : World) :
  hd false (Camera.opens st) = true ->
  Forall Cond.no_face (Camera.frames st) ->
  Forall (fun key => Z.land key 255 <> 27%Z) (Camera.keys st) ->
  EyeTracker.calibration_file (Camera.tracker eye_tracker) ∉ mkdir_denied w ->
  exists calibration_data : dict,
    fst (fst (fst (Walk.run_calibration eye_tracker num_points samples_per_point now st w)))
      = Ok (Some calibration_data)
    /\ calibration_data !! "h_offset" = Some 0 /\ calibration_data !! "v_offset" = Some 0
    /\ calibration_data !! "h_scale" = Some 1 /\ calibration_data !! "v_scale" = Some 1.
Proof.
  intros Hopen Hno Hkeys Hdir.
  unfold Walk.run_calibration, Camera.start_camera. rewrite Hopen.
  cbn [negb fst snd Camera.frames Camera.keys Camera.opens Camera.tracker Camera.cap].
  pose proof (waiting_no_escape (Camera.frames st) (Camera.keys st) Hkeys) as Hc.
  pose proof (waiting_Forall Cond.no_face (Camera.frames st) (Camera.keys st) Hno) as Hno'.
  destruct (Walk.waiting (Camera.frames st) (Camera.keys st)) as [[cancelled frames] keys].
  cbn [fst snd] in Hc, Hno'. subst cancelled.
  set (pts := map (fun xy => calibration.mkPoint xy []) (Walk.positions num_points)).
  pose proof (visit_no_face pts frames keys samples_per_point Hno') as Hv.
  destruct (Walk.visit pts frames keys samples_per_point) as [[visited frames'] keys'].
  cbn [fst] in Hv. subst visited.
  assert (Hne : pts <> []).
  { subst pts. unfold Walk.positions.
    destruct (num_points =? 9)%Z; [| destruct (num_points =? 5)%Z]; discriminate. }
  rewrite (calculate_calibration_transform_Ok pts now Hne).
  destruct (save_calibration_returns (Camera.tracker eye_tracker)
              (<["h_offset" := Spec.fitted_offset Spec.Horizontal pts]>
               (<["v_offset" := Spec.fitted_offset Spec.Vertical pts]>
               (<["h_scale" := Spec.fitted_scale Spec.Horizontal pts]>
               (<["v_scale" := Spec.fitted_scale Spec.Vertical pts]>
               (<["num_points" := INR (length pts)]>
               (<["timestamp" := now]> ∅)))))) w Hdir) as (tracker' & w' & ->).
  cbn [fst snd]. eexists. split; [reflexivity | ].
  destruct (unsampled_positions_fit num_points Spec.Horizontal) as [Hoh Hsh].
  destruct (unsampled_positions_fit num_points Spec.Vertical) as [Hov Hsv].
  fold pts in Hoh, Hsh, Hov, Hsv. rewrite Hoh, Hsh, Hov, Hsv.
  repeat split; reflexivity.
Qed.

Lemma faceless_calibration_witness :
  exists calibration_data : dict,
    fst (fst (fst (Walk.run_calibration (Camera.mkSession Sample.fresh_tracker None) 9 30 0
                     (Camera.mkStudio [true] [] []) (mkWorld ∅ ∅ ∅ false []))))
      = Ok (Some calibration_data)
    /\ calibration_data !! "h_offset" = Some 0 /\ calibration_data !! "v_offset" = Some 0
    /\ calibration_data !! "h_scale" = Some 1 /\ calibration_data !! "v_scale" = Some 1.
Proof.
  apply (faceless_calibration_is_identity (Camera.mkSession Sample.fresh_tracker None) 9 30 0
           (Camera.mkStudio [true] [] []) (mkWorld ∅ ∅ ∅ false [])).
  - reflexivity.
  - constructor.
  - constructor.
  - simpl. apply not_elem_of_empty.
Defined.

(** * Live tracking *)










(** The import does fail that way: with the calibration module off the
    path, pressing 'c' on the first frame ends [run_live] with
    [ModuleNotFoundError], the camera released and no calibration run. *)
Example run_live_import_fails :
  Live.run_live false (Camera.mkSession Sample.fresh_tracker None) []
    (Camera.mkStudio [true] [Frames.mkFrame (480%Z, 640%Z) None] [99%Z])
    (mkWorld ∅ ∅ ∅ false [])
  = (Live.Raised ModuleNotFoundError,
     Camera.mkSession Sample.fresh_tracker (Some Camera.Released),
     Camera.mkStudio [] [] [],
     mkWorld ∅ ∅ ∅ false []).
Proof. reflexivity. Qed.

Lemma live_loop_without_calibration (on_path : bool) (fuel : nat) :
  forall (self : Camera.Session) (clock : list R) (st : Camera.Studio) (w : World),
    Forall (fun key => Z.land key 255 <> 99%Z) (Camera.keys st) ->
    let out := Live.live_loop on_path fuel self clock st w in
    Camera.tracker (snd (fst (fst out))) = Camera.tracker self /\ snd out = w.
Proof.
  induction fuel as [| fuel IH]; intros self clock st w Hkeys; [split; reflexivity | ].
  cbn [Live.live_loop].
  destruct (Camera.cap self) as [[| |] |]; try (split; reflexivity).
  destruct (Camera.frames st) as [| frame frames]; [split; reflexivity | ].
  destruct (Frames.process_frame (Camera.tracker self) frame); [| split; reflexivity].
  cbn [Camera.wait_key Camera.keys Camera.opens Camera.frames].
  destruct (Z.land (hd (-1)%Z (Camera.keys st)) 255 =? 113)%Z; [split; reflexivity | ].
  destruct (Z.eqb_spec (Z.land (hd (-1)%Z (Camera.keys st)) 255) 99) as [Hc | _].
  - exfalso. destruct Hkeys as [| key keys Hkey _]; [discriminate Hc | contradiction].
  - apply IH. cbn [Camera.keys]. destruct Hkeys; [constructor | assumption].
Qed.

(** X30.  Tracking alone never touches the calibration: as long as the
    key 'c' is not pressed, [run_live] leaves calibration data, calibration
    file name and all files as they were, however many frames it
    processes. *)
Theorem run_live_without_calibration_changes_nothing
    (on_path : bool) (self : Camera.Session) (clock : list R) (st : Camera.Studio)
    (w : World) :
  Forall (fun key => Z.land key 255 <> 99%Z) (Camera.keys st) ->
  let out := Live.run_live on_path self clock st w in
  Camera.tracker (snd (fst (fst out))) = Camera.tracker self /\ snd out = w.
Proof.
  intros Hkeys. unfold Live.run_live, Camera.start_camera.
  destruct (hd false (Camera.opens st)); cbn [negb fst snd Camera.frames]; [| split; reflexivity].
  set (self1 := Camera.mkSession (Camera.tracker self) (Some Camera.Opened)).
  set (st1 := Camera.mkStudio (tl (Camera.opens st)) (Camera.frames st) (Camera.keys st)).
  destruct (live_loop_without_calibration on_path (S (length (Camera.frames st)))
              self1 clock st1 w Hkeys) as [Ht Hw].
  destruct (Live.live_loop on_path (S (length (Camera.frames st))) self1 clock st1 w)
    as [[[ending self'] st'] w']. cbn [fst snd] in Ht, Hw |- *.
  split; [| exact Hw].
  unfold Camera.stop_camera. destruct (Camera.cap self'); exact Ht.
Qed.

Lemma run_live_without_calibration_witness :
  Camera.tracker
    (snd (fst (fst (Live.run_live true (Camera.mkSession Sample.calibrated_tracker None) []
                      (Camera.mkStudio [true] [Frames.mkFrame (480%Z, 640%Z) None] [113%Z])
                      (mkWorld ∅ ∅ ∅ false [])))))
  = Camera.tracker (Camera.mkSession Sample.calibrated_tracker None)
  /\ snd (Live.run_live true (Camera.mkSession Sample.calibrated_tracker None) []
            (Camera.mkStudio [true] [Frames.mkFrame (480%Z, 640%Z) None] [113%Z])
            (mkWorld ∅ ∅ ∅ false []))
     = mkWorld ∅ ∅ ∅ false [].
Proof.
  apply (run_live_without_calibration_changes_nothing true
           (Camera.mkSession Sample.calibrated_tracker None) []
           (Camera.mkStudio [true] [Frames.mkFrame (480%Z, 640%Z) None] [113%Z])
           (mkWorld ∅ ∅ ∅ false [])).
  repeat constructor. discriminate.
Defined.
